(** * hnvlib.mnist: a shallow embedding of the MNIST training pipelines

    The source file [src/hnvlib/mnist.py] defines a small multilayer
    perceptron, a hand-written train / test / predict loop around it
    ([run_pytorch]) and the same network wrapped in a Lightning module
    ([NeuralNetworkModule], [run_pytorch_lightning]).

    Everything the source defines itself is translated function by function.
    What it calls in torch, torchvision, torchmetrics and pytorch_lightning is
    modelled just far enough to give those calls a meaning: tensors are a
    shape with row-major data over an abstract scalar type (no law of
    arithmetic is assumed of the scalars, so nothing below depends on how
    floating point rounds), automatic differentiation and the optimizer's
    update rule are operations of an interface, and every call into the
    framework that has an effect leaves an event in a trace. *)

From Stdlib Require Import ZArith QArith Lia.
From stdpp Require Import base tactics option list strings pretty gmap.

Local Open Scope Z_scope.

(** ** Python exceptions and results *)

Inductive exn :=
| ZeroDivisionError
| IndexError
| ValueError
| RuntimeError
| FileNotFoundError
| MisconfigurationException.

Inductive result (A : Type) :=
| Ok (a : A)
| Raise (e : exn).
Arguments Ok {A} a.
Arguments Raise {A} e.

Definition result_bind {A B} (r : result A) (f : A -> result B) : result B :=
  match r with
  | Ok a => f a
  | Raise e => Raise e
  end.

Definition is_Ok {A} (r : result A) : Prop := exists a, r = Ok a.

(** ** Scalars

    The element type of a tensor. [s_item] is [Tensor.item()]: the value of a
    one-element tensor as a Python number. *)

Class Scalar (R : Type) := {
  s_zero : R;
  s_add : R -> R -> R;
  s_mul : R -> R -> R;
  s_ltb : R -> R -> bool;
  s_item : R -> Q;
}.

#[export] Instance Q_Scalar : Scalar Q := {|
  s_zero := 0%Q;
  s_add := Qplus;
  s_mul := Qmult;
  s_ltb := fun a b => negb (Qle_bool b a);
  s_item := fun a => a;
|}.

(** ** Tensors *)

Record Tensor (R : Type) := mkTensor {
  shape : list nat;
  data : list R;
}.
Arguments mkTensor {R} shape data.
Arguments shape {R} t.
Arguments data {R} t.

Definition numel (sh : list nat) : nat := foldr Nat.mul 1%nat sh.

(** The invariant of every tensor the framework builds. *)
Definition tensor_ok {R} (t : Tensor R) : Prop :=
  length (data t) = numel (shape t).

(** [rows n k d]: the first [k] consecutive rows of width [n] of [d]. *)
Fixpoint rows {A} (n k : nat) (d : list A) : list (list A) :=
  match k with
  | O => []
  | S k' => take n d :: rows n k' (drop n d)
  end.

Section Layers.
Context {R : Type} `{Scalar R}.

(** *** nn.Flatten(), with its defaults start_dim=1, end_dim=-1 *)
Definition Flatten_forward (x : Tensor R) : result (Tensor R) :=
  match shape x with
  | d0 :: d1 :: rest => Ok (mkTensor [d0; numel (d1 :: rest)] (data x))
  | _ => Raise IndexError
  end.

(** *** nn.Linear *)
Record Linear := mkLinear {
  in_features : nat;
  out_features : nat;
  weight : Tensor R;
  bias : Tensor R;
}.

Definition dot (u v : list R) : R :=
  foldr s_add s_zero (zip_with s_mul u v).

(** One input row [x]: [x @ W^T + b]. *)
Definition linear_row (W : list (list R)) (b : list R) (x : list R) : list R :=
  zip_with s_add (map (dot x) W) b.

Definition Linear_forward (l : Linear) (x : Tensor R) : result (Tensor R) :=
  match last (shape x) with
  | Some n =>
      if bool_decide (n = in_features l
                      /\ shape (weight l) = [out_features l; in_features l]
                      /\ shape (bias l) = [out_features l])
      then
        let lead := removelast (shape x) in
        let W := rows (in_features l) (out_features l) (data (weight l)) in
        Ok (mkTensor (lead ++ [out_features l])
              (concat (map (linear_row W (data (bias l)))
                           (rows n (numel lead) (data x)))))
      else Raise RuntimeError
  | None => Raise RuntimeError
  end.

(** *** nn.ReLU *)
Definition relu (a : R) : R := if s_ltb s_zero a then a else s_zero.

Definition ReLU_forward (x : Tensor R) : Tensor R :=
  mkTensor (shape x) (map relu (data x)).

(** *** nn.Sequential *)
Inductive Layer :=
| LLinear (l : Linear)
| LReLU.

Definition Layer_forward (ly : Layer) (x : Tensor R) : result (Tensor R) :=
  match ly with
  | LLinear l => Linear_forward l x
  | LReLU => Ok (ReLU_forward x)
  end.

Fixpoint Sequential_forward (ls : list Layer) (x : Tensor R) : result (Tensor R) :=
  match ls with
  | [] => Ok x
  | ly :: ls' => result_bind (Layer_forward ly x) (Sequential_forward ls')
  end.

(** *** class NeuralNetwork(nn.Module)

    [training] is the mode flag of [nn.Module], switched by [model.train()]
    and [model.eval()]; [flatten] has no state. *)
Record NeuralNetwork := mkNeuralNetwork {
  training : bool;
  linear_relu_stack : list Layer;
}.

(** [nn.Linear(i, o)] with the freshly drawn initial values [w] and [b]. *)
Definition nn_Linear (i o : nat) (w b : list R) : Linear :=
  mkLinear i o (mkTensor [o; i] w) (mkTensor [o] b).

(** The initial values of the three linear layers, as the constructor
    draws them. *)
Record InitValues := mkInit {
  init_w0 : list R; init_b0 : list R;
  init_w2 : list R; init_b2 : list R;
  init_w4 : list R; init_b4 : list R;
}.

(** [NeuralNetwork.__init__] *)
Definition NeuralNetwork_init (iv : InitValues) : NeuralNetwork :=
  mkNeuralNetwork true
    [ LLinear (nn_Linear (28 * 28) 512 (init_w0 iv) (init_b0 iv));
      LReLU;
      LLinear (nn_Linear 512 512 (init_w2 iv) (init_b2 iv));
      LReLU;
      LLinear (nn_Linear 512 10 (init_w4 iv) (init_b4 iv)) ].

(** [NeuralNetwork.forward] *)
Definition NeuralNetwork_forward (m : NeuralNetwork) (x : Tensor R) : result (Tensor R) :=
  result_bind (Flatten_forward x) (fun x =>
  Sequential_forward (linear_relu_stack m) x).

End Layers.

Arguments Linear R : clear implicits.
Arguments Layer R : clear implicits.
Arguments NeuralNetwork R : clear implicits.
Arguments InitValues R : clear implicits.

(** ** Indexing and reductions of tensors *)

Section TensorOps.
Context {R : Type} `{Scalar R}.

(** [t[0]] *)
Definition Tensor_getitem0 (t : Tensor R) : result (Tensor R) :=
  match shape t with
  | d0 :: rest =>
      if bool_decide (d0 = 0%nat) then Raise IndexError
      else Ok (mkTensor rest (take (numel rest) (data t)))
  | [] => Raise IndexError
  end.

(** Index of the first maximal element, scanning left to right. *)
Fixpoint argmax_from (best_i : nat) (best : R) (i : nat) (l : list R) : nat :=
  match l with
  | [] => best_i
  | a :: l' =>
      if s_ltb best a then argmax_from i a (S i) l'
      else argmax_from best_i best (S i) l'
  end.

Definition argmax (l : list R) : result Z :=
  match l with
  | [] => Raise IndexError
  | a :: l' => Ok (Z.of_nat (argmax_from 0 a 1 l'))
  end.

Fixpoint result_mapM {A B} (f : A -> result B) (l : list A) : result (list B) :=
  match l with
  | [] => Ok []
  | a :: l' =>
      result_bind (f a) (fun b =>
      result_bind (result_mapM f l') (fun bs => Ok (b :: bs)))
  end.

(** [t.argmax(0)] of a vector. The network's output row always has rank 1;
    another rank is reported as an error here. *)
Definition Tensor_argmax0 (t : Tensor R) : result Z :=
  match shape t with
  | [_] => argmax (data t)
  | _ => Raise RuntimeError
  end.

(** [t.argmax(1)] of a matrix: one index per row. The network's output
    always has rank 2; a higher rank is reported as an error here. *)
Definition Tensor_argmax1 (t : Tensor R) : result (list Z) :=
  match shape t with
  | [d0; d1] => result_mapM argmax (rows d1 d0 (data t))
  | [] | [_] => Raise IndexError
  | _ => Raise RuntimeError
  end.

(** [torch.stack(ts, 0)] *)
Definition Tensor_stack (ts : list (Tensor R)) : result (Tensor R) :=
  match ts with
  | [] => Raise RuntimeError
  | t0 :: _ =>
      if bool_decide (Forall (fun t => shape t = shape t0) ts)
      then Ok (mkTensor (length ts :: shape t0) (concat (map data ts)))
      else Raise RuntimeError
  end.

(** [(a == b).type(torch.float).sum().item()] for two index vectors. *)
Definition count_equal (a b : list Z) : nat :=
  length (filter (fun p => p.1 = p.2) (zip a b)).

End TensorOps.

(** ** Datasets and data loaders *)

Section Data.
Context {R : Type}.

(** One element of the dataset: [(image, label)]. *)
Record Sample := mkSample {
  image : Tensor R;
  label : Z;
}.

(** A dataset is the sequence of its elements. *)
Abbreviation Dataset := (list Sample) (only parsing).

(** [dataset[i]] *)
Definition Dataset_getitem (ds : Dataset) (i : nat) : result Sample :=
  match ds !! i with
  | Some s => Ok s
  | None => Raise IndexError
  end.

(** What a loader yields: the stacked images and the vector of labels. *)
Record Batch := mkBatch {
  batch_X : Tensor R;
  batch_y : list Z;
}.

(** [torch.utils.data.DataLoader]. [shuffle] is the constructor's optional
    argument, [None] when the call does not pass it. *)
Record DataLoader := mkDataLoader {
  dl_dataset : Dataset;
  dl_batch_size : nat;
  dl_shuffle : option bool;
  dl_num_workers : nat;
}.

Definition DataLoader_new (ds : Dataset) (batch_size : Z) (shuffle : option bool)
    (num_workers : nat) : result DataLoader :=
  if bool_decide (batch_size <= 0) then Raise ValueError
  else Ok (mkDataLoader ds (Z.to_nat batch_size) shuffle num_workers).

(** [len(dataloader)]: the number of batches, the last one possibly short. *)
Definition DataLoader_len (dl : DataLoader) : nat :=
  ((length (dl_dataset dl) + dl_batch_size dl - 1) / dl_batch_size dl)%nat.

(** The loader draws a random permutation only when [shuffle] is true. *)
Definition DataLoader_shuffles (dl : DataLoader) : bool :=
  default false (dl_shuffle dl).

End Data.

Arguments Sample R : clear implicits.
Abbreviation Dataset R := (list (Sample R)) (only parsing).
Arguments Batch R : clear implicits.
Arguments DataLoader R : clear implicits.

(** ** The world the program runs in *)

Inductive Device := cpu | cuda.

#[export] Instance result_ret : MRet result := fun _ a => Ok a.
#[export] Instance result_mbind : MBind result := fun _ _ f r => result_bind r f.
#[export] Instance result_fmap : FMap result := fun _ _ f r => result_bind r (fun a => Ok (f a)).

(** Python's true division of two numbers. *)
Definition py_div (a b : Q) : result Q :=
  if Qeq_bool b 0 then Raise ZeroDivisionError else Ok (a / b)%Q.

Section World.
Context {R : Type} `{Scalar R}.

(** What [print] writes, with the numbers before they are formatted. *)
Inductive Msg :=
| MsgLoss (loss : Q) (current size : Z)
| MsgTestError (percent avg_loss : Q)
| MsgPredicted (predicted actual : Z)
| MsgEpoch (n : Z)
| MsgText (s : string).

Inductive LogValue :=
| LogTensor (r : R)
| LogNumber (q : Q).

(** The calls into the framework, in the order the program makes them. *)
Inductive Event :=
| EvTensorTo (d : Device)
| EvModuleTo (d : Device)
| EvTrainMode
| EvEvalMode
| EvNoGrad (enter : bool)
| EvForward
| EvLoss
| EvZeroGrad
| EvBackward
| EvStep
| EvPrint (m : Msg)
| EvLog (name : string) (v : LogValue)
| EvMetricUpdate
| EvMetricCompute
| EvMetricReset
| EvSave (path : string)
| EvLoad (path : string).

Definition LossFn : Type := Tensor R -> list Z -> result R.

(** [torch.optim.SGD]: the names of the parameters it is bound to, its
    hyper-parameters and its momentum buffers. *)
Record Optimizer := mkOptimizer {
  opt_params : list string;
  opt_lr : Q;
  opt_momentum : Q;
  opt_state : gmap string (Tensor R);
}.

Definition optim_SGD (params : list string) (lr momentum : Q) : Optimizer :=
  mkOptimizer params lr momentum ∅.

(** What the program takes from the framework and its environment without
    defining it: random numbers, automatic differentiation, the update rule
    of the optimizer, the loss, the accelerator and the datasets.
    [datasets_MNIST] is the dataset the constructor returns once the files
    are there: the download and the files under [data/] are not modelled. *)
Class Framework := {
  Rng : Type;
  Grads : Type;
  torch_seed : Rng -> Z * Rng;
  torch_randperm : Rng -> nat -> list nat * Rng;
  torch_init : Rng -> InitValues R * Rng;
  autograd_zero : list string -> Grads -> Grads;
  autograd_backward : LossFn -> NeuralNetwork R -> Tensor R -> list Z -> Grads -> Grads;
  SGD_step : Optimizer -> Grads -> NeuralNetwork R -> Optimizer * NeuralNetwork R;
  CrossEntropyLoss : LossFn;
  cuda_is_available : bool;
  datasets_MNIST : bool -> Dataset R;
}.

Context `{Framework}.

(** The world the program runs in: the framework calls made so far, the
    files written by [torch.save], the state of the global random generator
    and the gradients. *)
Record World := mkWorld {
  trace : list Event;
  files : gmap string (gmap string (Tensor R));
  rng : Rng;
  grads : Grads;
}.

(** A computation returns a value and a world, or raises: the world an
    exception leaves behind is not kept. *)
Definition M (A : Type) : Type := World -> result (A * World).

#[export] Instance M_ret : MRet M := fun _ a w => Ok (a, w).
#[export] Instance M_bind : MBind M := fun _ _ f m w =>
  match m w with
  | Ok (a, w') => f a w'
  | Raise e => Raise e
  end.

Definition lift {A} (r : result A) : M A := fun w =>
  match r with
  | Ok a => Ok (a, w)
  | Raise e => Raise e
  end.

Definition emit (e : Event) : M unit := fun w =>
  Ok (tt, mkWorld (trace w ++ [e]) (files w) (rng w) (grads w)).

Definition print (m : Msg) : M unit := emit (EvPrint m).

(** *** Loops *)

(** [for i, b in enumerate(xs): s = body(i, b, s)], over a lazily produced
    sequence whose elements may fail when they are fetched. *)
Fixpoint for_enumerate {A St} (body : nat -> A -> St -> M St) (i : nat)
    (xs : list (result A)) (s : St) : M St :=
  match xs with
  | [] => mret s
  | x :: xs' =>
      a ← lift x;
      s' ← body i a s;
      for_enumerate body (S i) xs' s'
  end.

Definition for_each {A St} (body : A -> St -> M St) (xs : list (result A)) (s : St) : M St :=
  for_enumerate (fun _ => body) 0 xs s.

(** [range(n)] *)
Definition py_range (n : Z) : list Z := Z.of_nat <$> seq 0 (Z.to_nat n).

(** *** Iterating over a loader *)

Definition default_collate (samples : list (Sample R)) : result (Batch R) :=
  X ← Tensor_stack (image <$> samples);
  mret (mkBatch X (label <$> samples)).

Definition fetch (ds : Dataset R) (indices : list nat) : result (Batch R) :=
  samples ← result_mapM (Dataset_getitem ds) indices;
  default_collate samples.

Definition DataLoader_batches (dl : DataLoader R) (indices : list nat)
    : list (result (Batch R)) :=
  fetch (dl_dataset dl) <$> rows (dl_batch_size dl) (DataLoader_len dl) indices.

Definition randperm (n : nat) : M (list nat) := fun w =>
  let '(p, r) := torch_randperm (rng w) n in
  Ok (p, mkWorld (trace w) (files w) r (grads w)).

(** [torch.empty((), dtype=torch.int64).random_().item()]: a seed drawn
    from the global generator. *)
Definition draw_seed : M Z := fun w =>
  Ok ((torch_seed (rng w)).1,
      mkWorld (trace w) (files w) (torch_seed (rng w)).2 (grads w)).

(** [iter(dataloader)]: every new iterator first draws its base seed from
    the global generator; then a random sampler when the loader shuffles, the
    sequential one otherwise. *)
Definition DataLoader_iter (dl : DataLoader R) : M (list (result (Batch R))) :=
  let n := length (dl_dataset dl) in
  _base_seed ← draw_seed;
  if DataLoader_shuffles dl
  then perm ← randperm n; mret (DataLoader_batches dl perm)
  else mret (DataLoader_batches dl (seq 0 n)).

End World.

Arguments LogValue R : clear implicits.
Arguments Event R : clear implicits.
Arguments LossFn R : clear implicits.
Arguments Optimizer R : clear implicits.
Arguments Framework R : clear implicits.

(** ** Parameters of a module: names, state dict, loading *)

Section StateDict.
Context {R : Type}.

(** The key of a parameter of the [i]-th module of a [Sequential]. *)
Definition param_key (prefix : string) (i : nat) (field : string) : string :=
  prefix +:+ pretty i +:+ "." +:+ field.

(** [named_parameters()], in registration order. *)
Fixpoint Sequential_named_parameters (prefix : string) (i : nat) (ls : list (Layer R))
    : list (string * Tensor R) :=
  match ls with
  | [] => []
  | LLinear l :: ls' =>
      (param_key prefix i "weight", weight l)
      :: (param_key prefix i "bias", bias l)
      :: Sequential_named_parameters prefix (S i) ls'
  | LReLU :: ls' => Sequential_named_parameters prefix (S i) ls'
  end.

(** [state_dict()] of a module whose stack is registered under [prefix]. *)
Definition Sequential_state_dict (prefix : string) (ls : list (Layer R))
    : gmap string (Tensor R) :=
  list_to_map (Sequential_named_parameters prefix 0 ls).

(** [param.copy_(input)] after the shape check of [load_state_dict]. *)
Definition load_param (sd : gmap string (Tensor R)) (key : string) (p : Tensor R)
    : result (Tensor R) :=
  match sd !! key with
  | None => Raise RuntimeError
  | Some t =>
      if bool_decide (shape t = shape p) then Ok (mkTensor (shape p) (data t))
      else Raise RuntimeError
  end.

Fixpoint Sequential_load (prefix : string) (i : nat) (ls : list (Layer R))
    (sd : gmap string (Tensor R)) : result (list (Layer R)) :=
  match ls with
  | [] => Ok []
  | LLinear l :: ls' =>
      w ← load_param sd (param_key prefix i "weight") (weight l);
      b ← load_param sd (param_key prefix i "bias") (bias l);
      ls'' ← Sequential_load prefix (S i) ls' sd;
      mret (LLinear (mkLinear (in_features l) (out_features l) w b) :: ls'')
  | LReLU :: ls' =>
      ls'' ← Sequential_load prefix (S i) ls' sd;
      mret (LReLU :: ls'')
  end.

(** [load_state_dict(sd)], strict: every parameter must be present with its
    shape, and [sd] may hold no other key. *)
Definition Sequential_load_state_dict (prefix : string) (ls : list (Layer R))
    (sd : gmap string (Tensor R)) : result (list (Layer R)) :=
  ls' ← Sequential_load prefix 0 ls sd;
  if bool_decide (dom sd ⊆ dom (Sequential_state_dict prefix ls))
  then Ok ls' else Raise RuntimeError.

Definition NeuralNetwork_parameters (prefix : string) (m : NeuralNetwork R) : list string :=
  fst <$> Sequential_named_parameters (prefix +:+ "linear_relu_stack.") 0 (linear_relu_stack m).

Definition NeuralNetwork_state_dict (m : NeuralNetwork R) : gmap string (Tensor R) :=
  Sequential_state_dict "linear_relu_stack." (linear_relu_stack m).

Definition NeuralNetwork_load_state_dict (m : NeuralNetwork R)
    (sd : gmap string (Tensor R)) : result (NeuralNetwork R) :=
  ls ← Sequential_load_state_dict "linear_relu_stack." (linear_relu_stack m) sd;
  mret (mkNeuralNetwork (training m) ls).

End StateDict.

(** ** The manual pipeline *)

Section Manual.
Context {R : Type} `{Scalar R} `{Framework R}.

(** [torch.save(obj, path)] and [torch.load(path)] *)
Definition torch_save (obj : gmap string (Tensor R)) (path : string) : M unit := fun w =>
  Ok (tt, mkWorld (trace w ++ [EvSave path]) (<[path := obj]> (files w)) (rng w) (grads w)).

Definition torch_load (path : string) : M (gmap string (Tensor R)) := fun w =>
  match files w !! path with
  | Some obj => Ok (obj, mkWorld (trace w ++ [EvLoad path]) (files w) (rng w) (grads w))
  | None => Raise FileNotFoundError
  end.

(** [NeuralNetwork()]: the constructor, drawing the initial values. *)
Definition NeuralNetwork_new : M (NeuralNetwork R) := fun w =>
  let '(iv, r) := torch_init (rng w) in
  Ok (NeuralNetwork_init iv, mkWorld (trace w) (files w) r (grads w)).

(** [model.train()] and [model.eval()] set the mode flag. *)
Definition NeuralNetwork_train (m : NeuralNetwork R) : NeuralNetwork R :=
  mkNeuralNetwork true (linear_relu_stack m).

Definition NeuralNetwork_eval (m : NeuralNetwork R) : NeuralNetwork R :=
  mkNeuralNetwork false (linear_relu_stack m).

(** What [predict] needs of an [nn.Module]. *)
Class Module (Mo : Type) := {
  Module_eval : Mo -> Mo;
  Module_call : Mo -> Tensor R -> result (Tensor R);
}.

#[export] Instance NeuralNetwork_Module : Module (NeuralNetwork R) := {|
  Module_eval := NeuralNetwork_eval;
  Module_call := NeuralNetwork_forward;
|}.

(** [x.to(device)] *)
Definition to_device {A} (x : A) (d : Device) : M A :=
  emit (EvTensorTo d);; mret x.

(** [model.to(device)] *)
Definition Module_to {Mo} (m : Mo) (d : Device) : M Mo :=
  emit (EvModuleTo d);; mret m.

(** [model(X)] *)
Definition call_model `{Module Mo} (m : Mo) (X : Tensor R) : M (Tensor R) :=
  emit EvForward;; lift (Module_call m X).

(** [loss_fn(pred, y)] *)
Definition call_loss (loss_fn : LossFn R) (pred : Tensor R) (y : list Z) : M R :=
  emit EvLoss;; lift (loss_fn pred y).

(** [optimizer.zero_grad()] *)
Definition Optimizer_zero_grad (optimizer : Optimizer R) : M unit := fun w =>
  Ok (tt, mkWorld (trace w ++ [EvZeroGrad]) (files w) (rng w)
            (autograd_zero (opt_params optimizer) (grads w))).

(** [loss.backward()], for the loss [loss_fn(model(X), y)]. *)
Definition Tensor_backward (loss_fn : LossFn R) (model : NeuralNetwork R)
    (X : Tensor R) (y : list Z) : M unit := fun w =>
  Ok (tt, mkWorld (trace w ++ [EvBackward]) (files w) (rng w)
            (autograd_backward loss_fn model X y (grads w))).

(** [optimizer.step()]: updates the parameters of the model the optimizer
    is bound to, and its own buffers. *)
Definition Optimizer_step (optimizer : Optimizer R) (model : NeuralNetwork R)
    : M (Optimizer R * NeuralNetwork R) := fun w =>
  Ok (SGD_step optimizer (grads w) model,
      mkWorld (trace w ++ [EvStep]) (files w) (rng w) (grads w)).

(** [len(X)] *)
Definition Tensor_len (t : Tensor R) : nat := hd 0%nat (shape t).

(** One iteration of the loop of [train]. *)
Definition train_batch (size : nat) (device : Device) (loss_fn : LossFn R)
    (batch : nat) (b : Batch R) (st : NeuralNetwork R * Optimizer R)
    : M (NeuralNetwork R * Optimizer R) :=
  let '(model, optimizer) := st in
  X ← to_device (batch_X b) device;
  y ← to_device (batch_y b) device;

  pred ← call_model model X;
  loss ← call_loss loss_fn pred y;

  Optimizer_zero_grad optimizer;;
  Tensor_backward loss_fn model X y;;
  '(optimizer, model) ← Optimizer_step optimizer model;

  (if bool_decide (Z.of_nat batch `mod` 100 = 0)
   then print (MsgLoss (s_item loss) (Z.of_nat batch * Z.of_nat (Tensor_len X))
                       (Z.of_nat size))
   else mret tt);;
  mret (model, optimizer).

(** [train] returns nothing in the source and changes [model] and
    [optimizer] in place; here it returns them as it leaves them. *)
Definition train (dataloader : DataLoader R) (device : Device) (model : NeuralNetwork R)
    (loss_fn : LossFn R) (optimizer : Optimizer R)
    : M (NeuralNetwork R * Optimizer R) :=
  let size := length (dl_dataset dataloader) in
  emit EvTrainMode;;
  let model := NeuralNetwork_train model in
  batches ← DataLoader_iter dataloader;
  for_enumerate (train_batch size device loss_fn) 0 batches (model, optimizer).

(** One iteration of the loop of [test]. *)
Definition test_batch (device : Device) (model : NeuralNetwork R) (loss_fn : LossFn R)
    (b : Batch R) (acc : Q * Q) : M (Q * Q) :=
  let '(test_loss, correct) := acc in
  X ← to_device (batch_X b) device;
  y ← to_device (batch_y b) device;
  pred ← call_model model X;
  loss ← call_loss loss_fn pred y;
  let test_loss := (test_loss + s_item loss)%Q in
  am ← lift (Tensor_argmax1 pred);
  let correct := (correct + inject_Z (Z.of_nat (count_equal am y)))%Q in
  mret (test_loss, correct).

(** [test] returns the model as [model.eval()] leaves it. *)
Definition test (dataloader : DataLoader R) (device : Device) (model : NeuralNetwork R)
    (loss_fn : LossFn R) : M (NeuralNetwork R) :=
  let size := length (dl_dataset dataloader) in
  let num_batches := DataLoader_len dataloader in
  emit EvEvalMode;;
  let model := NeuralNetwork_eval model in
  emit (EvNoGrad true);;
  batches ← DataLoader_iter dataloader;
  '(test_loss, correct) ← for_each (test_batch device model loss_fn) batches (0%Q, 0%Q);
  emit (EvNoGrad false);;
  test_loss ← lift (py_div test_loss (inject_Z (Z.of_nat num_batches)));
  correct ← lift (py_div correct (inject_Z (Z.of_nat size)));
  print (MsgTestError (100 * correct) test_loss);;
  mret model.

(** [predict] returns the model as [model.eval()] leaves it. *)
Definition predict `{Module Mo} (test_data : Dataset R) (model : Mo) : M Mo :=
  emit EvEvalMode;;
  let model := Module_eval model in
  x ← lift (image <$> Dataset_getitem test_data 0);
  y ← lift (label <$> Dataset_getitem test_data 0);
  emit (EvNoGrad true);;
  pred ← call_model model x;
  pred0 ← lift (Tensor_getitem0 pred);
  predicted ← lift (Tensor_argmax0 pred0);
  let actual := y in
  print (MsgPredicted predicted actual);;
  emit (EvNoGrad false);;
  mret model.

(** One epoch of [run_pytorch]. *)
Definition run_pytorch_epoch (train_dataloader test_dataloader : DataLoader R)
    (device : Device) (loss_fn : LossFn R) (t : Z)
    (st : NeuralNetwork R * Optimizer R) : M (NeuralNetwork R * Optimizer R) :=
  let '(model, optimizer) := st in
  print (MsgEpoch (t + 1));;
  '(model, optimizer) ← train train_dataloader device model loss_fn optimizer;
  model ← test test_dataloader device model loss_fn;
  mret (model, optimizer).

Definition run_pytorch (batch_size epochs : Z) : M unit :=
  let training_data := datasets_MNIST true in
  let test_data := datasets_MNIST false in

  train_dataloader ← lift (DataLoader_new training_data batch_size None 16);
  test_dataloader ← lift (DataLoader_new test_data batch_size None 8);

  let device := if cuda_is_available then cuda else cpu in

  model ← NeuralNetwork_new;
  model ← Module_to model device;

  let loss_fn := CrossEntropyLoss in
  let optimizer := optim_SGD (NeuralNetwork_parameters "" model) (1 # 100) (9 # 10) in

  '(model, optimizer) ←
    for_each (run_pytorch_epoch train_dataloader test_dataloader device loss_fn)
             (Ok <$> py_range epochs) (model, optimizer);
  print (MsgText "Done!");;

  torch_save (NeuralNetwork_state_dict model) "model.pth";;
  print (MsgText "Saved PyTorch Model State to model.pth");;

  model ← NeuralNetwork_new;
  sd ← torch_load "model.pth";
  model ← lift (NeuralNetwork_load_state_dict model sd);
  predict test_data model;;
  mret tt.

End Manual.

(** ** The Lightning pipeline *)

Section Lightning.
Context {R : Type} `{Scalar R} `{Framework R}.

(** *** torchmetrics.Accuracy

    The running state of the metric. [acc_state] is [None] until the first
    [update], which determines the input mode of the metric; from then on
    it holds the number of correct top-1 predictions and the number of
    samples seen. [reset] clears the two counts and keeps the mode, so a
    metric that has been reset differs from one that was never updated:
    [compute] raises on the second and gives 0 on the first. *)
Record Accuracy := mkAccuracy {
  acc_num_classes : nat;
  acc_state : option (nat * nat);
}.

Definition acc_correct (a : Accuracy) : nat :=
  match acc_state a with
  | Some (correct, _) => correct
  | None => 0%nat
  end.

Definition acc_total (a : Accuracy) : nat :=
  match acc_state a with
  | Some (_, total) => total
  | None => 0%nat
  end.

Definition Accuracy_new (num_classes : nat) : Accuracy :=
  mkAccuracy num_classes None.

Definition Accuracy_update (a : Accuracy) (pred : Tensor R) (y : list Z) : result Accuracy :=
  am ← Tensor_argmax1 pred;
  mret (mkAccuracy (acc_num_classes a)
          (Some ((acc_correct a + count_equal am y)%nat, (acc_total a + length y)%nat))).

Definition Accuracy_compute (a : Accuracy) : result Q :=
  match acc_state a with
  | None => Raise RuntimeError
  | Some (correct, total) =>
      if bool_decide (total = 0%nat) then Ok 0%Q
      else Ok (inject_Z (Z.of_nat correct) / inject_Z (Z.of_nat total))%Q
  end.

Definition Accuracy_reset (a : Accuracy) : Accuracy :=
  mkAccuracy (acc_num_classes a)
    (match acc_state a with
     | Some _ => Some (0%nat, 0%nat)
     | None => None
     end).

(** *** class NeuralNetworkModule(pl.LightningModule)

    [self.loss_fn] is the stateless [nn.CrossEntropyLoss()] in every
    instance, so it is not a field. *)
Record NeuralNetworkModule := mkNeuralNetworkModule {
  pl_training : bool;
  model : NeuralNetwork R;
  metric : Accuracy;
}.

(** [NeuralNetworkModule.__init__] *)
Definition NeuralNetworkModule_new : M NeuralNetworkModule :=
  model ← NeuralNetwork_new;
  mret (mkNeuralNetworkModule true model (Accuracy_new 10)).

(** [self.parameters()] *)
Definition NeuralNetworkModule_parameters (self : NeuralNetworkModule) : list string :=
  NeuralNetwork_parameters "model." (model self).

Definition configure_optimizers (self : NeuralNetworkModule) : Optimizer R :=
  optim_SGD (NeuralNetworkModule_parameters self) (1 # 100) (9 # 10).

Definition NeuralNetworkModule_forward (self : NeuralNetworkModule) (x : Tensor R)
    : result (Tensor R) :=
  Module_call (model self) x.

#[export] Instance NeuralNetworkModule_Module : Module NeuralNetworkModule := {|
  Module_eval := fun self =>
    mkNeuralNetworkModule false (NeuralNetwork_eval (model self)) (metric self);
  Module_call := NeuralNetworkModule_forward;
|}.

(** [self.log(name, value, prog_bar=True)] *)
Definition log (name : string) (v : LogValue R) : M unit := emit (EvLog name v).

Definition training_step (self : NeuralNetworkModule) (batch : Batch R) (batch_idx : nat)
    : M (gmap string R) :=
  let X := batch_X batch in
  let y := batch_y batch in

  pred ← call_model self X;
  loss ← call_loss CrossEntropyLoss pred y;

  log "train_loss" (LogTensor loss);;

  mret {[ "loss" := loss ]}.

(** [self.metric.update(pred, y)] *)
Definition metric_update (self : NeuralNetworkModule) (pred : Tensor R) (y : list Z)
    : M NeuralNetworkModule :=
  emit EvMetricUpdate;;
  metric ← lift (Accuracy_update (metric self) pred y);
  mret (mkNeuralNetworkModule (pl_training self) (model self) metric).

Definition validation_step (self : NeuralNetworkModule) (batch : Batch R) (batch_idx : nat)
    : M (NeuralNetworkModule * gmap string R) :=
  let X := batch_X batch in
  let y := batch_y batch in

  pred ← call_model self X;
  loss ← call_loss CrossEntropyLoss pred y;
  self ← metric_update self pred y;

  log "val_loss" (LogTensor loss);;

  mret (self, {[ "val_loss" := loss ]}).

(** [self.metric.compute()] *)
Definition metric_compute (self : NeuralNetworkModule) : M Q :=
  emit EvMetricCompute;; lift (Accuracy_compute (metric self)).

(** [self.metric.reset()] *)
Definition metric_reset (self : NeuralNetworkModule) : M NeuralNetworkModule :=
  emit EvMetricReset;;
  mret (mkNeuralNetworkModule (pl_training self) (model self) (Accuracy_reset (metric self))).

Definition validation_epoch_end (self : NeuralNetworkModule) (outputs : list (gmap string R))
    : M NeuralNetworkModule :=
  v ← metric_compute self;
  log "val_acc" (LogNumber v);;
  metric_reset self.

(** [state_dict()] of the module: the network's parameters under the
    prefix of the attribute that holds it. The metric's running state is
    not persistent and the loss has no state. *)
Definition NeuralNetworkModule_state_dict (self : NeuralNetworkModule)
    : gmap string (Tensor R) :=
  Sequential_state_dict "model.linear_relu_stack." (linear_relu_stack (model self)).

Definition NeuralNetworkModule_load_state_dict (self : NeuralNetworkModule)
    (sd : gmap string (Tensor R)) : result NeuralNetworkModule :=
  ls ← Sequential_load_state_dict "model.linear_relu_stack."
         (linear_relu_stack (model self)) sd;
  mret (mkNeuralNetworkModule (pl_training self)
          (mkNeuralNetwork (training (model self)) ls) (metric self)).

(** *** pytorch_lightning.Trainer *)
Record Trainer := mkTrainer {
  max_epochs : Z;
  gpus : nat;
}.

(** [Trainer(max_epochs=..., gpus=...)]: the constructor refuses a request
    for GPUs on a machine that has none. *)
Definition Trainer_new (max_epochs : Z) (gpus : nat) : result Trainer :=
  if bool_decide (0 < gpus)%nat && negb cuda_is_available
  then Raise MisconfigurationException
  else Ok (mkTrainer max_epochs gpus).

(** [trainer.save_checkpoint(path)], for the module the trainer has fitted. *)
Definition Trainer_save_checkpoint (fitted : NeuralNetworkModule) (path : string) : M unit :=
  torch_save (NeuralNetworkModule_state_dict fitted) path.

(** [NeuralNetworkModule.load_from_checkpoint(checkpoint_path=path)] *)
Definition load_from_checkpoint (path : string) : M NeuralNetworkModule :=
  model ← NeuralNetworkModule_new;
  sd ← torch_load path;
  lift (NeuralNetworkModule_load_state_dict model sd).

(** [trainer.fit]: the trainer owns the loop; the program only hands it
    the module and the two loaders and takes the fitted module back. *)
Variable Trainer_fit :
  Trainer -> NeuralNetworkModule -> DataLoader R -> DataLoader R -> M NeuralNetworkModule.

Definition run_pytorch_lightning (batch_size epochs : Z) : M unit :=
  let training_data := datasets_MNIST true in
  let test_data := datasets_MNIST false in

  train_dataloader ← lift (DataLoader_new training_data batch_size None 16);
  test_dataloader ← lift (DataLoader_new test_data batch_size None 8);

  model ← NeuralNetworkModule_new;
  trainer ← lift (Trainer_new epochs 1);
  model ← Trainer_fit trainer model train_dataloader test_dataloader;

  Trainer_save_checkpoint model "model.ckpt";;
  print (MsgText "Saved PyTorch Lightning Model State to model.ckpt");;

  model ← load_from_checkpoint "model.ckpt";
  predict test_data model;;
  mret tt.

End Lightning.

Arguments Accuracy : clear implicits.
Arguments NeuralNetworkModule R : clear implicits.

(** * Invariants and preconditions *)

Section Invariants.
Context {R : Type} `{Scalar R} `{Framework R}.

(** The architecture [NeuralNetwork.__init__] fixes: what [load_state_dict]
    compares. *)
Definition Linear_arch (i o : nat) (l : Linear R) : Prop :=
  in_features l = i /\ out_features l = o
  /\ shape (weight l) = [o; i] /\ shape (bias l) = [o].

Definition Linear_ok (i o : nat) (l : Linear R) : Prop :=
  Linear_arch i o l /\ tensor_ok (weight l) /\ tensor_ok (bias l).

Definition NeuralNetwork_arch (m : NeuralNetwork R) : Prop :=
  exists l0 l2 l4,
    linear_relu_stack m = [LLinear l0; LReLU; LLinear l2; LReLU; LLinear l4]
    /\ Linear_arch (28 * 28) 512 l0 /\ Linear_arch 512 512 l2 /\ Linear_arch 512 10 l4.

(** The invariant of every object of class [NeuralNetwork]. *)
Definition NeuralNetwork_ok (m : NeuralNetwork R) : Prop :=
  exists l0 l2 l4,
    linear_relu_stack m = [LLinear l0; LReLU; LLinear l2; LReLU; LLinear l4]
    /\ Linear_ok (28 * 28) 512 l0 /\ Linear_ok 512 512 l2 /\ Linear_ok 512 10 l4.

(** An image of 28x28 intensities, with or without the channel axis. *)
Definition image_shape_ok (sh : list nat) : Prop :=
  sh = [28; 28]%nat \/ sh = [1; 28; 28]%nat.

(** What [torchvision]'s [ToTensor] makes of an MNIST digit: one channel of
    28x28 intensities, with a label among the ten classes. *)
Definition sample_ok (s : Sample R) : Prop :=
  shape (image s) = [1; 28; 28]%nat /\ 0 <= label s <= 9.

Definition dataset_ok (ds : Dataset R) : Prop := Forall sample_ok ds.

(** A batch as a loader stacks it from such samples. *)
Definition batch_ok (b : Batch R) : Prop :=
  shape (batch_X b) = [length (batch_y b); 1; 28; 28]%nat
  /\ Forall (fun z => 0 <= z <= 9) (batch_y b).

(** A loss that is defined on ten scores per sample and labels in range. *)
Definition loss_total (loss_fn : LossFn R) : Prop :=
  forall pred y,
    shape pred = [length y; 10%nat] -> Forall (fun z => 0 <= z <= 9) y ->
    is_Ok (loss_fn pred y).

(** A loss that is never negative, as the cross-entropy is. *)
Definition loss_nonneg (loss_fn : LossFn R) : Prop :=
  forall pred y l, loss_fn pred y = Ok l -> (0 <= s_item l)%Q.

(** The random sampler draws a permutation of the indices. *)
Definition randperm_ok : Prop :=
  forall r n, (torch_randperm r n).1 ≡ₚ seq 0 n.

(** The optimizer's update changes values, not shapes. *)
Definition step_keeps_ok : Prop :=
  forall opt g m, NeuralNetwork_ok m -> NeuralNetwork_ok (SGD_step opt g m).2.

(** The constructor draws as many initial values as each parameter holds. *)
Definition init_ok : Prop :=
  forall r, NeuralNetwork_ok (NeuralNetwork_init (torch_init r).1).

(** The class of the score row of the first prediction: [pred[0].argmax(0)]. *)
Definition predicted_class {Mo : Type} {HM : Module (R := R) Mo} (model : Mo) (x : Tensor R) : result Z :=
  pred ← Module_call (Module_eval model) x;
  pred0 ← Tensor_getitem0 pred;
  Tensor_argmax0 pred0.

(** The world after more events. *)
Definition log_events (w : World) (evs : list (Event R)) : World :=
  mkWorld (trace w ++ evs) (files w) (rng w) (grads w).

(** The framework calls of one iteration of the loop of [train], in order:
    the batch and its labels go to the device, the model predicts, the loss
    is computed, the gradients are cleared, the loss is back-propagated and
    the optimizer takes one step. *)
Definition step_calls (device : Device) : list (Event R) :=
  [EvTensorTo device; EvTensorTo device; EvForward; EvLoss;
   EvZeroGrad; EvBackward; EvStep].

Definition is_print (e : Event R) : bool :=
  match e with
  | EvPrint _ => true
  | _ => false
  end.

(** A trace without its progress lines. *)
Definition calls (evs : list (Event R)) : list (Event R) :=
  filter (fun e => is_print e = false) evs.

(** The events that mark where a run of the pipeline is. *)
Inductive Phase :=
| PhEpoch (n : Z)
| PhTrain
| PhStep
| PhEval
| PhTestReport
| PhPredicted
| PhSay (s : string)
| PhSave (path : string)
| PhLoad (path : string).

Definition phase_of (e : Event R) : option Phase :=
  match e with
  | EvPrint (MsgEpoch n) => Some (PhEpoch n)
  | EvTrainMode => Some PhTrain
  | EvStep => Some PhStep
  | EvEvalMode => Some PhEval
  | EvPrint (MsgTestError _ _) => Some PhTestReport
  | EvPrint (MsgPredicted _ _) => Some PhPredicted
  | EvPrint (MsgText s) => Some (PhSay s)
  | EvSave path => Some (PhSave path)
  | EvLoad path => Some (PhLoad path)
  | _ => None
  end.

Definition phases (evs : list (Event R)) : list Phase := omap phase_of evs.


(** A loader that shuffles needs a random source that draws permutations. *)
Definition sampler_ok (dl : DataLoader R) : Prop :=
  DataLoader_shuffles dl = true -> randperm_ok.

(** The number of samples of a fetched batch. *)
Definition batch_len (rb : result (Batch R)) : nat :=
  match rb with
  | Ok b => length (batch_y b)
  | Raise _ => 0%nat
  end.

(** The progress line of one iteration of [train], printed every hundredth
    batch. *)
Definition train_progress (size batch : nat) (X : Tensor R) (loss : R) : list (Event R) :=
  if bool_decide (Z.of_nat batch `mod` 100 = 0)
  then [EvPrint (MsgLoss (s_item loss) (Z.of_nat batch * Z.of_nat (Tensor_len X))
                         (Z.of_nat size))]
  else [].

Definition is_step (e : Event R) : bool :=
  match e with
  | EvStep => true
  | _ => false
  end.

(** How many optimizer updates a trace holds. *)
Definition count_steps (evs : list (Event R)) : nat :=
  length (filter (fun e => is_step e = true) evs).

End Invariants.

(** * The network on one sample *)

Section PerSample.
Context {R : Type} `{Scalar R}.

(** The layers of a stack applied to one row of values: what
    [Sequential_forward] does to each row of a matrix. *)
Fixpoint Sequential_row (ls : list (Layer R)) (x : list R) : list R :=
  match ls with
  | [] => x
  | LLinear l :: ls' =>
      Sequential_row ls'
        (linear_row (rows (in_features l) (out_features l) (data (weight l)))
                    (data (bias l)) x)
  | LReLU :: ls' => Sequential_row ls' (map relu x)
  end.

(** The scores of one image: its values, flattened, through the stack. *)
Definition sample_scores (m : NeuralNetwork R) (img : Tensor R) : list R :=
  Sequential_row (linear_relu_stack m) (data img).

(** Whether the first largest score of a sample is at its label. *)
Definition sample_correct (m : NeuralNetwork R) (s : Sample R) : bool :=
  match argmax (sample_scores m (image s)) with
  | Ok p => bool_decide (p = label s)
  | Raise _ => false
  end.

Definition count_correct (m : NeuralNetwork R) (ds : Dataset R) : nat :=
  length (filter (fun s => sample_correct m s = true) ds).

(** A digit whose tensor holds as many values as its shape says. *)
Definition sample_wf (s : Sample R) : Prop :=
  sample_ok s /\ tensor_ok (image s).

Definition dataset_wf (ds : Dataset R) : Prop := Forall sample_wf ds.

Definition is_PhStep (p : Phase) : bool :=
  match p with
  | PhStep => true
  | _ => false
  end.

(** The calls that change gradients or parameters. *)
Definition is_update (e : Event R) : bool :=
  match e with
  | EvZeroGrad | EvBackward | EvStep => true
  | _ => false
  end.

(** A trace that holds no such call. *)
Definition no_update (evs : list (Event R)) : Prop :=
  Forall (fun e => is_update e = false) evs.

(** The metric has counted no more correct predictions than samples. *)
Definition Accuracy_ok (a : Accuracy) : Prop :=
  (acc_correct a <= acc_total a)%nat.

(** The comparison of scores orders them as [<] orders numbers: it is
    asymmetric, and of two scores in order every third lies above the lower
    or below the upper one. *)
Definition ltb_strict_weak_order : Prop :=
  (forall a b : R, s_ltb a b = true -> s_ltb b a = false)
  /\ (forall a b c : R, s_ltb a c = true -> s_ltb a b = true \/ s_ltb b c = true).

(** How many lines a trace prints. *)
Definition count_prints (evs : list (Event R)) : nat :=
  length (filter (fun e => is_print e = true) evs).

End PerSample.

(** * A small concrete instance

    Rational scalars, a network whose weights are zero and whose last bias
    favours class 3, three training and two test digits, a random source that
    would reverse the indices, and an optimizer step that leaves the values
    alone: enough to run every function above. *)

Definition zeros (n : nat) : list Q := replicate n 0%Q.

Definition demo_image : Tensor Q := mkTensor [1; 28; 28]%nat (zeros (28 * 28)).

Definition demo_sample (lbl : Z) : Sample Q := mkSample demo_image lbl.

Definition demo_init : InitValues Q :=
  mkInit (zeros (512 * (28 * 28))) (zeros 512)
         (zeros (512 * 512)) (zeros 512)
         (zeros (10 * 512)) [0; 1; 0; 3; 0; 0; 3; 0; 0; 2]%Q.

Definition demo_train_data : Dataset Q := [demo_sample 0; demo_sample 1; demo_sample 2].

Definition demo_test_data : Dataset Q := [demo_sample 7; demo_sample 3].

#[export] Instance demo_Framework : Framework Q := {|
  Rng := nat;
  Grads := nat;
  torch_seed := fun r => (Z.of_nat r, S r);
  torch_randperm := fun r n => (reverse (seq 0 n), S r);
  torch_init := fun r => (demo_init, S r);
  autograd_zero := fun _ _ => 0%nat;
  autograd_backward := fun _ _ _ _ g => S g;
  SGD_step := fun opt _ m => (opt, m);
  CrossEntropyLoss := fun _ _ => Ok 1%Q;
  cuda_is_available := false;
  datasets_MNIST := fun train => if train then demo_train_data else demo_test_data;
|}.

Definition demo_world : World := mkWorld [] ∅ 0%nat 0%nat.

Definition demo_model : NeuralNetwork Q := NeuralNetwork_init demo_init.

(** Two stacked all-zero digits, as a loader with [batch_size=2] yields them. *)
Definition demo_batch_X : Tensor Q := mkTensor [2; 1; 28; 28]%nat (zeros (2 * (28 * 28))).

Definition demo_module : NeuralNetworkModule Q :=
  mkNeuralNetworkModule true demo_model (mkAccuracy 10 (Some (3, 4)%nat)).

(** A trainer that hands the module back as it got it. *)
Definition demo_Trainer_fit (trainer : Trainer) (m : NeuralNetworkModule Q)
    (train_dataloader val_dataloader : DataLoader Q) : M (NeuralNetworkModule Q) :=
  mret m.

(** The same instance on a machine with a GPU. *)
Definition demo_cuda_Framework : Framework Q := {|
  Rng := nat;
  Grads := nat;
  torch_seed := fun r => (Z.of_nat r, S r);
  torch_randperm := fun r n => (reverse (seq 0 n), S r);
  torch_init := fun r => (demo_init, S r);
  autograd_zero := fun _ _ => 0%nat;
  autograd_backward := fun _ _ _ _ g => S g;
  SGD_step := fun opt _ m => (opt, m);
  CrossEntropyLoss := fun _ _ => Ok 1%Q;
  cuda_is_available := true;
  datasets_MNIST := fun train => if train then demo_train_data else demo_test_data;
|}.

Definition demo_cuda_world : World (H0 := demo_cuda_Framework) :=
  mkWorld (H0 := demo_cuda_Framework) [] ∅ 0%nat 0%nat.

Definition demo_cuda_Trainer_fit (trainer : Trainer) (m : NeuralNetworkModule Q)
    (train_dataloader val_dataloader : DataLoader Q)
    : M (H0 := demo_cuda_Framework) (NeuralNetworkModule Q) :=
  mret m.

(** A trainer that refuses a loader that shuffles, and otherwise hands the
    module back in evaluation mode. *)
Definition demo_cuda_strict_Trainer_fit (trainer : Trainer) (m : NeuralNetworkModule Q)
    (train_dataloader val_dataloader : DataLoader Q)
    : M (H0 := demo_cuda_Framework) (NeuralNetworkModule Q) :=
  if DataLoader_shuffles train_dataloader || DataLoader_shuffles val_dataloader
  then lift (H0 := demo_cuda_Framework) (Raise RuntimeError)
  else mret m.

(** * Properties *)

(** ** Shapes *)

Section Shapes.
Context {R : Type} `{Scalar R}.

Lemma NeuralNetwork_ok_arch (m : NeuralNetwork R) : NeuralNetwork_ok m -> NeuralNetwork_arch m.
Proof.
  intros (l0 & l2 & l4 & Hs & [H0 _] & [H2 _] & [H4 _]).
  exists l0, l2, l4. auto.
Qed.

Lemma NeuralNetwork_init_arch (iv : InitValues R) : NeuralNetwork_arch (NeuralNetwork_init iv).
Proof.
  unfold NeuralNetwork_init. do 3 eexists.
  split; [reflexivity |]. repeat split.
Qed.

Lemma length_rows {A} n k (d : list A) : length (rows n k d) = k.
Proof. revert d. induction k as [|k IH]; intros d; simpl; [done | by rewrite IH]. Qed.

Lemma length_concat_const {A B} (f : A -> list B) (o : nat) (l : list A) :
  (forall a, length (f a) = o) -> length (concat (map f l)) = (length l * o)%nat.
Proof.
  intros Hf. induction l as [|a l IH]; simpl; [done |].
  rewrite length_app, Hf, IH. done.
Qed.

Lemma rows_const_width {A B} (f : A -> list B) (o k : nat) (l : list A) :
  (forall a, length (f a) = o) -> length l = k ->
  rows o k (concat (map f l)) = map f l.
Proof.
  intros Hf. revert k. induction l as [|a l IH]; intros k Hk; simpl in *; subst k; [done |].
  simpl. rewrite take_app_length' by (by rewrite Hf).
  rewrite drop_app_length' by (by rewrite Hf). f_equal. by apply IH.
Qed.

Lemma length_linear_row (W : list (list R)) b x :
  length (linear_row W b x) = (length W `min` length b)%nat.
Proof. unfold linear_row. by rewrite length_zip_with, length_map. Qed.

(** A linear layer maps [B] rows of width [i] to [B] rows of width [o]. *)
Lemma Linear_forward_shape (l : Linear R) (i o B : nat) (x : Tensor R) :
  Linear_ok i o l -> shape x = [B; i] ->
  exists out, Linear_forward l x = Ok out
    /\ shape out = [B; o] /\ length (data out) = (B * o)%nat
    /\ Forall (fun r => length r = o) (rows o B (data out)).
Proof.
  intros [(Hi & Ho & Hw & Hb) [_ Hbd]] Hx.
  unfold Linear_forward. rewrite Hx. simpl last. cbv beta iota.
  rewrite bool_decide_eq_true_2 by (rewrite Hi, Ho; auto).
  eexists. split; [reflexivity |]. simpl.
  rewrite Ho.
  assert (Hrow : forall r, length (linear_row
            (rows (in_features l) o (data (weight l)))
            (data (bias l)) r) = o).
  { intros r. rewrite length_linear_row, length_rows.
    unfold tensor_ok in Hbd. rewrite Hbd, Hb. simpl. lia. }
  split; [done |].
  rewrite (length_concat_const _ o) by done.
  rewrite length_rows. split; [lia |].
  rewrite (rows_const_width _ o B); [| done | rewrite length_rows; lia].
  apply Forall_forall. intros r Hr. apply list_elem_of_fmap in Hr as (a & -> & _).
  apply Hrow.
Qed.

Lemma ReLU_forward_shape (x : Tensor R) :
  shape (ReLU_forward x) = shape x.
Proof. done. Qed.

Lemma Flatten_forward_image (X : Tensor R) (B : nat) (sh : list nat) :
  shape X = B :: sh -> image_shape_ok sh ->
  exists x0, Flatten_forward X = Ok x0 /\ shape x0 = [B; (28 * 28)%nat] /\ data x0 = data X.
Proof.
  intros HX Hsh. unfold Flatten_forward. rewrite HX.
  destruct Hsh as [-> | ->]; eexists; (split; [reflexivity |]); split; reflexivity.
Qed.

(** The forward pass on a batch of [B] images, step by step. *)
Lemma NeuralNetwork_forward_run (m : NeuralNetwork R) (l0 l2 l4 : Linear R)
    (X : Tensor R) (B : nat) (sh : list nat) :
  linear_relu_stack m = [LLinear l0; LReLU; LLinear l2; LReLU; LLinear l4] ->
  Linear_ok (28 * 28) 512 l0 -> Linear_ok 512 512 l2 -> Linear_ok 512 10 l4 ->
  shape X = B :: sh -> image_shape_ok sh ->
  exists x0 x1 x3 logits,
    Flatten_forward X = Ok x0
    /\ Linear_forward l0 x0 = Ok x1
    /\ Linear_forward l2 (ReLU_forward x1) = Ok x3
    /\ Linear_forward l4 (ReLU_forward x3) = Ok logits
    /\ NeuralNetwork_forward m X = Ok logits
    /\ shape logits = [B; 10%nat]
    /\ length (data logits) = (B * 10)%nat
    /\ Forall (fun scores => length scores = 10%nat) (rows 10 B (data logits)).
Proof.
  intros Hs H0 H2 H4 HX Hsh.
  destruct (Flatten_forward_image X B sh HX Hsh) as (x0 & E0 & S0 & _).
  destruct (Linear_forward_shape l0 _ _ B x0 H0 S0) as (x1 & E1 & S1 & _).
  destruct (Linear_forward_shape l2 _ _ B (ReLU_forward x1) H2 S1) as (x3 & E3 & S3 & _).
  destruct (Linear_forward_shape l4 _ _ B (ReLU_forward x3) H4 S3)
    as (logits & E4 & S4 & L4 & Rw).
  exists x0, x1, x3, logits. repeat split; try done.
  unfold NeuralNetwork_forward. rewrite E0, Hs. simpl.
  rewrite E1. simpl. rewrite E3. simpl. rewrite E4. done.
Qed.

Lemma NeuralNetwork_forward_ok (m : NeuralNetwork R) (X : Tensor R) (B : nat) (sh : list nat) :
  NeuralNetwork_ok m -> shape X = B :: sh -> image_shape_ok sh ->
  exists logits, NeuralNetwork_forward m X = Ok logits
    /\ shape logits = [B; 10%nat]
    /\ length (data logits) = (B * 10)%nat.
Proof.
  intros (l0 & l2 & l4 & Hs & H0 & H2 & H4) HX Hsh.
  destruct (NeuralNetwork_forward_run m l0 l2 l4 X B sh Hs H0 H2 H4 HX Hsh)
    as (_ & _ & _ & logits & _ & _ & _ & _ & E & S & L & _).
  eauto.
Qed.

End Shapes.

(** ** Running monadic code *)

Section Monad.
Context {R : Type} `{Framework R}.

Lemma bind_run {A B} (m : M A) (f : A -> M B) (w w' : World) (a : A) :
  m w = Ok (a, w') -> (m ≫= f) w = f a w'.
Proof. intros E. unfold mbind, M_bind. by rewrite E. Qed.

Lemma bind_raise {A B} (m : M A) (f : A -> M B) (w : World) (e : exn) :
  m w = Raise e -> (m ≫= f) w = Raise e.
Proof. intros E. unfold mbind, M_bind. by rewrite E. Qed.

Lemma bind_inv {A B} (m : M A) (f : A -> M B) (w w'' : World) (b : B) :
  (m ≫= f) w = Ok (b, w'') ->
  exists a w', m w = Ok (a, w') /\ f a w' = Ok (b, w'').
Proof.
  unfold mbind, M_bind. destruct (m w) as [[a w']|e]; [eauto | done].
Qed.

Lemma lift_inv {A} (r : result A) (w w' : World) (a : A) :
  lift r w = Ok (a, w') -> r = Ok a /\ w' = w.
Proof. unfold lift. destruct r; intros E; by simplify_eq. Qed.

Lemma result_bind_inv {A B} (r : result A) (f : A -> result B) (b : B) :
  r ≫= f = Ok b -> exists a, r = Ok a /\ f a = Ok b.
Proof. destruct r; simpl; [eauto | done]. Qed.

Lemma result_fmap_inv {A B} (f : A -> B) (r : result A) (b : B) :
  f <$> r = Ok b -> exists a, r = Ok a /\ b = f a.
Proof. destruct r; simpl; intros E; [simplify_eq; eauto | done]. Qed.

Lemma result_mapM_Ok {A B} (f : A -> result B) (g : A -> B) (l : list A) :
  Forall (fun a => f a = Ok (g a)) l -> result_mapM f l = Ok (g <$> l).
Proof.
  induction 1 as [|a l Ha _ IH]; simpl; [done |].
  rewrite Ha. simpl. rewrite IH. done.
Qed.

Lemma result_mapM_length {A B} (f : A -> result B) (l : list A) (l' : list B) :
  result_mapM f l = Ok l' -> length l' = length l.
Proof.
  revert l'. induction l as [|a l IH]; intros l'; simpl; [by intros [= <-] |].
  destruct (f a); simpl; [| done].
  destruct (result_mapM f l); simpl; [| done].
  intros [= <-]. simpl. by rewrite (IH _ eq_refl).
Qed.

Lemma result_mapM_Forall {A B} (f : A -> result B) (P : B -> Prop) (l : list A) (l' : list B) :
  (forall a b, a ∈ l -> f a = Ok b -> P b) ->
  result_mapM f l = Ok l' -> Forall P l'.
Proof.
  revert l'. induction l as [|a l IH]; intros l' HP; simpl; [by intros [= <-] |].
  destruct (f a) as [b|] eqn:Ea; simpl; [| done].
  destruct (result_mapM f l) as [bs|] eqn:El; simpl; [| done].
  intros [= <-]. constructor.
  - eapply HP; [left | done].
  - apply IH; [| done]. intros a' b' Hin. apply HP. by right.
Qed.

End Monad.

(** ** Loaders *)

Section Loaders.
Context {R : Type} `{Scalar R} `{Framework R}.

Lemma DataLoader_new_pos (ds : Dataset R) (batch_size : Z) (shuffle : option bool) (nw : nat) :
  0 < batch_size ->
  DataLoader_new ds batch_size shuffle nw
  = Ok (mkDataLoader ds (Z.to_nat batch_size) shuffle nw).
Proof.
  intros Hb. unfold DataLoader_new.
  rewrite bool_decide_eq_false_2 by lia. done.
Qed.

(** Without shuffling, iterating draws the base seed of the iterator and no
    permutation, and walks the indices in order. *)
Lemma DataLoader_iter_sequential (dl : DataLoader R) (w : World) :
  DataLoader_shuffles dl = false ->
  DataLoader_iter dl w
  = Ok (DataLoader_batches dl (seq 0 (length (dl_dataset dl))),
        mkWorld (trace w) (files w) (torch_seed (rng w)).2 (grads w)).
Proof. intros Hs. unfold DataLoader_iter. rewrite Hs. done. Qed.

Lemma Dataset_getitem_seq (ds : Dataset R) :
  forall (pre : Dataset R),
    result_mapM (Dataset_getitem (pre ++ ds)) (seq (length pre) (length ds)) = Ok ds.
Proof.
  induction ds as [|s ds IH]; intros pre; simpl; [done |].
  unfold Dataset_getitem at 1.
  rewrite lookup_app_r by lia. rewrite Nat.sub_diag. simpl.
  specialize (IH (pre ++ [s])). rewrite length_app in IH. simpl in IH.
  rewrite Nat.add_1_r, <- app_assoc in IH. simpl in IH. rewrite IH. done.
Qed.

Lemma result_mapM_app {A B} (f : A -> result B) (l1 l2 : list A) (r1 r2 : list B) :
  result_mapM f l1 = Ok r1 -> result_mapM f l2 = Ok r2 ->
  result_mapM f (l1 ++ l2) = Ok (r1 ++ r2).
Proof.
  revert r1. induction l1 as [|a l1 IH]; intros r1; simpl.
  - intros [= <-] E2. done.
  - destruct (f a); simpl; [| done].
    destruct (result_mapM f l1) eqn:E; simpl; [| done].
    intros [= <-] E2. rewrite (IH _ eq_refl E2). done.
Qed.

Lemma result_mapM_take_drop {A B} (f : A -> result B) (n : nat) (l : list A) (r : list B) :
  result_mapM f l = Ok r ->
  result_mapM f (take n l) = Ok (take n r) /\ result_mapM f (drop n l) = Ok (drop n r).
Proof.
  revert n r. induction l as [|a l IH]; intros n r; simpl.
  - intros [= <-]. by destruct n.
  - destruct (f a) as [b|] eqn:Ea; simpl; [| done].
    destruct (result_mapM f l) as [bs|] eqn:El; simpl; [| done].
    intros [= <-]. destruct n as [|n]; simpl.
    + rewrite Ea. simpl. rewrite El. done.
    + destruct (IH n bs eq_refl) as [Et Ed]. rewrite Ea. simpl. rewrite Et. done.
Qed.

(** The sequential loader yields the consecutive chunks of the dataset. *)
Lemma fetch_rows (ds : Dataset R) (bs k : nat) :
  forall (indices : list nat) (samples : list (Sample R)),
    result_mapM (Dataset_getitem ds) indices = Ok samples ->
    fetch ds <$> rows bs k indices = default_collate <$> rows bs k samples.
Proof.
  induction k as [|k IH]; intros indices samples E; simpl; [done |].
  destruct (result_mapM_take_drop _ bs _ _ E) as [Et Ed].
  f_equal; [| by apply IH].
  unfold fetch. rewrite Et. done.
Qed.

Lemma DataLoader_batches_sequential (dl : DataLoader R) :
  DataLoader_batches dl (seq 0 (length (dl_dataset dl)))
  = default_collate <$> rows (dl_batch_size dl) (DataLoader_len dl) (dl_dataset dl).
Proof.
  unfold DataLoader_batches. apply fetch_rows.
  apply (Dataset_getitem_seq (dl_dataset dl) []).
Qed.

End Loaders.

(** ** Saving and loading parameters *)

Section RoundTrip.
Context {R : Type} `{Scalar R} `{Framework R}.

Lemma param_keys_differ (p s1 s2 : string) : s1 <> s2 -> p +:+ s1 <> p +:+ s2.
Proof. intros Hne E. apply Hne. by apply (inj (String.app p)). Qed.

Lemma Tensor_eta (t : Tensor R) : mkTensor (shape t) (data t) = t.
Proof. by destruct t. Qed.

Lemma load_param_same_shape (sd : gmap string (Tensor R)) (key : string) (t p : Tensor R) :
  sd !! key = Some t -> shape t = shape p -> load_param sd key p = Ok t.
Proof.
  intros E Hs. unfold load_param. rewrite E.
  rewrite bool_decide_eq_true_2 by done. rewrite <- Hs. by rewrite Tensor_eta.
Qed.

Lemma Linear_arch_eta (i o : nat) (l l' : Linear R) :
  Linear_arch i o l -> Linear_arch i o l' ->
  mkLinear (in_features l') (out_features l') (weight l) (bias l) = l.
Proof.
  intros (Hi & Ho & _) (Hi' & Ho' & _). rewrite Hi', Ho', <- Hi, <- Ho. by destruct l.
Qed.

Local Ltac key_ne := apply param_keys_differ; discriminate.

(** A state dict written from a stack of the network's architecture loads
    into any other stack of that architecture, and gives back the stack it
    was written from. *)
Lemma Sequential_round_trip (p : string) (ls ls0 : list (Layer R)) :
  NeuralNetwork_arch (mkNeuralNetwork true ls) ->
  NeuralNetwork_arch (mkNeuralNetwork true ls0) ->
  Sequential_load_state_dict p ls0 (Sequential_state_dict p ls) = Ok ls.
Proof.
  intros (l0 & l2 & l4 & Hs & A0 & A2 & A4) (k0 & k2 & k4 & Hs0 & B0 & B2 & B4).
  simpl in Hs, Hs0. subst ls ls0.
  unfold Sequential_load_state_dict, Sequential_state_dict.
  cbn [Sequential_named_parameters Sequential_load list_to_map foldr uncurry fst snd].
  change (param_key p 0 "weight") with (p +:+ "0.weight").
  change (param_key p 0 "bias") with (p +:+ "0.bias").
  change (param_key p 2 "weight") with (p +:+ "2.weight").
  change (param_key p 2 "bias") with (p +:+ "2.bias").
  change (param_key p 4 "weight") with (p +:+ "4.weight").
  change (param_key p 4 "bias") with (p +:+ "4.bias").
  set (sd := <[p +:+ "0.weight" := weight l0]> _).
  assert (E0w : sd !! (p +:+ "0.weight") = Some (weight l0)).
  { subst sd. apply lookup_insert_eq. }
  assert (E0b : sd !! (p +:+ "0.bias") = Some (bias l0)).
  { subst sd. rewrite lookup_insert_ne by key_ne. apply lookup_insert_eq. }
  assert (E2w : sd !! (p +:+ "2.weight") = Some (weight l2)).
  { subst sd. do 2 (rewrite lookup_insert_ne by key_ne). apply lookup_insert_eq. }
  assert (E2b : sd !! (p +:+ "2.bias") = Some (bias l2)).
  { subst sd. do 3 (rewrite lookup_insert_ne by key_ne). apply lookup_insert_eq. }
  assert (E4w : sd !! (p +:+ "4.weight") = Some (weight l4)).
  { subst sd. do 4 (rewrite lookup_insert_ne by key_ne). apply lookup_insert_eq. }
  assert (E4b : sd !! (p +:+ "4.bias") = Some (bias l4)).
  { subst sd. do 5 (rewrite lookup_insert_ne by key_ne). apply lookup_insert_eq. }
  assert (Hdom : dom sd ⊆ dom (<[p +:+ "0.weight" := weight k0]>
                   (<[p +:+ "0.bias" := bias k0]>
                   (<[p +:+ "2.weight" := weight k2]>
                   (<[p +:+ "2.bias" := bias k2]>
                   (<[p +:+ "4.weight" := weight k4]>
                   (<[p +:+ "4.bias" := bias k4]> (∅ : gmap string (Tensor R))))))))).
  { subst sd. rewrite !dom_insert_L. done. }
  pose proof A0 as (_ & _ & W0 & b0). pose proof A2 as (_ & _ & W2 & b2).
  pose proof A4 as (_ & _ & W4 & b4). pose proof B0 as (_ & _ & V0 & c0).
  pose proof B2 as (_ & _ & V2 & c2). pose proof B4 as (_ & _ & V4 & c4).
  rewrite (load_param_same_shape sd _ _ _ E0w) by congruence.
  rewrite (load_param_same_shape sd _ _ _ E0b) by congruence.
  rewrite (load_param_same_shape sd _ _ _ E2w) by congruence.
  rewrite (load_param_same_shape sd _ _ _ E2b) by congruence.
  rewrite (load_param_same_shape sd _ _ _ E4w) by congruence.
  rewrite (load_param_same_shape sd _ _ _ E4b) by congruence.
  cbn [mbind result_mbind result_bind mret result_ret].
  rewrite bool_decide_eq_true_2 by exact Hdom.
  rewrite (Linear_arch_eta _ _ l0 k0 A0 B0), (Linear_arch_eta _ _ l2 k2 A2 B2),
    (Linear_arch_eta _ _ l4 k4 A4 B4).
  reflexivity.
Qed.

End RoundTrip.

(** ** What [predict] does *)

Section Predict.
Context {R : Type} `{Scalar R} `{Framework R}.

(** [predict], run: it fails when the dataset has no first element or the
    forward pass fails; otherwise it returns the model in evaluation mode and
    adds five events to the trace, the fourth being the printed line. *)
Lemma predict_run {Mo : Type} {HM : Module (R := R) Mo} (test_data : Dataset R) (model : Mo) (w : World) :
  predict test_data model w =
  match Dataset_getitem test_data 0 with
  | Raise e => Raise e
  | Ok s =>
      match predicted_class model (image s) with
      | Raise e => Raise e
      | Ok predicted =>
          Ok (Module_eval model,
              mkWorld (trace w ++ [EvEvalMode; EvNoGrad true; EvForward;
                                   EvPrint (MsgPredicted predicted (label s));
                                   EvNoGrad false])
                      (files w) (rng w) (grads w))
      end
  end.
Proof.
  unfold predict, predicted_class, call_model, print, emit, lift.
  unfold mbind, M_bind, mret, M_ret, result_mbind. simpl.
  destruct (Dataset_getitem test_data 0) as [s|e]; simpl; [| done].
  destruct (Module_call (Module_eval model) (image s)) as [pred|e]; simpl; [| done].
  destruct (Tensor_getitem0 pred) as [pred0|e]; simpl; [| done].
  destruct (Tensor_argmax0 pred0) as [predicted|e]; simpl; [| done].
  rewrite <- !app_assoc. reflexivity.
Qed.

Lemma Dataset_getitem_0 (ds1 ds2 : Dataset R) :
  ds1 !! 0%nat = ds2 !! 0%nat -> Dataset_getitem ds1 0 = Dataset_getitem ds2 0.
Proof. intros E. unfold Dataset_getitem. by rewrite E. Qed.

End Predict.

(** ** Persistence round trip (C1) *)

Section Persistence.
Context {R : Type} `{Scalar R} `{Framework R}.

(** Lines 158 to 162 of [run_pytorch], run: the parameters are written to
    [model.pth], a new network is constructed, and the file is loaded into it. *)
Lemma save_reload_run (model : NeuralNetwork R) (w : World) :
  NeuralNetwork_arch model ->
  (torch_save (NeuralNetwork_state_dict model) "model.pth";;
   print (MsgText "Saved PyTorch Model State to model.pth");;
   fresh ← NeuralNetwork_new;
   sd ← torch_load "model.pth";
   lift (NeuralNetwork_load_state_dict fresh sd)) w
  = Ok (mkNeuralNetwork true (linear_relu_stack model),
        mkWorld (trace w ++ [EvSave "model.pth";
                             EvPrint (MsgText "Saved PyTorch Model State to model.pth");
                             EvLoad "model.pth"])
                (<["model.pth" := NeuralNetwork_state_dict model]> (files w))
                (torch_init (rng w)).2 (grads w)).
Proof.
  intros Harch.
  unfold torch_save, print, emit, NeuralNetwork_new, torch_load, lift.
  unfold mbind, M_bind. cbn [trace files rng grads].
  destruct (torch_init (rng w)) as [iv r] eqn:Einit. cbn [trace files rng grads snd].
  rewrite lookup_insert_eq.
  unfold NeuralNetwork_load_state_dict, NeuralNetwork_state_dict.
  rewrite (Sequential_round_trip "linear_relu_stack." (linear_relu_stack model)
             (linear_relu_stack (NeuralNetwork_init iv))).
  - cbn. rewrite <- !app_assoc. reflexivity.
  - destruct Harch as (l0 & l2 & l4 & Hs & A). exists l0, l2, l4. done.
  - apply (NeuralNetwork_init_arch iv).
Qed.

(** Lines 271 to 274 of [run_pytorch_lightning], run. *)
Lemma checkpoint_reload_run (fitted : NeuralNetworkModule R) (w : World) :
  NeuralNetwork_arch (model fitted) ->
  (Trainer_save_checkpoint fitted "model.ckpt";;
   print (MsgText "Saved PyTorch Lightning Model State to model.ckpt");;
   load_from_checkpoint "model.ckpt") w
  = Ok (mkNeuralNetworkModule true
          (mkNeuralNetwork true (linear_relu_stack (model fitted))) (Accuracy_new 10),
        mkWorld (trace w ++ [EvSave "model.ckpt";
                             EvPrint (MsgText "Saved PyTorch Lightning Model State to model.ckpt");
                             EvLoad "model.ckpt"])
                (<["model.ckpt" := NeuralNetworkModule_state_dict fitted]> (files w))
                (torch_init (rng w)).2 (grads w)).
Proof.
  intros Harch.
  unfold Trainer_save_checkpoint, load_from_checkpoint, NeuralNetworkModule_new.
  unfold torch_save, print, emit, NeuralNetwork_new, torch_load, lift.
  unfold mbind, M_bind, mret, M_ret. cbn [trace files rng grads].
  destruct (torch_init (rng w)) as [iv r] eqn:Einit. cbn [trace files rng grads snd].
  rewrite lookup_insert_eq.
  unfold NeuralNetworkModule_load_state_dict, NeuralNetworkModule_state_dict.
  cbn [model pl_training metric].
  rewrite (Sequential_round_trip "model.linear_relu_stack."
             (linear_relu_stack (model fitted))
             (linear_relu_stack (NeuralNetwork_init iv))).
  - cbn. rewrite <- !app_assoc. reflexivity.
  - destruct Harch as (l0 & l2 & l4 & Hs & A). exists l0, l2, l4. done.
  - apply (NeuralNetwork_init_arch iv).
Qed.

(** C1: saving the parameters and loading them into a freshly constructed
    model of the same architecture gives a model with the same [predict]
    output on every dataset, in the manual pipeline ([model.pth], loaded by
    [load_state_dict]) and in the Lightning pipeline ([model.ckpt], loaded
    by [load_from_checkpoint]). The reloaded parameters are those of the
    saved model, so the forward pass agrees on every input. *)
Theorem save_then_load_predicts_the_same
    (trained : NeuralNetwork R) (fitted : NeuralNetworkModule R) (w : World) :
  NeuralNetwork_arch trained ->
  NeuralNetwork_arch (model fitted) ->
  (exists reloaded w',
     (torch_save (NeuralNetwork_state_dict trained) "model.pth";;
      print (MsgText "Saved PyTorch Model State to model.pth");;
      fresh ← NeuralNetwork_new;
      sd ← torch_load "model.pth";
      lift (NeuralNetwork_load_state_dict fresh sd)) w = Ok (reloaded, w')
     /\ (forall x, NeuralNetwork_forward reloaded x = NeuralNetwork_forward trained x)
     /\ (forall test_data w0,
           predict test_data reloaded w0 = predict test_data trained w0))
  /\
  (exists reloaded w',
     (Trainer_save_checkpoint fitted "model.ckpt";;
      print (MsgText "Saved PyTorch Lightning Model State to model.ckpt");;
      load_from_checkpoint "model.ckpt") w = Ok (reloaded, w')
     /\ (forall x, NeuralNetworkModule_forward reloaded x = NeuralNetworkModule_forward fitted x)
     /\ (forall test_data w0,
           snd <$> predict test_data reloaded w0 = snd <$> predict test_data fitted w0)).
Proof.
  intros Ht Hf. split.
  - eexists _, _. split; [by apply save_reload_run |].
    split; [done |]. intros test_data w0. reflexivity.
  - eexists _, _. split; [by apply checkpoint_reload_run |].
    split; [done |]. intros test_data w0.
    rewrite !predict_run. destruct (Dataset_getitem test_data 0) as [s|e]; [| done].
    unfold predicted_class. cbn [Module_call Module_eval NeuralNetworkModule_Module model].
    unfold NeuralNetworkModule_forward. cbn [model].
    destruct (_ ≫= _); done.
Qed.

End Persistence.

(** ** The class a score vector selects *)

Section Argmax.
Context {R : Type} `{Scalar R}.

Lemma argmax_from_bound (l : list R) :
  forall best_i best i, (best_i < i)%nat ->
    (argmax_from best_i best i l < i + length l)%nat.
Proof.
  induction l as [|a l IH]; intros best_i best i Hlt; simpl; [lia |].
  destruct (s_ltb best a).
  - specialize (IH i a (S i)). lia.
  - specialize (IH best_i best (S i)). lia.
Qed.

Lemma argmax_bound (l : list R) (p : Z) :
  argmax l = Ok p -> 0 <= p < Z.of_nat (length l).
Proof.
  destruct l as [|a l]; simpl; [done |]. intros [= <-].
  pose proof (argmax_from_bound l 0 a 1). lia.
Qed.

Lemma argmax_nonempty (l : list R) : l <> [] -> is_Ok (argmax l).
Proof. destruct l; [done |]. intros _. eexists. reflexivity. Qed.

Lemma numel_2 (o i : nat) : numel [o; i] = (o * i)%nat.
Proof. unfold numel. simpl. lia. Qed.

(** Initial values of the right sizes make a well-formed network. *)
Lemma NeuralNetwork_init_ok (iv : InitValues R) :
  length (init_w0 iv) = (512 * (28 * 28))%nat -> length (init_b0 iv) = 512%nat ->
  length (init_w2 iv) = (512 * 512)%nat -> length (init_b2 iv) = 512%nat ->
  length (init_w4 iv) = (10 * 512)%nat -> length (init_b4 iv) = 10%nat ->
  NeuralNetwork_ok (NeuralNetwork_init iv).
Proof.
  intros W0 B0 W2 B2 W4 B4. unfold NeuralNetwork_init.
  do 3 eexists. split; [reflexivity |].
  unfold Linear_ok, Linear_arch, tensor_ok, nn_Linear.
  cbn [in_features out_features weight bias shape data].
  rewrite !numel_2.
  repeat split; try assumption; unfold numel; cbn [foldr]; lia.
Qed.

(** The class [predict] reports for scores of one sample: the index of the
    first largest of its ten scores. *)
Lemma predicted_class_of_scores (scores : Tensor R) :
  shape scores = [1; 10]%nat -> length (data scores) = 10%nat ->
  exists predicted pred0,
    argmax (data scores) = Ok predicted
    /\ 0 <= predicted <= 9
    /\ Tensor_getitem0 scores = Ok pred0
    /\ Tensor_argmax0 pred0 = Ok predicted.
Proof.
  intros Hs Hl.
  destruct (argmax_nonempty (data scores)) as [p Hp].
  { intros E. rewrite E in Hl. done. }
  exists p. eexists. split; [done |]. split.
  { apply argmax_bound in Hp. lia. }
  unfold Tensor_getitem0. rewrite Hs. simpl. split; [reflexivity |].
  unfold Tensor_argmax0. simpl.
  rewrite take_ge by lia. done.
Qed.

End Argmax.

Lemma demo_model_ok : NeuralNetwork_ok demo_model.
Proof.
  apply NeuralNetwork_init_ok; unfold demo_init, zeros;
    cbn [init_w0 init_b0 init_w2 init_b2 init_w4 init_b4];
    first [apply length_replicate | reflexivity].
Qed.

Lemma demo_sample_ok (lbl : Z) : 0 <= lbl <= 9 -> sample_ok (demo_sample lbl).
Proof. intros Hl. split; [reflexivity | exact Hl]. Qed.

(** ** [predict]: what it reads and what it changes (C9, C10) *)

Section PredictFrame.
Context {R : Type} `{Scalar R} `{Framework R}.

(** On a well-formed network and a dataset whose first element is a digit,
    [predict] returns: it prints the first largest of the ten scores against
    the label of that element. *)
Lemma predict_first_sample_run (model : NeuralNetwork R) (s : Sample R)
    (rest : Dataset R) (w : World) :
  NeuralNetwork_ok model -> sample_ok s ->
  exists scores predicted,
    NeuralNetwork_forward model (image s) = Ok scores
    /\ shape scores = [1; 10]%nat
    /\ argmax (data scores) = Ok predicted
    /\ 0 <= predicted <= 9
    /\ predict (s :: rest) model w
       = Ok (NeuralNetwork_eval model,
             mkWorld (trace w ++ [EvEvalMode; EvNoGrad true; EvForward;
                                  EvPrint (MsgPredicted predicted (label s));
                                  EvNoGrad false])
                     (files w) (rng w) (grads w)).
Proof.
  intros Hm [Hs Hl].
  destruct (NeuralNetwork_forward_ok model (image s) 1 [28; 28]%nat Hm Hs)
    as (scores & E & Sh & Ln); [by left |].
  destruct (predicted_class_of_scores scores Sh Ln) as (p & pred0 & Ea & Hp & Eg & Em).
  exists scores, p. repeat split; try done; try lia.
  rewrite predict_run. simpl.
  unfold predicted_class. cbn [Module_call Module_eval NeuralNetwork_Module].
  change (NeuralNetwork_forward (NeuralNetwork_eval model) (image s))
    with (NeuralNetwork_forward model (image s)).
  rewrite E. cbn [mbind result_mbind result_bind].
  rewrite Eg. unfold mbind, result_mbind. cbn [result_bind]. rewrite Em. reflexivity.
Qed.

(** C9, as the code has it: [predict] runs the model once, on the first
    element of the dataset, and prints the first largest of its ten scores
    against that element's label. It changes no parameter, no file, no
    gradient and no random state; its one effect on the model is
    [model.eval()], which leaves the model in evaluation mode. *)
Theorem predict_one_sample_then_eval_mode (model : NeuralNetwork R) (s : Sample R)
    (rest : Dataset R) (w : World) :
  NeuralNetwork_ok model -> sample_ok s ->
  exists scores predicted model' w',
    predict (s :: rest) model w = Ok (model', w')
    /\ NeuralNetwork_forward model (image s) = Ok scores
    /\ argmax (data scores) = Ok predicted
    /\ trace w' = trace w ++ [EvEvalMode; EvNoGrad true; EvForward;
                              EvPrint (MsgPredicted predicted (label s));
                              EvNoGrad false]
    /\ linear_relu_stack model' = linear_relu_stack model
    /\ training model' = false
    /\ files w' = files w /\ grads w' = grads w /\ rng w' = rng w.
Proof.
  intros Hm Hs.
  destruct (predict_first_sample_run model s rest w Hm Hs)
    as (scores & p & E & _ & Ea & _ & Ep).
  exists scores, p. eexists _, _. split; [exact Ep |]. repeat split; done.
Qed.

(** C10: the outcome of [predict] is a function of the element at index 0
    of the dataset and of the parameters of the model. Datasets that agree at
    index 0, and networks that agree on their parameters, give the same
    result, the same printed line and the same final world; for the Lightning
    module, whose other fields [predict] hands back untouched, the same
    holds of the world. *)
Theorem predict_depends_on_first_element_only
    (m1 m2 : NeuralNetwork R) (p1 p2 : NeuralNetworkModule R)
    (ds1 ds2 : Dataset R) (w : World) :
  ds1 !! 0%nat = ds2 !! 0%nat ->
  linear_relu_stack m1 = linear_relu_stack m2 ->
  linear_relu_stack (model p1) = linear_relu_stack (model p2) ->
  predict ds1 m1 w = predict ds2 m2 w
  /\ snd <$> predict ds1 p1 w = snd <$> predict ds2 p2 w.
Proof.
  intros Hd Hm Hp. rewrite !predict_run.
  rewrite (Dataset_getitem_0 ds1 ds2 Hd).
  destruct (Dataset_getitem ds2 0) as [s|e]; [| done].
  unfold predicted_class.
  cbn [Module_call Module_eval NeuralNetwork_Module NeuralNetworkModule_Module].
  unfold NeuralNetworkModule_forward, NeuralNetwork_eval, NeuralNetwork_forward.
  cbn [model linear_relu_stack Module_call NeuralNetwork_Module].
  unfold NeuralNetwork_forward. cbn [linear_relu_stack].
  rewrite Hm, Hp. split; [reflexivity |].
  destruct (_ ≫= _); reflexivity.
Qed.

End PredictFrame.

Lemma predict_one_sample_then_eval_mode_witness :
  NeuralNetwork_ok demo_model /\ sample_ok (demo_sample 7)
  /\ exists scores predicted model' w',
       predict (demo_sample 7 :: [demo_sample 3]) demo_model demo_world = Ok (model', w')
       /\ NeuralNetwork_forward demo_model (image (demo_sample 7)) = Ok scores
       /\ argmax (data scores) = Ok predicted
       /\ trace w' = trace demo_world ++ [EvEvalMode; EvNoGrad true; EvForward;
                       EvPrint (MsgPredicted predicted (label (demo_sample 7)));
                       EvNoGrad false]
       /\ linear_relu_stack model' = linear_relu_stack demo_model
       /\ training model' = false
       /\ files w' = files demo_world /\ grads w' = grads demo_world
       /\ rng w' = rng demo_world.
Proof.
  split; [exact demo_model_ok |]. split; [apply demo_sample_ok; lia |].
  apply (predict_one_sample_then_eval_mode demo_model (demo_sample 7) [demo_sample 3] demo_world).
  - exact demo_model_ok.
  - apply demo_sample_ok; lia.
Defined.

(** C9 as stated fails: [predict] is not free of effects on the model. A
    freshly constructed network is in training mode; after [predict] it is in
    evaluation mode, so the model object has changed. *)
Lemma predict_changes_the_mode_of_the_model :
  training demo_model = true
  /\ exists model' w',
       predict demo_test_data demo_model demo_world = Ok (model', w')
       /\ training model' = false
       /\ model' <> demo_model.
Proof.
  split; [reflexivity |].
  destruct (predict_first_sample_run demo_model (demo_sample 7) [demo_sample 3] demo_world)
    as (scores & p & _ & _ & _ & _ & Ep).
  - exact demo_model_ok.
  - apply demo_sample_ok; lia.
  - eexists _, _. split; [exact Ep |]. split; [reflexivity |].
    intros E. apply (f_equal training) in E. discriminate E.
Qed.

Lemma predict_depends_on_first_element_only_witness :
  demo_test_data !! 0%nat = [demo_sample 7; demo_sample 5; demo_sample 1] !! 0%nat
  /\ linear_relu_stack demo_model = linear_relu_stack (NeuralNetwork_eval demo_model)
  /\ linear_relu_stack (model (mkNeuralNetworkModule true demo_model (Accuracy_new 10)))
     = linear_relu_stack (model (mkNeuralNetworkModule false demo_model (mkAccuracy 10 (Some (3, 4)%nat))))
  /\ predict demo_test_data demo_model demo_world
     = predict [demo_sample 7; demo_sample 5; demo_sample 1] (NeuralNetwork_eval demo_model)
         demo_world
  /\ snd <$> predict demo_test_data
               (mkNeuralNetworkModule true demo_model (Accuracy_new 10)) demo_world
     = snd <$> predict [demo_sample 7; demo_sample 5; demo_sample 1]
                 (mkNeuralNetworkModule false demo_model (mkAccuracy 10 (Some (3, 4)%nat))) demo_world.
Proof.
  split; [reflexivity |]. split; [reflexivity |]. split; [reflexivity |].
  apply (predict_depends_on_first_element_only
           demo_model (NeuralNetwork_eval demo_model)
           (mkNeuralNetworkModule true demo_model (Accuracy_new 10))
           (mkNeuralNetworkModule false demo_model (mkAccuracy 10 (Some (3, 4)%nat)))
           demo_test_data [demo_sample 7; demo_sample 5; demo_sample 1] demo_world);
    reflexivity.
Defined.

Lemma save_then_load_predicts_the_same_witness :
  NeuralNetwork_arch demo_model
  /\ NeuralNetwork_arch (model (mkNeuralNetworkModule true demo_model (mkAccuracy 10 (Some (3, 4)%nat))))
  /\ (exists reloaded w',
        (torch_save (NeuralNetwork_state_dict demo_model) "model.pth";;
         print (MsgText "Saved PyTorch Model State to model.pth");;
         fresh ← NeuralNetwork_new;
         sd ← torch_load "model.pth";
         lift (NeuralNetwork_load_state_dict fresh sd)) demo_world = Ok (reloaded, w')
        /\ (forall x, NeuralNetwork_forward reloaded x = NeuralNetwork_forward demo_model x)
        /\ (forall test_data w0,
              predict test_data reloaded w0 = predict test_data demo_model w0))
  /\ (exists reloaded w',
        (Trainer_save_checkpoint (mkNeuralNetworkModule true demo_model (mkAccuracy 10 (Some (3, 4)%nat)))
           "model.ckpt";;
         print (MsgText "Saved PyTorch Lightning Model State to model.ckpt");;
         load_from_checkpoint "model.ckpt") demo_world = Ok (reloaded, w')
        /\ (forall x,
              NeuralNetworkModule_forward reloaded x
              = NeuralNetworkModule_forward
                  (mkNeuralNetworkModule true demo_model (mkAccuracy 10 (Some (3, 4)%nat))) x)
        /\ (forall test_data w0,
              snd <$> predict test_data reloaded w0
              = snd <$> predict test_data
                          (mkNeuralNetworkModule true demo_model (mkAccuracy 10 (Some (3, 4)%nat))) w0)).
Proof.
  split; [apply NeuralNetwork_init_arch |]. split; [apply NeuralNetwork_init_arch |].
  apply (save_then_load_predicts_the_same demo_model
           (mkNeuralNetworkModule true demo_model (mkAccuracy 10 (Some (3, 4)%nat))) demo_world);
    apply NeuralNetwork_init_arch.
Defined.

(** ** The forward pass (C2) *)

Section Forward.
Context {R : Type} `{Scalar R}.

(** C2: on a batch of [B] images of 28x28 intensities the forward pass
    flattens the batch to [B] rows of 784 values, applies the first linear
    layer, ReLU, the second linear layer, ReLU and the third linear layer,
    and returns that layer's output as it is: a tensor of shape [B; 10],
    that is [B] rows of exactly ten scores. *)
Theorem forward_gives_ten_scores_per_image
    (m : NeuralNetwork R) (X : Tensor R) (B : nat) (sh : list nat) :
  NeuralNetwork_ok m -> shape X = B :: sh -> image_shape_ok sh ->
  exists l0 l2 l4 x1 x3 logits,
    linear_relu_stack m = [LLinear l0; LReLU; LLinear l2; LReLU; LLinear l4]
    /\ Flatten_forward X = Ok (mkTensor [B; (28 * 28)%nat] (data X))
    /\ Linear_forward l0 (mkTensor [B; (28 * 28)%nat] (data X)) = Ok x1
    /\ Linear_forward l2 (ReLU_forward x1) = Ok x3
    /\ Linear_forward l4 (ReLU_forward x3) = Ok logits
    /\ NeuralNetwork_forward m X = Ok logits
    /\ shape logits = [B; 10%nat]
    /\ length (rows 10 B (data logits)) = B
    /\ Forall (fun scores => length scores = 10%nat) (rows 10 B (data logits))
    /\ concat (rows 10 B (data logits)) = data logits.
Proof.
  intros (l0 & l2 & l4 & Hs & H0 & H2 & H4) HX Hsh.
  destruct (NeuralNetwork_forward_run m l0 l2 l4 X B sh Hs H0 H2 H4 HX Hsh)
    as (x0 & x1 & x3 & logits & E0 & E1 & E3 & E4 & E & S & L & Rw).
  destruct (Flatten_forward_image X B sh HX Hsh) as (x0' & E0' & S0 & D0).
  assert (x0 = mkTensor [B; (28 * 28)%nat] (data X)) as ->.
  { rewrite E0 in E0'. injection E0' as <-. destruct x0 as [s0 d0]. simpl in *. congruence. }
  exists l0, l2, l4, x1, x3, logits. repeat split; try done.
  - apply length_rows.
  - clear -L. revert L. generalize (data logits). clear.
    induction B as [|B IH]; intros d L; simpl.
    + by destruct d.
    + rewrite IH by (rewrite length_drop; lia). apply take_drop.
Qed.

End Forward.

Lemma forward_gives_ten_scores_per_image_witness :
  NeuralNetwork_ok demo_model /\ shape demo_batch_X = 2%nat :: [1; 28; 28]%nat
  /\ image_shape_ok [1; 28; 28]%nat
  /\ exists l0 l2 l4 x1 x3 logits,
       linear_relu_stack demo_model = [LLinear l0; LReLU; LLinear l2; LReLU; LLinear l4]
       /\ Flatten_forward demo_batch_X = Ok (mkTensor [2; 28 * 28]%nat (data demo_batch_X))
       /\ Linear_forward l0 (mkTensor [2; 28 * 28]%nat (data demo_batch_X)) = Ok x1
       /\ Linear_forward l2 (ReLU_forward x1) = Ok x3
       /\ Linear_forward l4 (ReLU_forward x3) = Ok logits
       /\ NeuralNetwork_forward demo_model demo_batch_X = Ok logits
       /\ shape logits = [2; 10]%nat
       /\ length (rows 10 2 (data logits)) = 2%nat
       /\ Forall (fun scores => length scores = 10%nat) (rows 10 2 (data logits))
       /\ concat (rows 10 2 (data logits)) = data logits.
Proof.
  split; [exact demo_model_ok |]. split; [reflexivity |]. split; [by right |].
  apply (forward_gives_ten_scores_per_image demo_model demo_batch_X 2 [1; 28; 28]%nat).
  - exact demo_model_ok.
  - reflexivity.
  - by right.
Defined.

(** ** The callbacks of the Lightning module (C6, C7) *)

Section Callbacks.
Context {R : Type} `{Scalar R} `{Framework R}.

Lemma training_step_run (self : NeuralNetworkModule R) (batch : Batch R)
    (batch_idx : nat) (w : World) :
  training_step self batch batch_idx w =
  match NeuralNetworkModule_forward self (batch_X batch) with
  | Raise e => Raise e
  | Ok pred =>
      match CrossEntropyLoss pred (batch_y batch) with
      | Raise e => Raise e
      | Ok loss =>
          Ok ({[ "loss" := loss ]},
              mkWorld (trace w ++ [EvForward; EvLoss; EvLog "train_loss" (LogTensor loss)])
                      (files w) (rng w) (grads w))
      end
  end.
Proof.
  unfold training_step, call_model, call_loss, log, emit, lift.
  unfold mbind, M_bind, mret, M_ret. simpl.
  destruct (NeuralNetworkModule_forward self (batch_X batch)) as [pred|e]; simpl; [| done].
  destruct (CrossEntropyLoss pred (batch_y batch)) as [loss|e]; simpl; [| done].
  rewrite <- !app_assoc. reflexivity.
Qed.

(** C6: the training-step callback computes the cross-entropy loss of the
    batch, logs it as [train_loss] and returns it under the key [loss]. The
    events it leaves are the forward pass, the loss and the log entry: it
    clears no gradient, back-propagates nothing and takes no optimizer step,
    and the gradients are as they were. The optimizer-configuration callback
    returns one SGD optimizer with learning rate 0.01 and momentum 0.9,
    bound to the six parameters of the module's network. *)
Theorem training_step_leaves_the_update_to_the_trainer
    (self : NeuralNetworkModule R) (batch : Batch R) (batch_idx : nat) (w : World) :
  match NeuralNetworkModule_forward self (batch_X batch)
        ≫= (fun pred => CrossEntropyLoss pred (batch_y batch)) with
  | Ok loss =>
      exists w',
        training_step self batch batch_idx w = Ok ({[ "loss" := loss ]}, w')
        /\ trace w' = trace w ++ [EvForward; EvLoss; EvLog "train_loss" (LogTensor loss)]
        /\ (EvZeroGrad ∉ drop (length (trace w)) (trace w'))
        /\ (EvBackward ∉ drop (length (trace w)) (trace w'))
        /\ (EvStep ∉ drop (length (trace w)) (trace w'))
        /\ grads w' = grads w /\ files w' = files w
  | Raise e => training_step self batch batch_idx w = Raise e
  end
  /\ configure_optimizers self
     = mkOptimizer (NeuralNetworkModule_parameters self) (1 # 100) (9 # 10) ∅
  /\ ~ (opt_momentum (configure_optimizers self) == 0)%Q
  /\ (NeuralNetwork_arch (model self) ->
      opt_params (configure_optimizers self)
      = ["model.linear_relu_stack.0.weight"; "model.linear_relu_stack.0.bias";
         "model.linear_relu_stack.2.weight"; "model.linear_relu_stack.2.bias";
         "model.linear_relu_stack.4.weight"; "model.linear_relu_stack.4.bias"]).
Proof.
  split; [| split; [reflexivity | split; [by intros E |] ] ].
  - rewrite training_step_run.
    destruct (NeuralNetworkModule_forward self (batch_X batch)) as [pred|e]; simpl; [| done].
    destruct (CrossEntropyLoss pred (batch_y batch)) as [loss|e]; simpl; [| done].
    eexists. split; [reflexivity |]. cbn [trace files grads].
    rewrite drop_app_length.
    repeat split; try done; intros Hin;
      repeat (apply elem_of_cons in Hin as [Hin | Hin]; [discriminate Hin |]);
      by apply elem_of_nil in Hin.
  - intros (l0 & l2 & l4 & Hs & _).
    unfold configure_optimizers, optim_SGD, NeuralNetworkModule_parameters,
      NeuralNetwork_parameters. cbn [opt_params]. rewrite Hs. reflexivity.
Qed.

Lemma validation_epoch_end_run (self : NeuralNetworkModule R)
    (outputs : list (gmap string R)) (w : World) :
  validation_epoch_end self outputs w =
  match Accuracy_compute (metric self) with
  | Raise e => Raise e
  | Ok v =>
      Ok (mkNeuralNetworkModule (pl_training self) (model self)
            (Accuracy_reset (metric self)),
          mkWorld (trace w ++ [EvMetricCompute; EvLog "val_acc" (LogNumber v); EvMetricReset])
                  (files w) (rng w) (grads w))
  end.
Proof.
  unfold validation_epoch_end, metric_compute, metric_reset, log, emit, lift.
  unfold mbind, M_bind, mret, M_ret. simpl.
  destruct (Accuracy_compute (metric self)) as [v|e]; simpl; [| done].
  rewrite <- !app_assoc. reflexivity.
Qed.

Lemma validation_step_run (self : NeuralNetworkModule R) (batch : Batch R)
    (batch_idx : nat) (w : World) :
  validation_step self batch batch_idx w =
  match NeuralNetworkModule_forward self (batch_X batch) with
  | Raise e => Raise e
  | Ok pred =>
      match CrossEntropyLoss pred (batch_y batch) with
      | Raise e => Raise e
      | Ok loss =>
          match Accuracy_update (metric self) pred (batch_y batch) with
          | Raise e => Raise e
          | Ok metric' =>
              Ok ((mkNeuralNetworkModule (pl_training self) (model self) metric',
                   {[ "val_loss" := loss ]}),
                  mkWorld (trace w ++ [EvForward; EvLoss; EvMetricUpdate;
                                       EvLog "val_loss" (LogTensor loss)])
                          (files w) (rng w) (grads w))
          end
      end
  end.
Proof.
  unfold validation_step, metric_update, call_model, call_loss, log, emit, lift.
  unfold mbind, M_bind, mret, M_ret. simpl.
  destruct (NeuralNetworkModule_forward self (batch_X batch)) as [pred|e]; simpl; [| done].
  destruct (CrossEntropyLoss pred (batch_y batch)) as [loss|e]; simpl; [| done].
  destruct (Accuracy_update (metric self) pred (batch_y batch)) as [metric'|e]; simpl; [| done].
  rewrite <- !app_assoc. reflexivity.
Qed.

(** A metric that has been updated computes to a value. *)
Lemma Accuracy_compute_updated (a : Accuracy) :
  acc_state a <> None -> exists v, Accuracy_compute a = Ok v.
Proof.
  unfold Accuracy_compute. destruct (acc_state a) as [[correct total]|]; [| done].
  intros _. destruct (bool_decide (total = 0%nat)); by eexists.
Qed.

(** After [validation_step] the metric has been updated. *)
Lemma validation_step_updates (before self : NeuralNetworkModule R) (batch : Batch R)
    (batch_idx : nat) (w0 w : World) (out : gmap string R) :
  validation_step before batch batch_idx w0 = Ok ((self, out), w) ->
  acc_state (metric self) <> None
  /\ acc_total (metric self) = (acc_total (metric before) + length (batch_y batch))%nat
  /\ (acc_correct (metric before) <= acc_correct (metric self))%nat.
Proof.
  intros E. rewrite validation_step_run in E.
  destruct (NeuralNetworkModule_forward before (batch_X batch)) as [pred|e]; [| done].
  destruct (CrossEntropyLoss pred (batch_y batch)) as [loss|e]; [| done].
  destruct (Accuracy_update (metric before) pred (batch_y batch)) as [metric'|e] eqn:Eu;
    [| done].
  injection E as <- _ _. cbn [metric].
  unfold Accuracy_update in Eu. apply result_bind_inv in Eu as (am & _ & Eu).
  injection Eu as <-. split; [done |].
  split; [reflexivity |]. set (c := acc_correct (metric before)).
  unfold acc_correct. cbn [acc_state]. lia.
Qed.

(** C7: every validation step leaves the metric updated, with the labels
    of its batch added to the counts. On a metric that has been updated, the
    end-of-validation-epoch callback computes the accumulated value, logs
    that value as [val_acc], and then resets the accumulator, in this order.
    Whatever had been accumulated, the accumulator the callback leaves holds
    the counts 0 and 0, and computing it gives 0, the value of the reset
    state, not the value logged. *)
Theorem validation_epoch_end_reads_logs_then_resets
    (self : NeuralNetworkModule R) (outputs : list (gmap string R)) (w : World) :
  (forall (before : NeuralNetworkModule R) (batch : Batch R) (batch_idx : nat)
          (w0 : World) (out : gmap string R),
     validation_step before batch batch_idx w0 = Ok ((self, out), w) ->
     acc_state (metric self) <> None
     /\ acc_total (metric self) = (acc_total (metric before) + length (batch_y batch))%nat
     /\ (acc_correct (metric before) <= acc_correct (metric self))%nat)
  /\ (acc_state (metric self) <> None ->
      exists v self' w',
        Accuracy_compute (metric self) = Ok v
        /\ validation_epoch_end self outputs w = Ok (self', w')
        /\ trace w' = trace w ++ [EvMetricCompute; EvLog "val_acc" (LogNumber v);
                                  EvMetricReset]
        /\ acc_state (metric self') = Some (0%nat, 0%nat)
        /\ acc_num_classes (metric self') = acc_num_classes (metric self)
        /\ Accuracy_compute (metric self') = Ok 0%Q
        /\ model self' = model self).
Proof.
  split.
  - intros before batch batch_idx w0 out E.
    by apply (validation_step_updates before self batch batch_idx w0 w out).
  - intros Hupd. destruct (Accuracy_compute_updated (metric self) Hupd) as [v Ev].
    exists v. rewrite validation_epoch_end_run, Ev.
    eexists _, _. split; [reflexivity |]. split; [reflexivity |].
    unfold Accuracy_compute.
    cbn [trace metric model Accuracy_reset acc_state acc_num_classes].
    destruct (acc_state (metric self)) as [st|] eqn:Est; [| done].
    repeat split.
Qed.

End Callbacks.

(** ** The batches of a loader *)

Section Batches.
Context {R : Type} `{Scalar R} `{Framework R}.

Lemma rows_elem {A} (n k : nat) (d : list A) (c : list A) (x : A) :
  c ∈ rows n k d -> x ∈ c -> x ∈ d.
Proof.
  revert d. induction k as [|k IH]; intros d; simpl; [by intros ?%elem_of_nil |].
  intros [-> | Hc]%elem_of_cons Hx.
  - rewrite <- (take_drop n d). apply elem_of_app. by left.
  - rewrite <- (take_drop n d). apply elem_of_app. right. by eapply IH.
Qed.

Lemma sum_list_cons (x : nat) (l : list nat) : sum_list (x :: l) = (x + sum_list l)%nat.
Proof. reflexivity. Qed.

Lemma rows_sum_length {A} (n k : nat) (d : list A) :
  (sum_list (length <$> rows n k d) <= length d)%nat.
Proof.
  revert d. induction k as [|k IH]; intros d; [simpl; lia |].
  specialize (IH (drop n d)). rewrite length_drop in IH.
  cbn [rows]. rewrite fmap_cons, sum_list_cons, length_take. lia.
Qed.

Lemma rows_nonempty {A} (bs k : nat) (d : list A) :
  k = 0%nat \/ (0 < bs /\ (k - 1) * bs < length d)%nat ->
  Forall (fun c => c <> []) (rows bs k d).
Proof.
  revert d. induction k as [|k IH]; intros d Hk; simpl; [constructor |].
  destruct Hk as [Hk | [Hbs Hlen]]; [done |].
  constructor.
  - destruct d as [|a d]; [simpl in Hlen; lia |]. destruct bs; [lia | done].
  - apply IH. destruct k as [|k]; [by left |]. right. split; [done |].
    rewrite length_drop.
    replace (S (S k) - 1)%nat with (S k) in Hlen by lia.
    replace (S k - 1)%nat with k by lia.
    rewrite Nat.mul_succ_l in Hlen. lia.
Qed.

Lemma DataLoader_len_chunks (n bs : nat) :
  let k := ((n + bs - 1) / bs)%nat in
  k = 0%nat \/ (0 < bs /\ (k - 1) * bs < n)%nat.
Proof.
  intros k. destruct bs as [|bs]; [by left |].
  destruct (decide (k = 0%nat)) as [| Hk]; [by left |]. right. split; [lia |].
  pose proof (Nat.Div0.mul_div_le (n + S bs - 1) (S bs)) as Hle. fold k in Hle.
  destruct n as [|n].
  - exfalso. apply Hk. subst k. apply Nat.div_small. lia.
  - nia.
Qed.

Lemma DataLoader_len_pos (dl : DataLoader R) :
  (0 < dl_batch_size dl)%nat -> dl_dataset dl <> [] -> (0 < DataLoader_len dl)%nat.
Proof.
  intros Hbs Hds. unfold DataLoader_len.
  destruct (dl_dataset dl) as [|s ds]; [done |]. simpl length.
  apply Nat.div_str_pos. lia.
Qed.

Lemma length_DataLoader_batches (dl : DataLoader R) (indices : list nat) :
  length (DataLoader_batches dl indices) = DataLoader_len dl.
Proof. unfold DataLoader_batches. by rewrite length_fmap, length_rows. Qed.

Lemma fetch_length (ds : Dataset R) (c : list nat) (b : Batch R) :
  fetch ds c = Ok b -> length (batch_y b) = length c.
Proof.
  unfold fetch, default_collate. intros E.
  apply result_bind_inv in E as (samples & Es & E).
  apply result_bind_inv in E as (X & _ & E). injection E as <-. simpl.
  rewrite length_fmap. by eapply result_mapM_length.
Qed.

Lemma DataLoader_batches_length (dl : DataLoader R) (indices : list nat) :
  (sum_list (batch_len <$> DataLoader_batches dl indices) <= length indices)%nat.
Proof.
  unfold DataLoader_batches.
  etrans; [| apply (rows_sum_length (dl_batch_size dl) (DataLoader_len dl) indices)].
  generalize (rows (dl_batch_size dl) (DataLoader_len dl) indices). intros cs.
  induction cs as [|c cs IH]; [simpl; lia |].
  assert (batch_len (fetch (dl_dataset dl) c) <= length c)%nat.
  { unfold batch_len. destruct (fetch (dl_dataset dl) c) eqn:E; [| lia].
    apply fetch_length in E. lia. }
  rewrite !fmap_cons, !sum_list_cons. lia.
Qed.

(** Fetching a non-empty chunk of valid indices of a dataset of digits gives a
    well-formed batch. *)
Lemma fetch_ok (ds : Dataset R) (c : list nat) :
  dataset_ok ds -> c <> [] -> Forall (fun i => i < length ds)%nat c ->
  exists b, fetch ds c = Ok b /\ batch_ok b.
Proof.
  intros Hds Hc Hidx.
  assert (exists samples, result_mapM (Dataset_getitem ds) c = Ok samples
            /\ Forall sample_ok samples /\ length samples = length c)
    as (samples & Es & Hs & Hl).
  { clear Hc. induction Hidx as [|i c Hi _ IH]; simpl.
    - exists []. done.
    - destruct IH as (samples & Es & Hs & Hl).
      destruct (lookup_lt_is_Some_2 ds i Hi) as [s Hsi].
      unfold Dataset_getitem at 1. rewrite Hsi. simpl. rewrite Es. simpl.
      exists (s :: samples). split; [done |]. split; [| simpl; lia].
      constructor; [| done].
      unfold dataset_ok in Hds. rewrite Forall_forall in Hds. apply Hds.
      by eapply list_elem_of_lookup_2. }
  destruct samples as [|s0 samples]; [destruct c; simpl in *; done |].
  unfold fetch. rewrite Es. cbn [mbind result_mbind result_bind].
  unfold default_collate, Tensor_stack. cbn [fmap list_fmap].
  apply Forall_cons in Hs as [[Hs0 Hl0] Hs].
  rewrite bool_decide_eq_true_2.
  - eexists. split; [reflexivity |]. split; cbn [batch_X batch_y shape].
    + rewrite Hs0. simpl. by rewrite !length_fmap.
    + constructor; [done |]. apply Forall_fmap. eapply Forall_impl; [exact Hs |].
      by intros s' [_ ?].
  - constructor; [done |]. apply Forall_fmap. eapply Forall_impl; [exact Hs |].
    intros s' [Hs' _]. simpl. congruence.
Qed.

Lemma DataLoader_batches_ok (dl : DataLoader R) (indices : list nat) :
  dataset_ok (dl_dataset dl) -> indices ≡ₚ seq 0 (length (dl_dataset dl)) ->
  Forall (fun rb => exists b, rb = Ok b /\ batch_ok b) (DataLoader_batches dl indices).
Proof.
  intros Hds Hperm. unfold DataLoader_batches. apply Forall_fmap.
  assert (Hlen : length indices = length (dl_dataset dl)).
  { by rewrite Hperm, length_seq. }
  assert (Hlt : Forall (fun i => i < length (dl_dataset dl))%nat indices).
  { rewrite Hperm. apply Forall_seq. intros; lia. }
  pose proof (rows_nonempty (dl_batch_size dl) (DataLoader_len dl) indices) as Hne.
  rewrite Hlen in Hne. specialize (Hne (DataLoader_len_chunks _ _)).
  rewrite Forall_forall in Hne |- *. intros c Hc. simpl.
  apply fetch_ok; [done | by apply Hne |].
  rewrite Forall_forall in Hlt |- *. intros i Hi. apply Hlt. by eapply rows_elem.
Qed.

(** Iterating a loader consults at most the random source, and yields the
    batches of a permutation of the indices. *)
Lemma DataLoader_iter_run (dl : DataLoader R) (w : World) :
  sampler_ok dl ->
  exists indices r',
    DataLoader_iter dl w
    = Ok (DataLoader_batches dl indices, mkWorld (trace w) (files w) r' (grads w))
    /\ indices ≡ₚ seq 0 (length (dl_dataset dl)).
Proof.
  intros Hs. unfold DataLoader_iter, sampler_ok in *.
  destruct (DataLoader_shuffles dl).
  - specialize (Hs eq_refl (torch_seed (rng w)).2 (length (dl_dataset dl))).
    unfold draw_seed, randperm, mbind, M_bind, mret, M_ret. cbn [trace files rng grads].
    destruct (torch_randperm (torch_seed (rng w)).2 (length (dl_dataset dl))) as [p r].
    simpl in *. by exists p, r.
  - exists (seq 0 (length (dl_dataset dl))), (torch_seed (rng w)).2. split; [| done].
    reflexivity.
Qed.

End Batches.

(** ** The training step (C3) *)

Section Train.
Context {R : Type} `{Scalar R} `{Framework R}.

Lemma emit_run (e : Event R) (w : World) : emit e w = Ok (tt, log_events w [e]).
Proof. reflexivity. Qed.

Lemma calls_app (a b : list (Event R)) : calls (a ++ b) = calls a ++ calls b.
Proof. apply filter_app. Qed.

Lemma phases_app (a b : list (Event R)) : phases (a ++ b) = phases a ++ phases b.
Proof. apply omap_app. Qed.

Lemma calls_step_calls (device : Device) : calls (step_calls (R := R) device) = step_calls device.
Proof. reflexivity. Qed.

Lemma phases_step_calls (device : Device) : phases (step_calls (R := R) device) = [PhStep].
Proof. reflexivity. Qed.

Lemma calls_train_progress (size batch : nat) (X : Tensor R) (loss : R) :
  calls (train_progress size batch X loss) = [].
Proof. unfold train_progress. by destruct (bool_decide _). Qed.

Lemma phases_train_progress (size batch : nat) (X : Tensor R) (loss : R) :
  phases (train_progress size batch X loss) = [].
Proof. unfold train_progress. by destruct (bool_decide _). Qed.

Lemma count_steps_app (a b : list (Event R)) :
  count_steps (a ++ b) = (count_steps a + count_steps b)%nat.
Proof. unfold count_steps. by rewrite filter_app, length_app. Qed.

Lemma count_steps_step_calls (device : Device) :
  count_steps (step_calls (R := R) device) = 1%nat.
Proof. reflexivity. Qed.

Lemma count_steps_train_progress (size batch : nat) (X : Tensor R) (loss : R) :
  count_steps (train_progress size batch X loss) = 0%nat.
Proof. unfold train_progress. by destruct (bool_decide _). Qed.

(** One iteration of the loop of [train], run. *)
Lemma train_batch_run (size : nat) (device : Device) (loss_fn : LossFn R) (batch : nat)
    (b : Batch R) (model : NeuralNetwork R) (optimizer : Optimizer R) (w : World) :
  train_batch size device loss_fn batch b (model, optimizer) w =
  match NeuralNetwork_forward model (batch_X b) with
  | Raise e => Raise e
  | Ok pred =>
      match loss_fn pred (batch_y b) with
      | Raise e => Raise e
      | Ok loss =>
          let g := autograd_backward loss_fn model (batch_X b) (batch_y b)
                     (autograd_zero (opt_params optimizer) (grads w)) in
          Ok (((SGD_step optimizer g model).2, (SGD_step optimizer g model).1),
              mkWorld (trace w ++ step_calls device
                         ++ train_progress size batch (batch_X b) loss)
                      (files w) (rng w) g)
      end
  end.
Proof.
  unfold train_batch, to_device, call_model, call_loss, Optimizer_zero_grad,
    Tensor_backward, Optimizer_step, print, emit, lift, train_progress, step_calls.
  unfold mbind, M_bind, mret, M_ret. cbn [trace files rng grads].
  cbn [Module_call NeuralNetwork_Module].
  destruct (NeuralNetwork_forward model (batch_X b)) as [pred|e]; [| done].
  destruct (loss_fn pred (batch_y b)) as [loss|e]; [| done].
  cbn [trace files rng grads].
  destruct (SGD_step _ _ model) as [opt' model']. cbn [fst snd].
  destruct (bool_decide _); cbn [trace files rng grads];
    rewrite <- !app_assoc; reflexivity.
Qed.

(** The loop of [train] over well-formed batches runs to its end, and each
    iteration leaves the seven calls in order, then at most a progress line. *)
Lemma train_loop_ok (size : nat) (device : Device) (loss_fn : LossFn R) :
  loss_total loss_fn -> step_keeps_ok ->
  forall (batches : list (result (Batch R))) (i : nat) (model : NeuralNetwork R)
         (optimizer : Optimizer R) (w : World),
    NeuralNetwork_ok model ->
    Forall (fun rb => exists b, rb = Ok b /\ batch_ok b) batches ->
    exists model' optimizer' w' evs,
      for_enumerate (train_batch size device loss_fn) i batches (model, optimizer) w
      = Ok ((model', optimizer'), w')
      /\ trace w' = trace w ++ evs
      /\ calls evs = concat (replicate (length batches) (step_calls device))
      /\ phases evs = replicate (length batches) PhStep
      /\ count_steps evs = length batches
      /\ NeuralNetwork_ok model'
      /\ files w' = files w.
Proof.
  intros Hloss Hstep batches.
  induction batches as [|rb batches IH]; intros i model optimizer w Hm Hb.
  - exists model, optimizer, w, []. simpl. rewrite app_nil_r. done.
  - apply Forall_cons in Hb as [(b & -> & [HX Hy]) Hb].
    destruct (NeuralNetwork_forward_ok model (batch_X b) _ _ Hm HX)
      as (pred & Ep & Sp & _); [by right |].
    destruct (Hloss pred (batch_y b) Sp Hy) as [loss El].
    pose proof (train_batch_run size device loss_fn i b model optimizer w) as Erun.
    rewrite Ep, El in Erun. cbv zeta in Erun.
    set (g := autograd_backward _ _ _ _ _) in Erun.
    set (w1 := mkWorld _ _ _ _) in Erun.
    destruct (IH (S i) (SGD_step optimizer g model).2 (SGD_step optimizer g model).1 w1)
      as (model' & optimizer' & w' & evs & Eloop & Et & Ec & Eph & En & Hm' & Ef);
      [by apply Hstep | done |].
    exists model', optimizer', w',
      (step_calls device ++ train_progress size i (batch_X b) loss ++ evs).
    split; [| split; [| split; [| split; [| split; [| split]]]]].
    + cbn [for_enumerate]. unfold mbind at 1, M_bind at 1. cbn [lift].
      rewrite (bind_run _ _ _ _ _ Erun). exact Eloop.
    + rewrite Et. subst w1. cbn [trace]. by rewrite <- !app_assoc.
    + rewrite !calls_app, calls_step_calls, calls_train_progress, Ec. reflexivity.
    + rewrite !phases_app, phases_step_calls, phases_train_progress, Eph. reflexivity.
    + rewrite !count_steps_app, count_steps_step_calls, count_steps_train_progress, En.
      reflexivity.
    + exact Hm'.
    + rewrite Ef. reflexivity.
Qed.

(** [train], run on a dataset of digits. *)
Lemma train_ok (dataloader : DataLoader R) (device : Device) (model : NeuralNetwork R)
    (loss_fn : LossFn R) (optimizer : Optimizer R) (w : World) :
  NeuralNetwork_ok model -> step_keeps_ok -> loss_total loss_fn ->
  sampler_ok dataloader -> dataset_ok (dl_dataset dataloader) ->
  exists model' optimizer' w' evs,
    train dataloader device model loss_fn optimizer w = Ok ((model', optimizer'), w')
    /\ trace w' = trace w ++ EvTrainMode :: evs
    /\ calls evs = concat (replicate (DataLoader_len dataloader) (step_calls device))
    /\ phases evs = replicate (DataLoader_len dataloader) PhStep
    /\ count_steps evs = DataLoader_len dataloader
    /\ NeuralNetwork_ok model'
    /\ files w' = files w.
Proof.
  intros Hm Hstep Hloss Hs Hds.
  destruct (DataLoader_iter_run dataloader (log_events w [EvTrainMode]) Hs)
    as (indices & r' & Eit & Hperm).
  set (w1 := mkWorld _ _ r' _) in Eit.
  destruct (train_loop_ok (length (dl_dataset dataloader)) device loss_fn Hloss Hstep
              (DataLoader_batches dataloader indices) 0 (NeuralNetwork_train model)
              optimizer w1)
    as (model' & optimizer' & w' & evs & Eloop & Et & Ec & Eph & En & Hm' & Ef).
  { destruct Hm as (l0 & l2 & l4 & Hst & Hl). exists l0, l2, l4. done. }
  { by apply DataLoader_batches_ok. }
  exists model', optimizer', w', evs.
  rewrite length_DataLoader_batches in Ec, Eph, En.
  split; [| split; [| repeat split; try done]].
  - unfold train. rewrite (bind_run _ _ _ _ _ (emit_run EvTrainMode w)).
    rewrite (bind_run _ _ _ _ _ Eit). exact Eloop.
  - rewrite Et. subst w1. cbn [trace log_events]. by rewrite <- app_assoc.
Qed.


End Train.

(** ** The test step (C4) *)

Section Test.
Context {R : Type} `{Scalar R} `{Framework R}.

Lemma count_equal_le (a b : list Z) : (count_equal a b <= length b)%nat.
Proof.
  unfold count_equal. etrans; [apply length_filter |].
  rewrite length_zip. lia.
Qed.

Lemma py_div_inv (a b q : Q) :
  py_div a b = Ok q -> ~ (b == 0)%Q /\ q = (a / b)%Q.
Proof.
  unfold py_div. destruct (Qeq_bool b 0) eqn:E; [done |].
  intros [= <-]. split; [| done]. by apply Qeq_bool_neq.
Qed.

Lemma py_div_nat_pos (a : Q) (n : nat) :
  (0 < n)%nat -> py_div a (inject_Z (Z.of_nat n)) = Ok (a / inject_Z (Z.of_nat n))%Q.
Proof.
  intros Hn. unfold py_div.
  destruct (Qeq_bool (inject_Z (Z.of_nat n)) 0) eqn:E; [| done].
  apply Qeq_bool_eq in E. unfold Qeq in E. simpl in E. lia.
Qed.

Lemma inject_nat_pos (n : nat) : ~ (inject_Z (Z.of_nat n) == 0)%Q -> (0 < n)%nat.
Proof.
  intros Hne. destruct n; [| lia]. exfalso. apply Hne. reflexivity.
Qed.

Lemma Qdiv_nat_nonneg (a : Q) (n : nat) :
  (0 < n)%nat -> (0 <= a)%Q -> (0 <= a / inject_Z (Z.of_nat n))%Q.
Proof.
  intros Hn Ha. apply Qle_shift_div_l.
  - change 0%Q with (inject_Z 0). rewrite <- Zlt_Qlt. lia.
  - by rewrite Qmult_0_l.
Qed.

Lemma Qdiv_nat_le_1 (a : Q) (k n : nat) :
  (0 < n)%nat -> (k <= n)%nat -> (a == inject_Z (Z.of_nat k))%Q ->
  (a / inject_Z (Z.of_nat n) <= 1)%Q.
Proof.
  intros Hn Hk Ha. apply Qle_shift_div_r.
  - change 0%Q with (inject_Z 0). rewrite <- Zlt_Qlt. lia.
  - rewrite Qmult_1_l, Ha. rewrite <- Zle_Qle. lia.
Qed.

(** One iteration of the loop of [test], run. *)
Lemma test_batch_run (device : Device) (model : NeuralNetwork R) (loss_fn : LossFn R)
    (b : Batch R) (test_loss correct : Q) (w : World) :
  test_batch device model loss_fn b (test_loss, correct) w =
  match NeuralNetwork_forward model (batch_X b) with
  | Raise e => Raise e
  | Ok pred =>
      match loss_fn pred (batch_y b) with
      | Raise e => Raise e
      | Ok loss =>
          match Tensor_argmax1 pred with
          | Raise e => Raise e
          | Ok am =>
              Ok (((test_loss + s_item loss)%Q,
                   (correct + inject_Z (Z.of_nat (count_equal am (batch_y b))))%Q),
                  log_events w [EvTensorTo device; EvTensorTo device; EvForward; EvLoss])
          end
      end
  end.
Proof.
  unfold test_batch, to_device, call_model, call_loss, emit, lift, log_events.
  unfold mbind, M_bind, mret, M_ret. cbn [trace files rng grads].
  cbn [Module_call NeuralNetwork_Module].
  destruct (NeuralNetwork_forward model (batch_X b)) as [pred|e]; [| done].
  destruct (loss_fn pred (batch_y b)) as [loss|e]; [| done].
  cbn [trace files rng grads].
  destruct (Tensor_argmax1 pred) as [am|e]; [| done].
  rewrite <- !app_assoc. reflexivity.
Qed.

(** Whenever the loop of [test] comes to its end, the accumulated loss has
    not decreased and the count of correct predictions has grown by a whole
    number that is at most the number of samples in the batches. *)
Lemma test_loop_bounds (device : Device) (model : NeuralNetwork R) (loss_fn : LossFn R) :
  forall (batches : list (result (Batch R))) (i : nat) (test_loss correct : Q) (w : World)
         (test_loss' correct' : Q) (w' : World),
    for_enumerate (fun _ => test_batch device model loss_fn) i batches (test_loss, correct) w
    = Ok ((test_loss', correct'), w') ->
    (loss_nonneg loss_fn -> (test_loss <= test_loss')%Q)
    /\ (exists k : nat,
          (correct' == correct + inject_Z (Z.of_nat k))%Q
          /\ (k <= sum_list (batch_len <$> batches))%nat)
    /\ exists evs, trace w' = trace w ++ evs /\ phases evs = [] /\ files w' = files w.
Proof.
  intros batches.
  induction batches as [|rb batches IH]; intros i tl c w tl' c' w' E.
  - injection E as <- <- <-. split; [intros _; apply Qle_refl |]. split.
    + exists 0%nat. split; [| simpl; lia]. simpl. rewrite Qplus_0_r. reflexivity.
    + exists []. by rewrite app_nil_r.
  - cbn [for_enumerate] in E.
    apply bind_inv in E as (b & w0 & Eb & E). apply lift_inv in Eb as [-> ->].
    apply bind_inv in E as ([tl1 c1] & w1 & Estep & E).
    rewrite test_batch_run in Estep.
    destruct (NeuralNetwork_forward model (batch_X b)) as [pred|e]; [| done].
    destruct (loss_fn pred (batch_y b)) as [loss|e] eqn:El; [| done].
    destruct (Tensor_argmax1 pred) as [am|e]; [| done].
    injection Estep as <- <- <-.
    apply IH in E as (Htl & (k & Hk & Hle) & (evs & Et & Eph & Ef)).
    split; [| split].
    + intros Hnn. eapply Qle_trans; [| exact (Htl Hnn)]. specialize (Hnn _ _ _ El).
      rewrite <- (Qplus_0_r tl) at 1. by apply Qplus_le_r.
    + exists (count_equal am (batch_y b) + k)%nat. split.
      * rewrite Hk, Nat2Z.inj_add, inject_Z_plus. ring.
      * rewrite fmap_cons, sum_list_cons. cbn [batch_len].
        pose proof (count_equal_le am (batch_y b)). lia.
    + eexists. split; [| split].
      * rewrite Et. cbn [log_events trace]. rewrite <- app_assoc. reflexivity.
      * rewrite phases_app, Eph. reflexivity.
      * rewrite Ef. reflexivity.
Qed.

Lemma result_mapM_is_Ok {A B} (f : A -> result B) (l : list A) :
  Forall (fun a => is_Ok (f a)) l -> is_Ok (result_mapM f l).
Proof.
  induction 1 as [|a l [b Hb] _ [bs IH]]; simpl.
  - by eexists.
  - rewrite Hb. simpl. rewrite IH. simpl. by eexists.
Qed.

Lemma Tensor_argmax1_ok (pred : Tensor R) (B : nat) :
  shape pred = [B; 10%nat] -> length (data pred) = (B * 10)%nat ->
  is_Ok (Tensor_argmax1 pred).
Proof.
  intros Hs Hl. unfold Tensor_argmax1. rewrite Hs.
  apply result_mapM_is_Ok.
  eapply Forall_impl; [apply (rows_nonempty 10 B (data pred)) |].
  - destruct B as [|B]; [by left |]. right. split; [lia |]. rewrite Hl. lia.
  - intros r Hr. by apply argmax_nonempty.
Qed.

(** Over well-formed batches the loop of [test] runs to its end. *)
Lemma test_loop_ok (device : Device) (model : NeuralNetwork R) (loss_fn : LossFn R) :
  loss_total loss_fn -> NeuralNetwork_ok model ->
  forall (batches : list (result (Batch R))) (i : nat) (acc : Q * Q) (w : World),
    Forall (fun rb => exists b, rb = Ok b /\ batch_ok b) batches ->
    exists acc' w',
      for_enumerate (fun _ => test_batch device model loss_fn) i batches acc w
      = Ok (acc', w').
Proof.
  intros Hloss Hm batches.
  induction batches as [|rb batches IH]; intros i [tl c] w Hb.
  - by eexists _, _.
  - apply Forall_cons in Hb as [(b & -> & [HX Hy]) Hb].
    destruct (NeuralNetwork_forward_ok model (batch_X b) _ _ Hm HX)
      as (pred & Ep & Sp & Lp); [by right |].
    destruct (Hloss pred (batch_y b) Sp Hy) as [loss El].
    destruct (Tensor_argmax1_ok pred _ Sp Lp) as [am Ea].
    pose proof (test_batch_run device model loss_fn b tl c w) as Erun.
    rewrite Ep, El, Ea in Erun.
    cbn [for_enumerate]. unfold mbind at 1, M_bind at 1. cbn [lift].
    rewrite (bind_run _ _ _ _ _ Erun). by apply IH.
Qed.

(** [test], unfolded along its steps. *)
Lemma test_unfold (dataloader : DataLoader R) (device : Device) (model : NeuralNetwork R)
    (loss_fn : LossFn R) (w : World) :
  test dataloader device model loss_fn w =
  match DataLoader_iter dataloader (log_events w [EvEvalMode; EvNoGrad true]) with
  | Raise e => Raise e
  | Ok (batches, w1) =>
      match for_each (test_batch device (NeuralNetwork_eval model) loss_fn) batches
              (0%Q, 0%Q) w1 with
      | Raise e => Raise e
      | Ok ((test_loss, correct), w2) =>
          match py_div test_loss (inject_Z (Z.of_nat (DataLoader_len dataloader))) with
          | Raise e => Raise e
          | Ok test_loss =>
              match py_div correct
                      (inject_Z (Z.of_nat (length (dl_dataset dataloader)))) with
              | Raise e => Raise e
              | Ok correct =>
                  Ok (NeuralNetwork_eval model,
                      log_events w2 [EvNoGrad false;
                                     EvPrint (MsgTestError (100 * correct) test_loss)])
              end
          end
      end
  end.
Proof.
  unfold test. unfold mbind at 1, M_bind at 1. rewrite emit_run.
  unfold mbind at 1, M_bind at 1. rewrite emit_run.
  unfold mbind at 1, M_bind at 1.
  replace (log_events (log_events w [EvEvalMode]) [EvNoGrad true])
    with (log_events w [EvEvalMode; EvNoGrad true])
    by (unfold log_events; cbn [trace files rng grads]; by rewrite <- app_assoc).
  destruct (DataLoader_iter dataloader _) as [[batches w1]|e]; [| done].
  unfold mbind at 1, M_bind at 1.
  destruct (for_each _ batches _ w1) as [[[tl c] w2]|e]; [| done].
  unfold mbind at 1, M_bind at 1. rewrite emit_run.
  unfold mbind at 1, M_bind at 1. unfold lift at 1.
  destruct (py_div tl _) as [loss|e]; [| done].
  unfold mbind at 1, M_bind at 1. unfold lift at 1.
  destruct (py_div c _) as [acc|e]; [| done].
  unfold mbind at 1, M_bind at 1. unfold print. rewrite emit_run.
  unfold mret, M_ret. unfold log_events. cbn [trace files rng grads].
  rewrite <- !app_assoc. reflexivity.
Qed.

End Test.

Section TestReport.
Context {R : Type} `{Scalar R} `{Framework R}.

(** Whenever [test] returns, it has printed one report: the accuracy is a
    count of correct predictions over the size of the dataset, between 0 and
    1, and the mean loss is not negative. *)
Lemma test_report (dataloader : DataLoader R) (device : Device) (model : NeuralNetwork R)
    (loss_fn : LossFn R) (w : World) (model' : NeuralNetwork R) (w' : World) :
  sampler_ok dataloader ->
  test dataloader device model loss_fn w = Ok (model', w') ->
  exists (accuracy avg_loss : Q) (correct_count : nat) (evs : list (Event R)),
    trace w' = trace w ++ EvEvalMode :: evs
                 ++ [EvPrint (MsgTestError (100 * accuracy) avg_loss)]
    /\ phases evs = []
    /\ (accuracy == inject_Z (Z.of_nat correct_count)
                    / inject_Z (Z.of_nat (length (dl_dataset dataloader))))%Q
    /\ (correct_count <= length (dl_dataset dataloader))%nat
    /\ (0 <= accuracy)%Q /\ (accuracy <= 1)%Q
    /\ (loss_nonneg loss_fn -> (0 <= avg_loss)%Q)
    /\ model' = NeuralNetwork_eval model
    /\ files w' = files w.
Proof.
  intros Hs E. rewrite test_unfold in E.
  destruct (DataLoader_iter_run dataloader (log_events w [EvEvalMode; EvNoGrad true]) Hs)
    as (indices & r' & Eit & Hperm).
  rewrite Eit in E. set (w1 := mkWorld _ _ r' _) in E.
  destruct (for_each _ _ _ w1) as [[[tl c] w2]|e] eqn:Eloop; [| done].
  unfold for_each in Eloop.
  apply (test_loop_bounds device _ loss_fn) in Eloop
    as (Htl & (k & Hk & Hle) & (evs & Et & Eph & Ef)).
  destruct (py_div tl _) as [loss|e] eqn:Edl; [| done].
  destruct (py_div c _) as [acc|e] eqn:Eda; [| done].
  injection E as <- <-.
  apply py_div_inv in Edl as [Hnb ->]. apply py_div_inv in Eda as [Hsz ->].
  apply inject_nat_pos in Hnb, Hsz.
  assert (Hk' : (c == inject_Z (Z.of_nat k))%Q) by (rewrite Hk; ring).
  assert (Hksz : (k <= length (dl_dataset dataloader))%nat).
  { etrans; [exact Hle |]. etrans; [apply DataLoader_batches_length |].
    by rewrite Hperm, length_seq. }
  exists (c / inject_Z (Z.of_nat (length (dl_dataset dataloader))))%Q,
    (tl / inject_Z (Z.of_nat (DataLoader_len dataloader)))%Q, k,
    (EvNoGrad true :: evs ++ [EvNoGrad false]).
  split; [| split; [| split; [| split; [| split; [| split; [| split; [| split]]]]]]].
  - cbn [log_events trace]. rewrite Et. subst w1. cbn [log_events trace].
    cbn [app]. rewrite <- !app_assoc. cbn [app]. reflexivity.
  - change (EvNoGrad true :: evs ++ [EvNoGrad false])
      with ([EvNoGrad true] ++ evs ++ [EvNoGrad false]).
    rewrite !phases_app, Eph. reflexivity.
  - by rewrite Hk'.
  - exact Hksz.
  - apply Qdiv_nat_nonneg; [done |]. rewrite Hk'.
    change 0%Q with (inject_Z 0). rewrite <- Zle_Qle. lia.
  - by apply (Qdiv_nat_le_1 c k).
  - intros Hnn. apply Qdiv_nat_nonneg; [done | by apply Htl].
  - reflexivity.
  - cbn [log_events files]. rewrite Ef. reflexivity.
Qed.

(** On a non-empty dataset of digits, [test] returns. *)
Lemma test_ok (dataloader : DataLoader R) (device : Device) (model : NeuralNetwork R)
    (loss_fn : LossFn R) (w : World) :
  NeuralNetwork_ok model -> loss_total loss_fn -> sampler_ok dataloader ->
  dataset_ok (dl_dataset dataloader) -> dl_dataset dataloader <> [] ->
  (0 < dl_batch_size dataloader)%nat ->
  exists w', test dataloader device model loss_fn w = Ok (NeuralNetwork_eval model, w').
Proof.
  intros Hm Hloss Hs Hds Hne Hbs. rewrite test_unfold.
  destruct (DataLoader_iter_run dataloader (log_events w [EvEvalMode; EvNoGrad true]) Hs)
    as (indices & r' & Eit & Hperm).
  rewrite Eit. set (w1 := mkWorld _ _ r' _).
  destruct (test_loop_ok device (NeuralNetwork_eval model) loss_fn Hloss) with
    (batches := DataLoader_batches dataloader indices) (i := 0%nat)
    (acc := (0%Q, 0%Q)) (w := w1) as ([tl c] & w2 & Eloop).
  { destruct Hm as (l0 & l2 & l4 & Hst & Hl). exists l0, l2, l4. done. }
  { by apply DataLoader_batches_ok. }
  unfold for_each. rewrite Eloop.
  rewrite py_div_nat_pos by (by apply DataLoader_len_pos).
  rewrite py_div_nat_pos by (destruct (dl_dataset dataloader); [done | simpl; lia]).
  by eexists.
Qed.

(** On the empty dataset [test] reports nothing: the mean over zero batches
    is a division by zero. *)
Lemma test_empty (dataloader : DataLoader R) (device : Device) (model : NeuralNetwork R)
    (loss_fn : LossFn R) (w : World) :
  dl_dataset dataloader = [] ->
  test dataloader device model loss_fn w = Raise ZeroDivisionError.
Proof.
  intros Hds. rewrite test_unfold.
  assert (Hlen : DataLoader_len dataloader = 0%nat).
  { unfold DataLoader_len. rewrite Hds. simpl.
    destruct (dl_batch_size dataloader) as [|bs]; [done |].
    apply Nat.div_small. lia. }
  unfold DataLoader_iter, DataLoader_batches. rewrite Hlen.
  destruct (DataLoader_shuffles dataloader).
  - unfold draw_seed, randperm, mbind, M_bind, mret, M_ret. cbn [trace files rng grads].
    destruct (torch_randperm _ _) as [p r]. reflexivity.
  - reflexivity.
Qed.

(** C4, as the code has it: every report that [test] makes, on any dataset,
    has an accuracy that is the number of correct top-1 predictions divided
    by the size of the dataset and lies between 0 and 1, and a mean loss, the
    sum of the batch losses divided by the number of batches, that is not
    negative, the loss function itself being never negative. On every
    non-empty dataset of digits the report is made. On the empty dataset
    there is none: the division by the number of batches raises
    [ZeroDivisionError]. *)
Theorem test_reports_accuracy_and_loss_in_range
    (dataloader : DataLoader R) (device : Device) (model : NeuralNetwork R)
    (loss_fn : LossFn R) (w : World) :
  loss_nonneg loss_fn -> sampler_ok dataloader ->
  (forall model' w',
     test dataloader device model loss_fn w = Ok (model', w') ->
     exists (accuracy avg_loss : Q) (correct_count : nat),
       last (trace w') = Some (EvPrint (MsgTestError (100 * accuracy) avg_loss))
       /\ (accuracy == inject_Z (Z.of_nat correct_count)
                       / inject_Z (Z.of_nat (length (dl_dataset dataloader))))%Q
       /\ (correct_count <= length (dl_dataset dataloader))%nat
       /\ (0 <= accuracy)%Q /\ (accuracy <= 1)%Q /\ (0 <= avg_loss)%Q)
  /\ (NeuralNetwork_ok model -> loss_total loss_fn ->
      dataset_ok (dl_dataset dataloader) -> dl_dataset dataloader <> [] ->
      (0 < dl_batch_size dataloader)%nat ->
      exists w', test dataloader device model loss_fn w = Ok (NeuralNetwork_eval model, w'))
  /\ (dl_dataset dataloader = [] ->
      test dataloader device model loss_fn w = Raise ZeroDivisionError).
Proof.
  intros Hnn Hs. split; [| split].
  - intros model' w' E.
    destruct (test_report dataloader device model loss_fn w model' w' Hs E)
      as (acc & loss & k & evs & Et & _ & Hacc & Hk & Hge & Hle & Hl & _).
    exists acc, loss, k. repeat split; try done; [| by apply Hl].
    rewrite Et.
    change (EvEvalMode :: evs ++ [EvPrint (MsgTestError (100 * acc) loss)])
      with ((EvEvalMode :: evs) ++ [EvPrint (MsgTestError (100 * acc) loss)]).
    by rewrite app_assoc, last_snoc.
  - intros Hm Hloss Hds Hne Hbs. by apply test_ok.
  - by apply test_empty.
Qed.

End TestReport.

(** ** The epoch loop of the manual pipeline (C8) *)

Section Pipeline.
Context {R : Type} `{Scalar R} `{Framework R}.

Lemma NeuralNetwork_new_run (w : World) :
  NeuralNetwork_new w
  = Ok (NeuralNetwork_init (torch_init (rng w)).1,
        mkWorld (trace w) (files w) (torch_init (rng w)).2 (grads w)).
Proof. unfold NeuralNetwork_new. by destruct (torch_init (rng w)). Qed.

Lemma torch_load_run (path : string) (obj : gmap string (Tensor R)) (w : World) :
  files w !! path = Some obj -> torch_load path w = Ok (obj, log_events w [EvLoad path]).
Proof. intros E. unfold torch_load. by rewrite E. Qed.

Lemma NeuralNetwork_ok_stack (m m' : NeuralNetwork R) :
  linear_relu_stack m' = linear_relu_stack m -> NeuralNetwork_ok m -> NeuralNetwork_ok m'.
Proof.
  intros E (l0 & l2 & l4 & Hs & Hl). exists l0, l2, l4. by rewrite E.
Qed.




End Pipeline.

Section PipelineRun.
Context {R : Type} `{Scalar R} `{Framework R}.

Lemma Module_to_run {Mo : Type} (m : Mo) (d : Device) (w : World) :
  Module_to m d w = Ok (m, log_events w [EvModuleTo d]).
Proof. reflexivity. Qed.

Lemma torch_save_run (obj : gmap string (Tensor R)) (path : string) (w : World) :
  torch_save obj path w
  = Ok (tt, mkWorld (trace w ++ [EvSave path]) (<[path := obj]> (files w)) (rng w) (grads w)).
Proof. reflexivity. Qed.

Lemma unshuffled_sampler_ok (ds : Dataset R) (bs nw : nat) :
  sampler_ok (mkDataLoader ds bs None nw).
Proof. intros Hs. discriminate Hs. Qed.


End PipelineRun.

(** ** The concrete instance satisfies the preconditions *)

Lemma demo_init_ok : init_ok (R := Q).
Proof. intros r. exact demo_model_ok. Qed.

Lemma demo_step_keeps_ok : step_keeps_ok (R := Q).
Proof. intros opt g m Hm. exact Hm. Qed.

Lemma demo_loss_total : loss_total (R := Q) CrossEntropyLoss.
Proof. intros pred y _ _. by eexists. Qed.

Lemma demo_loss_nonneg : loss_nonneg (R := Q) CrossEntropyLoss.
Proof. intros pred y l [= <-]. by compute. Qed.


Lemma demo_train_data_ok : dataset_ok demo_train_data.
Proof. repeat constructor; simpl; lia. Qed.

Lemma demo_test_data_ok : dataset_ok demo_test_data.
Proof. repeat constructor; simpl; lia. Qed.

(** A run of the whole manual pipeline on the concrete instance: two epochs
    over three training digits in batches of two. *)
Example run_pytorch_demo :
  (fun r => phases (trace r.2)) <$> run_pytorch 2 2 demo_world
  = Ok [PhEpoch 1; PhTrain; PhStep; PhStep; PhEval; PhTestReport;
        PhEpoch 2; PhTrain; PhStep; PhStep; PhEval; PhTestReport;
        PhSay "Done!"; PhSave "model.pth";
        PhSay "Saved PyTorch Model State to model.pth";
        PhLoad "model.pth"; PhEval; PhPredicted].
Proof. vm_compute. reflexivity. Qed.

(** What the test step and [predict] print on the concrete instance: one of
    the two test digits is classified correctly, and the first one, a 7, is
    predicted as a 3. *)
Example test_demo :
  (fun r => last (trace r.2))
    <$> test (mkDataLoader demo_test_data 2 None 8) cpu demo_model CrossEntropyLoss demo_world
  = Ok (Some (EvPrint (MsgTestError (100 * (1 / 2)) (1 / 1)))).
Proof. vm_compute. reflexivity. Qed.

Example predict_demo :
  (fun r => trace r.2) <$> predict demo_test_data demo_model demo_world
  = Ok [EvEvalMode; EvNoGrad true; EvForward; EvPrint (MsgPredicted 3 7); EvNoGrad false].
Proof. vm_compute. reflexivity. Qed.


Lemma test_reports_accuracy_and_loss_in_range_witness :
  loss_nonneg (R := Q) CrossEntropyLoss
  /\ sampler_ok (mkDataLoader demo_test_data 2 None 8)
  /\ exists (w' : World) (accuracy avg_loss : Q) (correct_count : nat),
       test (mkDataLoader demo_test_data 2 None 8) cpu demo_model CrossEntropyLoss demo_world
       = Ok (NeuralNetwork_eval demo_model, w')
       /\ last (trace w') = Some (EvPrint (MsgTestError (100 * accuracy) avg_loss))
       /\ (accuracy == inject_Z (Z.of_nat correct_count)
                       / inject_Z (Z.of_nat (length demo_test_data)))%Q
       /\ (correct_count <= length demo_test_data)%nat
       /\ (0 <= accuracy)%Q /\ (accuracy <= 1)%Q /\ (0 <= avg_loss)%Q.
Proof.
  split; [exact demo_loss_nonneg |]. split; [apply unshuffled_sampler_ok |].
  destruct (test_reports_accuracy_and_loss_in_range
              (mkDataLoader demo_test_data 2 None 8) cpu demo_model CrossEntropyLoss
              demo_world demo_loss_nonneg (unshuffled_sampler_ok _ _ _))
    as (Hreport & Hruns & _).
  destruct (Hruns demo_model_ok demo_loss_total demo_test_data_ok) as [w' E];
    [discriminate | simpl; lia |].
  destruct (Hreport _ _ E) as (accuracy & avg_loss & k & Hr).
  exists w', accuracy, avg_loss, k. split; [exact E | exact Hr].
Defined.

(** C4 as stated fails for the empty dataset: [test] reports no accuracy
    and no loss there, it raises [ZeroDivisionError]. *)
Lemma test_reports_nothing_on_the_empty_dataset :
  test (mkDataLoader [] 64 None 8) cpu demo_model CrossEntropyLoss demo_world
  = Raise ZeroDivisionError
  /\ ~ exists model' w',
         test (mkDataLoader [] 64 None 8) cpu demo_model CrossEntropyLoss demo_world
         = Ok (model', w').
Proof.
  assert (E : test (mkDataLoader [] 64 None 8) cpu demo_model CrossEntropyLoss demo_world
              = Raise ZeroDivisionError) by (by apply test_empty).
  split.
  - exact E.
  - intros (model' & w' & E'). rewrite E in E'. discriminate E'.
Qed.


(** * Further properties of the code *)

(** ** The forward pass, row by row *)

Section RowWise.
Context {R : Type} `{Scalar R}.

Lemma concat_rows {A} (n k : nat) (d : list A) :
  (length d <= k * n)%nat -> concat (rows n k d) = d.
Proof.
  revert d. induction k as [|k IH]; intros d Hl; simpl.
  - destruct d; [done | simpl in Hl; lia].
  - rewrite IH by (rewrite length_drop; simpl in Hl; lia). apply take_drop.
Qed.

Lemma rows_one {A} (n : nat) (d : list A) :
  length d = n -> rows n 1 d = [d].
Proof. intros Hl. simpl. rewrite take_ge by lia. done. Qed.

(** A linear layer works on each row of its input by itself. *)
Lemma Linear_forward_rows (l : Linear R) (i o B : nat) (x : Tensor R) :
  Linear_ok i o l -> shape x = [B; i] ->
  Linear_forward l x
  = Ok (mkTensor [B; o]
          (concat (map (linear_row (rows (in_features l) (out_features l) (data (weight l)))
                                   (data (bias l)))
                       (rows i B (data x))))).
Proof.
  intros [(Hi & Ho & Hw & Hb) _] Hx.
  unfold Linear_forward. rewrite Hx. simpl last. cbv beta iota.
  rewrite bool_decide_eq_true_2 by (rewrite Hi, Ho; auto).
  cbn [removelast app numel foldr]. rewrite Nat.mul_1_r, Ho. reflexivity.
Qed.

Lemma length_linear_row_ok (l : Linear R) (i o : nat) (x : list R) :
  Linear_ok i o l ->
  length (linear_row (rows (in_features l) (out_features l) (data (weight l)))
                     (data (bias l)) x) = o.
Proof.
  intros [(Hi & Ho & Hw & Hb) [_ Hbd]].
  rewrite length_linear_row, length_rows.
  unfold tensor_ok in Hbd. rewrite Hbd, Hb, Ho. simpl. lia.
Qed.

Lemma relu_concat_rows {A} (f : A -> list R) (rs : list A) :
  map relu (concat (map f rs)) = concat (map (fun r => map relu (f r)) rs).
Proof. by rewrite concat_map, map_map. Qed.

(** The forward pass on [B] flattened images computes, for each image, the
    scores of that image alone. *)
Lemma NeuralNetwork_forward_rows (m : NeuralNetwork R) (X : Tensor R) (B : nat)
    (sh : list nat) :
  NeuralNetwork_ok m -> shape X = B :: sh -> image_shape_ok sh ->
  NeuralNetwork_forward m X
  = Ok (mkTensor [B; 10%nat]
          (concat (map (Sequential_row (linear_relu_stack m))
                       (rows (28 * 28) B (data X))))).
Proof.
  intros (l0 & l2 & l4 & Hs & H0 & H2 & H4) HX Hsh.
  destruct (Flatten_forward_image X B sh HX Hsh) as (x0 & E0 & S0 & D0).
  unfold NeuralNetwork_forward. rewrite E0, Hs. cbn [result_bind Sequential_forward Layer_forward].
  rewrite (Linear_forward_rows l0 _ _ B x0 H0 S0). cbn [result_bind].
  set (f0 := linear_row (rows (in_features l0) (out_features l0) (data (weight l0)))
               (data (bias l0))).
  set (f2 := linear_row (rows (in_features l2) (out_features l2) (data (weight l2)))
               (data (bias l2))).
  set (f4 := linear_row (rows (in_features l4) (out_features l4) (data (weight l4)))
               (data (bias l4))).
  set (rs := rows (28 * 28) B (data x0)).
  assert (Hrs : length rs = B) by apply length_rows.
  rewrite (Linear_forward_rows l2 512 512 B) by done.
  cbn [result_bind ReLU_forward data shape].
  rewrite (Linear_forward_rows l4 512 10 B) by done.
  cbn [result_bind ReLU_forward data shape].
  rewrite !(relu_concat_rows).
  rewrite (rows_const_width (fun r => map relu (f0 r)) 512 B rs);
    [| intros r; rewrite length_map; by apply (length_linear_row_ok l0 (28 * 28)) | done].
  fold f2. rewrite map_map.
  rewrite (rows_const_width (fun r => map relu (f2 (map relu (f0 r)))) 512 B rs);
    [| intros r; rewrite length_map; by apply (length_linear_row_ok l2 512) | done].
  fold f4. rewrite map_map. subst rs. rewrite D0. reflexivity.
Qed.


Lemma rows_const_width_Forall {A B} (f : A -> list B) (o k : nat) (l : list A) :
  Forall (fun a => length (f a) = o) l -> length l = k ->
  rows o k (concat (map f l)) = map f l.
Proof.
  intros Hf. revert k. induction Hf as [|a l Ha _ IH]; intros k Hk; simpl in *; subst k; [done |].
  simpl. rewrite take_app_length' by done.
  rewrite drop_app_length' by done. f_equal. by apply IH.
Qed.

(** The stack on a matrix of [B] rows of 784 values. *)
Lemma Sequential_forward_rows (m : NeuralNetwork R) (x0 : Tensor R) (B : nat) :
  NeuralNetwork_ok m -> shape x0 = [B; (28 * 28)%nat] ->
  Sequential_forward (linear_relu_stack m) x0
  = Ok (mkTensor [B; 10%nat]
          (concat (map (Sequential_row (linear_relu_stack m))
                       (rows (28 * 28) B (data x0))))).
Proof.
  intros (l0 & l2 & l4 & Hs & H0 & H2 & H4) S0.
  rewrite Hs. cbn [result_bind Sequential_forward Layer_forward].
  rewrite (Linear_forward_rows l0 _ _ B x0 H0 S0). cbn [result_bind].
  set (f0 := linear_row (rows (in_features l0) (out_features l0) (data (weight l0)))
               (data (bias l0))).
  set (f2 := linear_row (rows (in_features l2) (out_features l2) (data (weight l2)))
               (data (bias l2))).
  set (f4 := linear_row (rows (in_features l4) (out_features l4) (data (weight l4)))
               (data (bias l4))).
  set (rs := rows (28 * 28) B (data x0)).
  assert (Hrs : length rs = B) by apply length_rows.
  rewrite (Linear_forward_rows l2 512 512 B) by done.
  cbn [result_bind ReLU_forward data shape].
  rewrite (Linear_forward_rows l4 512 10 B) by done.
  cbn [result_bind ReLU_forward data shape].
  rewrite !(relu_concat_rows).
  rewrite (rows_const_width (fun r => map relu (f0 r)) 512 B rs);
    [| intros r; rewrite length_map; by apply (length_linear_row_ok l0 (28 * 28)) | done].
  fold f2. rewrite map_map.
  rewrite (rows_const_width (fun r => map relu (f2 (map relu (f0 r)))) 512 B rs);
    [| intros r; rewrite length_map; by apply (length_linear_row_ok l2 512) | done].
  fold f4. rewrite map_map. reflexivity.
Qed.

(** The first linear layer refuses rows that are not 784 wide. *)
Lemma Sequential_forward_width (m : NeuralNetwork R) (x0 : Tensor R) (B n : nat) :
  NeuralNetwork_ok m -> shape x0 = [B; n] -> n <> (28 * 28)%nat ->
  Sequential_forward (linear_relu_stack m) x0 = Raise RuntimeError.
Proof.
  intros (l0 & l2 & l4 & Hs & [(Hi & _) _] & _) S0 Hn.
  rewrite Hs. cbn [result_bind Sequential_forward Layer_forward].
  unfold Linear_forward. rewrite S0. simpl last. cbv beta iota.
  rewrite bool_decide_eq_false_2; [done |]. intros [E _]. rewrite Hi in E. done.
Qed.

Lemma length_Sequential_row (m : NeuralNetwork R) (x : list R) :
  NeuralNetwork_ok m -> length (Sequential_row (linear_relu_stack m) x) = 10%nat.
Proof.
  intros (l0 & l2 & l4 & Hs & H0 & H2 & H4). rewrite Hs. cbn [Sequential_row].
  by apply (length_linear_row_ok l4 512).
Qed.

End RowWise.

(** ** The forward pass: accepted inputs and batches *)

Section ForwardExtra.
Context {R : Type} `{Scalar R}.

(** The forward pass, by the shape of its input. *)
Lemma forward_shape_cases (m : NeuralNetwork R) (X : Tensor R) :
  NeuralNetwork_ok m ->
  match shape X with
  | B :: d1 :: rest =>
      if decide (numel (d1 :: rest) = (28 * 28)%nat)
      then exists logits,
             NeuralNetwork_forward m X = Ok logits
             /\ shape logits = [B; 10%nat]
             /\ length (data logits) = (B * 10)%nat
      else NeuralNetwork_forward m X = Raise RuntimeError
  | _ => NeuralNetwork_forward m X = Raise IndexError
  end.
Proof.
  intros Hm. unfold NeuralNetwork_forward, Flatten_forward.
  destruct (shape X) as [|B [|d1 rest]] eqn:E; [done | done |].
  cbn [result_bind]. destruct (decide _) as [Hn | Hn].
  - rewrite (Sequential_forward_rows m _ B Hm) by (cbn [shape]; by rewrite Hn).
    eexists. split; [reflexivity |]. split; [reflexivity |]. cbn [data].
    rewrite (length_concat_const _ 10) by (intros r; by apply length_Sequential_row).
    by rewrite length_rows.
  - by apply (Sequential_forward_width m _ B (numel (d1 :: rest)) Hm).
Qed.

(** X1: the forward pass accepts exactly the inputs [nn.Flatten] turns into
    rows of 784 values. An input of rank 0 or 1 fails in [Flatten]; an input
    whose axes after the first do not multiply to 784 fails in the first
    linear layer; every other input gives one row of ten scores per element
    of its first axis. *)
Theorem forward_accepts_exactly_rows_of_784 (m : NeuralNetwork R) (X : Tensor R) :
  NeuralNetwork_ok m ->
  match shape X with
  | B :: d1 :: rest =>
      if decide (numel (d1 :: rest) = (28 * 28)%nat)
      then exists logits,
             NeuralNetwork_forward m X = Ok logits
             /\ shape logits = [B; 10%nat]
             /\ length (data logits) = (B * 10)%nat
      else NeuralNetwork_forward m X = Raise RuntimeError
  | _ => NeuralNetwork_forward m X = Raise IndexError
  end.
Proof. apply forward_shape_cases. Qed.

(** The scores of one image run alone. *)
Lemma NeuralNetwork_forward_single (m : NeuralNetwork R) (img : Tensor R) :
  NeuralNetwork_ok m -> shape img = [1; 28; 28]%nat -> tensor_ok img ->
  NeuralNetwork_forward m img = Ok (mkTensor [1; 10]%nat (sample_scores m img)).
Proof.
  intros Hm Hs Hok.
  rewrite (NeuralNetwork_forward_rows m img 1 [28; 28]%nat Hm Hs) by (by left).
  rewrite rows_one by (unfold tensor_ok in Hok; by rewrite Hok, Hs).
  cbn [map concat]. by rewrite app_nil_r.
Qed.

(** The scores of a stacked batch are the scores of its images. *)
Lemma NeuralNetwork_forward_stack (m : NeuralNetwork R) (imgs : list (Tensor R)) :
  NeuralNetwork_ok m -> imgs <> [] ->
  Forall (fun img => shape img = [1; 28; 28]%nat /\ tensor_ok img) imgs ->
  exists X,
    Tensor_stack imgs = Ok X
    /\ shape X = [length imgs; 1; 28; 28]%nat
    /\ NeuralNetwork_forward m X
       = Ok (mkTensor [length imgs; 10%nat] (concat (map (sample_scores m) imgs))).
Proof.
  intros Hm Hne Himgs.
  destruct imgs as [|img0 imgs']; [done |]. set (imgs := img0 :: imgs') in *.
  unfold Tensor_stack. subst imgs.
  pose proof (Forall_inv Himgs) as [Hs0 _].
  rewrite bool_decide_eq_true_2.
  2:{ eapply Forall_impl; [exact Himgs |]. intros img [Hs _]. simpl. congruence. }
  eexists. split; [reflexivity |]. rewrite Hs0. split; [reflexivity |].
  set (imgs := img0 :: imgs') in *.
  rewrite (NeuralNetwork_forward_rows m _ (length imgs) [1; 28; 28]%nat Hm)
    by (reflexivity || by right).
  cbn [data].
  rewrite (rows_const_width_Forall data (28 * 28) (length imgs) imgs); [| | done].
  - rewrite map_map. reflexivity.
  - eapply Forall_impl; [exact Himgs |]. intros img [Hs Hok]. simpl.
    unfold tensor_ok in Hok. by rewrite Hok, Hs.
Qed.

(** X2: in a batch every image gets the scores it gets when it is run
    alone: the rows of the batch's output are the outputs of the separate
    runs, so no prediction depends on which other images share the batch. *)
Theorem batch_scores_are_the_scores_of_each_image (m : NeuralNetwork R)
    (imgs : list (Tensor R)) :
  NeuralNetwork_ok m -> imgs <> [] ->
  Forall (fun img => shape img = [1; 28; 28]%nat /\ tensor_ok img) imgs ->
  exists X logits,
    Tensor_stack imgs = Ok X
    /\ NeuralNetwork_forward m X = Ok logits
    /\ shape logits = [length imgs; 10%nat]
    /\ forall (i : nat) (img : Tensor R),
         imgs !! i = Some img ->
         exists alone,
           NeuralNetwork_forward m img = Ok alone
           /\ shape alone = [1; 10]%nat
           /\ rows 10 (length imgs) (data logits) !! i = Some (data alone).
Proof.
  intros Hm Hne Himgs.
  destruct (NeuralNetwork_forward_stack m imgs Hm Hne Himgs) as (X & EX & SX & EF).
  eexists X, _. split; [exact EX |]. split; [exact EF |]. split; [reflexivity |].
  intros i img Hi. cbn [data].
  rewrite (rows_const_width (sample_scores m) 10 (length imgs) imgs);
    [| intros r; by apply length_Sequential_row | done].
  rewrite Forall_forall in Himgs.
  destruct (Himgs img) as [Hs Hok]; [by eapply list_elem_of_lookup_2 |].
  eexists. split; [by apply NeuralNetwork_forward_single |]. split; [reflexivity |].
  cbn [data]. rewrite list_lookup_fmap, Hi. reflexivity.
Qed.

End ForwardExtra.

(** ** [test]: what it leaves alone *)

Section TestExtra.
Context {R : Type} `{Scalar R} `{Framework R}.

Lemma no_update_app (a b : list (Event R)) :
  no_update a -> no_update b -> no_update (a ++ b).
Proof. apply Forall_app_2. Qed.

(** Iterating a loader leaves the trace, the files and the gradients alone;
    of the random source it takes the base seed of the iterator and, only
    when the loader shuffles, a permutation. *)
Lemma DataLoader_iter_frame (dl : DataLoader R) (w w' : World)
    (batches : list (result (Batch R))) :
  DataLoader_iter dl w = Ok (batches, w') ->
  trace w' = trace w /\ files w' = files w /\ grads w' = grads w
  /\ (DataLoader_shuffles dl = false -> rng w' = (torch_seed (rng w)).2)
  /\ exists indices, batches = DataLoader_batches dl indices.
Proof.
  unfold DataLoader_iter. destruct (DataLoader_shuffles dl).
  - unfold draw_seed, randperm, mbind, M_bind, mret, M_ret. cbn [trace files rng grads].
    destruct (torch_randperm _ _) as [p r]. intros [= <- <-]. cbn.
    repeat split; try done. by eexists.
  - unfold draw_seed, mbind, M_bind, mret, M_ret. intros [= <- <-]. cbn.
    repeat split; try done. by eexists.
Qed.

(** The loop of [test] changes nothing but the trace, and adds no call that
    changes gradients or parameters. *)
Lemma test_loop_frame (device : Device) (model : NeuralNetwork R) (loss_fn : LossFn R) :
  forall (batches : list (result (Batch R))) (i : nat) (acc acc' : Q * Q) (w w' : World),
    for_enumerate (fun _ => test_batch device model loss_fn) i batches acc w = Ok (acc', w') ->
    exists evs, w' = log_events w evs /\ no_update evs.
Proof.
  intros batches.
  induction batches as [|rb batches IH]; intros i [tl c] acc' w w' E.
  - injection E as <- <-. exists []. split; [| constructor].
    unfold log_events. rewrite app_nil_r. by destruct w.
  - cbn [for_enumerate] in E.
    apply bind_inv in E as (b & w0 & Eb & E). apply lift_inv in Eb as [-> ->].
    apply bind_inv in E as ([tl1 c1] & w1 & Estep & E).
    rewrite test_batch_run in Estep.
    destruct (NeuralNetwork_forward model (batch_X b)) as [pred|e]; [| done].
    destruct (loss_fn pred (batch_y b)) as [loss|e]; [| done].
    destruct (Tensor_argmax1 pred) as [am|e]; [| done].
    injection Estep as <- <- <-.
    apply IH in E as (evs & -> & Hq).
    eexists. split.
    + unfold log_events. cbn [trace files rng grads]. rewrite <- app_assoc. reflexivity.
    + apply no_update_app; [| done]. repeat constructor.
Qed.

(** What a run of [test] that returns has done. *)
Lemma test_frame (dataloader : DataLoader R) (device : Device)
    (model : NeuralNetwork R) (loss_fn : LossFn R) (w : World)
    (model' : NeuralNetwork R) (w' : World) :
  test dataloader device model loss_fn w = Ok (model', w') ->
  linear_relu_stack model' = linear_relu_stack model
  /\ training model' = false
  /\ files w' = files w /\ grads w' = grads w
  /\ (DataLoader_shuffles dataloader = false -> rng w' = (torch_seed (rng w)).2)
  /\ exists evs report,
       trace w' = trace w ++ [EvEvalMode; EvNoGrad true] ++ evs
                    ++ [EvNoGrad false; EvPrint report]
       /\ no_update evs
       /\ count_steps evs = 0%nat.
Proof.
  rewrite test_unfold.
  destruct (DataLoader_iter dataloader _) as [[batches w1]|e] eqn:Eit; [| done].
  apply DataLoader_iter_frame in Eit as (Et1 & Ef1 & Eg1 & Er1 & _).
  destruct (for_each _ batches _ w1) as [[[tl c] w2]|e] eqn:Eloop; [| done].
  apply test_loop_frame in Eloop as (evs & -> & Hq).
  destruct (py_div tl _) as [loss|e]; [| done].
  destruct (py_div c _) as [acc|e]; [| done].
  intros [= <- <-].
  cbn [log_events trace files rng grads NeuralNetwork_eval linear_relu_stack training].
  rewrite Et1, Ef1, Eg1. cbn [log_events trace files rng grads].
  split; [done |]. split; [done |]. split; [done |]. split; [done |].
  split; [intros Hs; exact (Er1 Hs) |].
  exists evs, (MsgTestError (100 * acc) loss). split; [| split; [done |]].
    + rewrite <- !app_assoc. reflexivity.
    + unfold count_steps. clear -Hq. induction Hq as [|e evs He _ IH]; [done |].
      rewrite filter_cons. destruct e; try discriminate He;
        (rewrite decide_False by (cbn; discriminate)); exact IH.
Qed.

(** X3: the test step is a pure read of the model. Whenever it returns, the
    model it hands back has the parameters it was given and is in evaluation
    mode; the files and the gradients are as before; the calls it has made
    are bracketed by entering and leaving [torch.no_grad()] and hold no
    [zero_grad], no [backward] and no optimizer step. Of the random source
    it has taken, when the loader does not shuffle, exactly the base seed of
    the one iterator it has made. *)
Theorem test_changes_no_parameter (dataloader : DataLoader R) (device : Device)
    (model : NeuralNetwork R) (loss_fn : LossFn R) (w : World) :
  match test dataloader device model loss_fn w with
  | Ok (model', w') =>
      linear_relu_stack model' = linear_relu_stack model
      /\ training model' = false
      /\ files w' = files w /\ grads w' = grads w
      /\ (DataLoader_shuffles dataloader = false -> rng w' = (torch_seed (rng w)).2)
      /\ exists evs report,
           trace w' = trace w ++ [EvEvalMode; EvNoGrad true] ++ evs
                        ++ [EvNoGrad false; EvPrint report]
           /\ no_update evs
           /\ count_steps evs = 0%nat
  | Raise _ => True
  end.
Proof.
  destruct (test dataloader device model loss_fn w) as [[model' w']|e] eqn:E; [| done].
  by apply (test_frame dataloader device model loss_fn w).
Qed.

End TestExtra.

(** ** [test]: the accuracy it reports *)

Section AccuracyExact.
Context {R : Type} `{Scalar R} `{Framework R}.

Lemma count_correct_app (m : NeuralNetwork R) (a b : Dataset R) :
  count_correct m (a ++ b) = (count_correct m a + count_correct m b)%nat.
Proof. unfold count_correct. by rewrite filter_app, length_app. Qed.

Lemma count_correct_perm (m : NeuralNetwork R) (a b : Dataset R) :
  a ≡ₚ b -> count_correct m a = count_correct m b.
Proof. intros Hp. unfold count_correct. by rewrite Hp. Qed.

(** The predictions of a batch, compared with its labels, count the samples
    of the batch that are classified correctly. *)
Lemma count_equal_correct (m : NeuralNetwork R) (chunk : Dataset R) (am : list Z) :
  result_mapM argmax (map (sample_scores m) (image <$> chunk)) = Ok am ->
  count_equal am (label <$> chunk) = count_correct m chunk.
Proof.
  revert am. induction chunk as [|s chunk IH]; intros am; simpl.
  - by intros [= <-].
  - destruct (argmax (sample_scores m (image s))) as [p|e] eqn:Ep; simpl; [| done].
    destruct (result_mapM argmax _) as [am'|e] eqn:Ea; simpl; [| done].
    intros [= <-]. specialize (IH am' eq_refl).
    assert (Hsc : sample_correct m s = bool_decide (p = label s)).
    { unfold sample_correct. by rewrite Ep. }
    unfold count_equal, count_correct in *. cbn [zip zip_with].
    rewrite !filter_cons. cbn [fst snd].
    destruct (decide (p = label s)) as [Heq | Hne].
    + rewrite decide_True by (rewrite Hsc; by apply bool_decide_eq_true_2).
      cbn [length]. f_equal. exact IH.
    + rewrite decide_False by (rewrite Hsc, bool_decide_eq_false_2; done). exact IH.
Qed.

Lemma result_mapM_argmax_scores (m : NeuralNetwork R) (imgs : list (Tensor R)) :
  NeuralNetwork_ok m ->
  is_Ok (result_mapM argmax (map (sample_scores m) imgs)).
Proof.
  intros Hm. apply result_mapM_is_Ok. apply Forall_forall.
  intros r Hr. apply list_elem_of_fmap in Hr as (img & -> & _).
  apply argmax_nonempty. intros E.
  pose proof (length_Sequential_row m (data img) Hm) as Hl.
  unfold sample_scores in E. rewrite E in Hl. done.
Qed.

(** One iteration of the loop of [test] on the batch stacked from a chunk of
    well-formed digits. *)
Lemma test_batch_chunk (device : Device) (model : NeuralNetwork R) (loss_fn : LossFn R)
    (chunk : Dataset R) (test_loss correct : Q) (w : World) :
  NeuralNetwork_ok model -> loss_total loss_fn ->
  chunk <> [] -> Forall sample_wf chunk ->
  exists b loss,
    default_collate chunk = Ok b
    /\ test_batch device model loss_fn b (test_loss, correct) w
       = Ok (((test_loss + s_item loss)%Q,
              (correct + inject_Z (Z.of_nat (count_correct model chunk)))%Q),
             log_events w [EvTensorTo device; EvTensorTo device; EvForward; EvLoss]).
Proof.
  intros Hm Hloss Hne Hwf.
  destruct (NeuralNetwork_forward_stack model (image <$> chunk) Hm) as (X & EX & SX & EF).
  { by destruct chunk. }
  { apply Forall_fmap. eapply Forall_impl; [exact Hwf |]. by intros s [[Hs _] Hok]. }
  unfold default_collate. rewrite EX. cbn [mbind result_mbind result_bind mret result_ret].
  destruct (Hloss (mkTensor [length (image <$> chunk); 10%nat]
                     (concat (map (sample_scores model) (image <$> chunk))))
                  (label <$> chunk)) as [loss El].
  { cbn [shape]. by rewrite !length_fmap. }
  { apply Forall_fmap. eapply Forall_impl; [exact Hwf |]. by intros s [[_ Hl] _]. }
  destruct (result_mapM_argmax_scores model (image <$> chunk) Hm) as [am Ea].
  eexists _, loss. split; [reflexivity |].
  rewrite test_batch_run. cbn [batch_X batch_y]. rewrite EF, El.
  unfold Tensor_argmax1. cbn [shape data].
  rewrite (rows_const_width (sample_scores model) 10 _ (image <$> chunk));
    [| intros r; by apply length_Sequential_row | done].
  rewrite Ea. by rewrite (count_equal_correct model chunk am Ea).
Qed.

(** The loop of [test] over the batches stacked from chunks of well-formed
    digits counts exactly the samples that are classified correctly. *)
Lemma test_loop_exact (device : Device) (model : NeuralNetwork R) (loss_fn : LossFn R) :
  NeuralNetwork_ok model -> loss_total loss_fn ->
  forall (chunks : list (Dataset R)) (i : nat) (test_loss correct : Q) (w : World),
    Forall (fun c => c <> [] /\ Forall sample_wf c) chunks ->
    exists test_loss' correct' w',
      for_enumerate (fun _ => test_batch device model loss_fn) i
        (default_collate <$> chunks) (test_loss, correct) w
      = Ok ((test_loss', correct'), w')
      /\ (correct' == correct + inject_Z (Z.of_nat (count_correct model (concat chunks))))%Q.
Proof.
  intros Hm Hloss chunks.
  induction chunks as [|chunk chunks IH]; intros i tl c w Hc.
  - exists tl, c, w. split; [done |]. simpl. rewrite Qplus_0_r. reflexivity.
  - apply Forall_cons in Hc as [[Hne Hwf] Hc].
    destruct (test_batch_chunk device model loss_fn chunk tl c w Hm Hloss Hne Hwf)
      as (b & loss & Eb & Estep).
    destruct (IH (S i) (tl + s_item loss)%Q
                (c + inject_Z (Z.of_nat (count_correct model chunk)))%Q
                (log_events w [EvTensorTo device; EvTensorTo device; EvForward; EvLoss]) Hc)
      as (tl' & c' & w' & E & Hc').
    exists tl', c', w'. split.
    + rewrite fmap_cons. cbn [for_enumerate]. rewrite Eb.
      unfold mbind at 1, M_bind at 1. cbn [lift].
      rewrite (bind_run _ _ _ _ _ Estep). exact E.
    + rewrite Hc'. cbn [concat]. rewrite count_correct_app, Nat2Z.inj_add, inject_Z_plus.
      ring.
Qed.

(** Fetching along a permutation of the indices gives a permutation of the
    dataset. *)
Lemma result_mapM_perm {A B} (f : A -> result B) (l l' : list A) :
  l ≡ₚ l' -> forall r', result_mapM f l' = Ok r' ->
  exists r, result_mapM f l = Ok r /\ r ≡ₚ r'.
Proof.
  induction 1 as [|a l l' _ IH|a a' l|l l1 l' _ IH1 _ IH2]; intros r' E.
  - exists []. by injection E as <-.
  - simpl in E. destruct (f a) as [b|] eqn:Ea; simpl in E; [| done].
    destruct (result_mapM f l') as [bs|] eqn:El; simpl in E; [| done].
    injection E as <-. destruct (IH bs eq_refl) as (r & Er & Hp).
    exists (b :: r). simpl. rewrite Ea. simpl. rewrite Er. simpl. split; [done |].
    by constructor.
  - simpl in E. destruct (f a) as [b|] eqn:Ea; simpl in E; [| done].
    destruct (f a') as [b'|] eqn:Ea'; simpl in E; [| done].
    destruct (result_mapM f l) as [bs|] eqn:El; simpl in E; [| done].
    injection E as <-. exists (b' :: b :: bs). simpl. rewrite Ea, Ea'. simpl.
    rewrite El. simpl. split; [done |]. apply perm_swap.
  - destruct (IH2 r' E) as (r1 & E1 & Hp1). destruct (IH1 r1 E1) as (r & Er & Hp).
    exists r. split; [done |]. by etrans.
Qed.

Lemma DataLoader_len_covers (n bs : nat) :
  (0 < bs)%nat -> (n <= (n + bs - 1) / bs * bs)%nat.
Proof.
  intros Hbs.
  pose proof (Nat.div_mod_eq (n + bs - 1) bs) as Hdm.
  pose proof (Nat.mod_upper_bound (n + bs - 1) bs ltac:(lia)) as Hub.
  nia.
Qed.

(** The batches of a loader over a dataset of well-formed digits are stacked
    from non-empty chunks that together are a permutation of the dataset. *)
Lemma DataLoader_batches_chunks (dl : DataLoader R) (indices : list nat) :
  (0 < dl_batch_size dl)%nat -> dataset_wf (dl_dataset dl) ->
  indices ≡ₚ seq 0 (length (dl_dataset dl)) ->
  exists chunks,
    DataLoader_batches dl indices = default_collate <$> chunks
    /\ Forall (fun c => c <> [] /\ Forall sample_wf c) chunks
    /\ concat chunks ≡ₚ dl_dataset dl.
Proof.
  intros Hbs Hwf Hperm.
  destruct (result_mapM_perm (Dataset_getitem (dl_dataset dl)) _ _ Hperm (dl_dataset dl))
    as (samples & Es & Hp).
  { apply (Dataset_getitem_seq (dl_dataset dl) []). }
  exists (rows (dl_batch_size dl) (DataLoader_len dl) samples).
  assert (Hlen : length samples = length (dl_dataset dl)) by (by rewrite Hp).
  split; [| split].
  - unfold DataLoader_batches. by apply fetch_rows.
  - pose proof (rows_nonempty (dl_batch_size dl) (DataLoader_len dl) samples) as Hne.
    rewrite Hlen in Hne. specialize (Hne (DataLoader_len_chunks _ _)).
    rewrite Forall_forall in Hne |- *. intros c Hc. split; [by apply Hne |].
    apply Forall_forall. intros s Hs.
    unfold dataset_wf in Hwf. rewrite <- Hp in Hwf. rewrite Forall_forall in Hwf.
    apply Hwf. by eapply rows_elem.
  - rewrite concat_rows; [done |]. rewrite Hlen. unfold DataLoader_len.
    rewrite Nat.mul_comm. rewrite Nat.mul_comm. by apply DataLoader_len_covers.
Qed.

(** [test] on a non-empty dataset of well-formed digits, with what it
    counts. *)
Lemma test_exact (dataloader : DataLoader R) (device : Device) (model : NeuralNetwork R)
    (loss_fn : LossFn R) (w : World) :
  NeuralNetwork_ok model -> loss_total loss_fn -> sampler_ok dataloader ->
  dataset_wf (dl_dataset dataloader) -> dl_dataset dataloader <> [] ->
  (0 < dl_batch_size dataloader)%nat ->
  exists (w' : World) (accuracy avg_loss : Q),
    test dataloader device model loss_fn w = Ok (NeuralNetwork_eval model, w')
    /\ last (trace w') = Some (EvPrint (MsgTestError (100 * accuracy) avg_loss))
    /\ (accuracy == inject_Z (Z.of_nat (count_correct model (dl_dataset dataloader)))
                    / inject_Z (Z.of_nat (length (dl_dataset dataloader))))%Q.
Proof.
  intros Hm Hloss Hs Hwf Hne Hbs. rewrite test_unfold.
  destruct (DataLoader_iter_run dataloader (log_events w [EvEvalMode; EvNoGrad true]) Hs)
    as (indices & r' & Eit & Hperm).
  rewrite Eit. set (w1 := mkWorld _ _ r' _).
  destruct (DataLoader_batches_chunks dataloader indices Hbs Hwf Hperm)
    as (chunks & -> & Hchunks & Hcat).
  destruct (test_loop_exact device (NeuralNetwork_eval model) loss_fn) with
    (chunks := chunks) (i := 0%nat) (test_loss := 0%Q) (correct := 0%Q) (w := w1)
    as (tl & c & w2 & Eloop & Hc); [| done | done |].
  { destruct Hm as (l0 & l2 & l4 & Hst & Hl). exists l0, l2, l4. done. }
  unfold for_each. rewrite Eloop.
  rewrite py_div_nat_pos by (by apply DataLoader_len_pos).
  rewrite py_div_nat_pos by (destruct (dl_dataset dataloader); [done | simpl; lia]).
  eexists _, _, _. split; [reflexivity |]. split.
  - cbn [log_events trace]. rewrite last_app. reflexivity.
  - rewrite Hc, Qplus_0_l.
    change (count_correct (NeuralNetwork_eval model) (concat chunks))
      with (count_correct model (concat chunks)).
    rewrite (count_correct_perm model _ _ Hcat). reflexivity.
Qed.

(** X4: the accuracy the test step reports is the share of the samples of
    the dataset whose first largest score is at their label, each sample
    being scored by itself. It is the same for every batch size and for
    every order in which the loader yields the samples. *)
Theorem test_accuracy_is_the_share_of_correct_samples
    (dataloader : DataLoader R) (device : Device) (model : NeuralNetwork R)
    (loss_fn : LossFn R) (w : World) :
  NeuralNetwork_ok model -> loss_total loss_fn -> sampler_ok dataloader ->
  dataset_wf (dl_dataset dataloader) -> dl_dataset dataloader <> [] ->
  (0 < dl_batch_size dataloader)%nat ->
  exists (w' : World) (accuracy avg_loss : Q),
    test dataloader device model loss_fn w = Ok (NeuralNetwork_eval model, w')
    /\ last (trace w') = Some (EvPrint (MsgTestError (100 * accuracy) avg_loss))
    /\ (accuracy == inject_Z (Z.of_nat (count_correct model (dl_dataset dataloader)))
                    / inject_Z (Z.of_nat (length (dl_dataset dataloader))))%Q.
Proof. apply test_exact. Qed.

End AccuracyExact.

(** ** [train]: steps, progress lines and the empty dataset *)

Section TrainExtra.
Context {R : Type} `{Scalar R} `{Framework R}.

Lemma count_prints_app (a b : list (Event R)) :
  count_prints (a ++ b) = (count_prints a + count_prints b)%nat.
Proof. unfold count_prints. by rewrite filter_app, length_app. Qed.

Lemma count_prints_train_progress (size batch : nat) (X : Tensor R) (loss : R) :
  count_prints (train_progress size batch X loss)
  = if bool_decide (Z.of_nat batch `mod` 100 = 0) then 1%nat else 0%nat.
Proof. unfold train_progress. by destruct (bool_decide _). Qed.

(** The batch indices at which [train] prints: the multiples of 100. *)
Lemma count_multiples_of_100 (n : nat) :
  length (filter (fun j => Z.of_nat j `mod` 100 = 0) (seq 0 n)) = ((n + 99) / 100)%nat.
Proof.
  induction n as [|n IH]; [done |].
  rewrite seq_S, filter_app, length_app, IH. cbn [plus].
  rewrite filter_cons, filter_nil.
  assert (Hdiv : ((S n + 99) / 100
                  = (n + 99) / 100
                    + (if decide (Z.of_nat n `mod` 100 = 0)%Z then 1 else 0))%nat).
  { pose proof (Nat.div_mod_eq n 100) as Hdm.
    pose proof (Nat.mod_upper_bound n 100 ltac:(lia)) as Hub.
    assert (Hz : Z.of_nat n `mod` 100 = Z.of_nat (n mod 100)).
    { rewrite Nat2Z.inj_mod. reflexivity. }
    destruct (decide (Z.of_nat n `mod` 100 = 0)) as [Hm | Hm].
    - assert (Hm' : (n mod 100 = 0)%nat) by lia.
      rewrite <- (Nat.div_unique (S n + 99) 100 (S (n / 100)) 0) by lia.
      rewrite <- (Nat.div_unique (n + 99) 100 (n / 100) 99) by lia. lia.
    - assert (Hm' : (n mod 100 <> 0)%nat) by lia.
      rewrite <- (Nat.div_unique (S n + 99) 100 (S (n / 100)) (n mod 100)) by lia.
      rewrite <- (Nat.div_unique (n + 99) 100 (S (n / 100)) (n mod 100 - 1)) by lia. lia. }
  change (S (n + 99)) with (S n + 99)%nat in Hdiv |- *.
  rewrite Hdiv. destruct (decide _); reflexivity.
Qed.

(** Whenever the loop of [train] comes to its end, it has left the seven
    calls once per batch and a progress line at every batch index that is a
    multiple of 100, and has touched neither the files nor the random
    source. *)
Lemma train_loop_inv (size : nat) (device : Device) (loss_fn : LossFn R) :
  forall (batches : list (result (Batch R))) (i : nat)
         (st st' : NeuralNetwork R * Optimizer R) (w w' : World),
    for_enumerate (train_batch size device loss_fn) i batches st w = Ok (st', w') ->
    exists evs,
      trace w' = trace w ++ evs
      /\ calls evs = concat (replicate (length batches) (step_calls device))
      /\ count_steps evs = length batches
      /\ count_prints evs
         = length (filter (fun j => Z.of_nat j `mod` 100 = 0) (seq i (length batches)))
      /\ files w' = files w /\ rng w' = rng w
      /\ (batches = [] -> st' = st /\ w' = w).
Proof.
  intros batches.
  induction batches as [|rb batches IH]; intros i [model optimizer] st' w w' E.
  - injection E as <- <-. exists []. rewrite app_nil_r. repeat split; done.
  - cbn [for_enumerate] in E.
    apply bind_inv in E as (b & w0 & Eb & E). apply lift_inv in Eb as [-> ->].
    apply bind_inv in E as ([model1 optimizer1] & w1 & Estep & E).
    rewrite train_batch_run in Estep.
    destruct (NeuralNetwork_forward model (batch_X b)) as [pred|e]; [| done].
    destruct (loss_fn pred (batch_y b)) as [loss|e]; [| done].
    cbv zeta in Estep. injection Estep as <- <- <-.
    apply IH in E as (evs & Et & Ec & En & Ep & Ef & Er & _).
    exists (step_calls device ++ train_progress size i (batch_X b) loss ++ evs).
    split; [| split; [| split; [| split; [| split; [| split; [| done]]]]]].
    + rewrite Et. cbn [trace]. by rewrite <- !app_assoc.
    + rewrite !calls_app, calls_step_calls, calls_train_progress, Ec. reflexivity.
    + rewrite !count_steps_app, count_steps_step_calls, count_steps_train_progress, En.
      reflexivity.
    + rewrite !count_prints_app, count_prints_train_progress, Ep.
      cbn [length seq]. rewrite filter_cons.
      unfold count_prints, step_calls. cbn [filter list_filter].
      destruct (decide (Z.of_nat i `mod` 100 = 0)) as [Hm | Hm].
      * rewrite bool_decide_eq_true_2 by done. reflexivity.
      * rewrite bool_decide_eq_false_2 by done. reflexivity.
    + rewrite Ef. reflexivity.
    + rewrite Er. reflexivity.
Qed.

(** [train], whenever it returns. *)
Lemma train_inv (dataloader : DataLoader R) (device : Device) (model : NeuralNetwork R)
    (loss_fn : LossFn R) (optimizer : Optimizer R) (w : World)
    (st' : NeuralNetwork R * Optimizer R) (w' : World) :
  train dataloader device model loss_fn optimizer w = Ok (st', w') ->
  files w' = files w
  /\ (DataLoader_shuffles dataloader = false -> rng w' = (torch_seed (rng w)).2)
  /\ exists evs,
       trace w' = trace w ++ EvTrainMode :: evs
       /\ calls evs = concat (replicate (DataLoader_len dataloader) (step_calls device))
       /\ count_steps evs = DataLoader_len dataloader
       /\ count_prints evs = ((DataLoader_len dataloader + 99) / 100)%nat.
Proof.
  intros E. unfold train in E.
  rewrite (bind_run _ _ _ _ _ (emit_run EvTrainMode w)) in E.
  apply bind_inv in E as (batches & w1 & Eit & E).
  apply DataLoader_iter_frame in Eit as (Et1 & Ef1 & Eg1 & Er1 & (indices & ->)).
  apply train_loop_inv in E as (evs & Et & Ec & En & Ep & Ef & Er & _).
  rewrite length_DataLoader_batches in Ec, En, Ep.
  split; [by rewrite Ef, Ef1 |]. split.
  - intros Hs. rewrite Er, (Er1 Hs). reflexivity.
  - exists evs. rewrite Et, Et1. cbn [log_events trace]. rewrite <- app_assoc.
    repeat split; try done. by rewrite Ep, count_multiples_of_100.
Qed.

(** X5: whenever the training step returns, whatever the model, the loss
    and the dataset, it has made exactly one optimizer update per batch of
    the loader, each after the six calls that lead to it, and has written no
    file. Of the random source it has taken, when the loader does not
    shuffle, exactly the base seed of the one iterator it has made. *)
Theorem train_takes_one_step_per_batch_and_writes_no_file
    (dataloader : DataLoader R) (device : Device) (model : NeuralNetwork R)
    (loss_fn : LossFn R) (optimizer : Optimizer R) (w : World) :
  match train dataloader device model loss_fn optimizer w with
  | Ok (_, w') =>
      files w' = files w
      /\ (DataLoader_shuffles dataloader = false -> rng w' = (torch_seed (rng w)).2)
      /\ exists evs,
           trace w' = trace w ++ EvTrainMode :: evs
           /\ calls evs
              = concat (replicate (DataLoader_len dataloader)
                          [EvTensorTo device; EvTensorTo device; EvForward; EvLoss;
                           EvZeroGrad; EvBackward; EvStep])
           /\ count_steps evs = DataLoader_len dataloader
  | Raise _ => True
  end.
Proof.
  destruct (train dataloader device model loss_fn optimizer w) as [[st' w']|e] eqn:E;
    [| done].
  apply train_inv in E as (Ef & Er & (evs & Et & Ec & En & _)).
  split; [done |]. split; [done |]. by exists evs.
Qed.

(** X6: the number of progress lines the training step prints over a
    loader of [n] batches is [(n + 99) / 100], the number of batch indices
    below [n] that are multiples of 100; it is at least one as soon as there
    is a batch. *)
Theorem train_prints_every_hundredth_batch
    (dataloader : DataLoader R) (device : Device) (model : NeuralNetwork R)
    (loss_fn : LossFn R) (optimizer : Optimizer R) (w : World) :
  match train dataloader device model loss_fn optimizer w with
  | Ok (_, w') =>
      count_prints (drop (length (trace w)) (trace w'))
      = ((DataLoader_len dataloader + 99) / 100)%nat
      /\ ((0 < DataLoader_len dataloader)%nat ->
          (0 < count_prints (drop (length (trace w)) (trace w')))%nat)
  | Raise _ => True
  end.
Proof.
  destruct (train dataloader device model loss_fn optimizer w) as [[st' w']|e] eqn:E;
    [| done].
  apply train_inv in E as (_ & _ & (evs & Et & _ & _ & Ep)).
  rewrite Et, drop_app_length.
  change (EvTrainMode :: evs) with ([EvTrainMode] ++ evs).
  rewrite count_prints_app, Ep. cbn [plus]. split; [done |].
  intros Hn. change (count_prints [EvTrainMode]) with 0%nat. cbn [plus].
  apply Nat.div_str_pos. lia.
Qed.

(** X7: on an empty dataset, with a loader that does not shuffle, the
    training step makes no framework call and prints nothing: it switches
    the model to training mode, makes the iterator of the loader, which
    draws its base seed, and returns the model with the parameters, the
    optimizer, the files and the gradients as they were. *)
Theorem train_on_the_empty_dataset_takes_no_step
    (dataloader : DataLoader R) (device : Device) (model : NeuralNetwork R)
    (loss_fn : LossFn R) (optimizer : Optimizer R) (w : World) :
  dl_dataset dataloader = [] -> DataLoader_shuffles dataloader = false ->
  train dataloader device model loss_fn optimizer w
  = Ok ((NeuralNetwork_train model, optimizer),
        mkWorld (trace w ++ [EvTrainMode]) (files w) (torch_seed (rng w)).2 (grads w)).
Proof.
  intros Hds Hs. unfold train.
  rewrite (bind_run _ _ _ _ _ (emit_run EvTrainMode w)).
  rewrite (bind_run _ _ _ _ _ (DataLoader_iter_sequential _ _ Hs)).
  unfold DataLoader_batches, DataLoader_len. rewrite Hds. cbn [length plus].
  replace ((dl_batch_size dataloader - 1) / dl_batch_size dataloader)%nat with 0%nat.
  - reflexivity.
  - destruct (dl_batch_size dataloader) as [|bs]; [done |].
    symmetry. apply Nat.div_small. lia.
Qed.

End TrainExtra.

(** ** [predict]: every outcome *)

Section PredictExtra.
Context {R : Type} `{Scalar R} `{Framework R}.

Lemma NeuralNetwork_forward_rows_gen (m : NeuralNetwork R) (X : Tensor R)
    (B d1 : nat) (rest : list nat) :
  NeuralNetwork_ok m -> shape X = B :: d1 :: rest ->
  numel (d1 :: rest) = (28 * 28)%nat ->
  NeuralNetwork_forward m X
  = Ok (mkTensor [B; 10%nat]
          (concat (map (Sequential_row (linear_relu_stack m))
                       (rows (28 * 28) B (data X))))).
Proof.
  intros Hm HX Hn. unfold NeuralNetwork_forward, Flatten_forward. rewrite HX.
  cbn [result_bind].
  by rewrite (Sequential_forward_rows m _ B Hm) by (cbn [shape]; by rewrite Hn).
Qed.

(** The class [predict] computes, by the shape of the sample. *)
Lemma predicted_class_cases (model : NeuralNetwork R) (x : Tensor R) :
  NeuralNetwork_ok model ->
  match shape x with
  | c :: d1 :: rest =>
      if decide (numel (d1 :: rest) = (28 * 28)%nat)
      then
        if decide (c = 0%nat)
        then predicted_class model x = Raise IndexError
        else predicted_class model x
             = argmax (Sequential_row (linear_relu_stack model)
                         (take (28 * 28) (data x)))
      else predicted_class model x = Raise RuntimeError
  | _ => predicted_class model x = Raise IndexError
  end.
Proof.
  intros Hm. unfold predicted_class.
  cbn [Module_call Module_eval NeuralNetwork_Module].
  change (NeuralNetwork_forward (NeuralNetwork_eval model) x)
    with (NeuralNetwork_forward model x).
  pose proof (forward_shape_cases model x Hm) as Hcases.
  destruct (shape x) as [|c [|d1 rest]] eqn:Es.
  - by rewrite Hcases.
  - by rewrite Hcases.
  - destruct (decide (numel (d1 :: rest) = (28 * 28)%nat)) as [Hn | Hn].
    2:{ by rewrite Hcases. }
    clear Hcases.
    rewrite (NeuralNetwork_forward_rows_gen model x c d1 rest Hm Es Hn).
    cbn [mbind result_mbind result_bind]. unfold Tensor_getitem0. cbn [shape data].
    destruct (decide (c = 0%nat)) as [-> | Hc].
    + reflexivity.
    + rewrite bool_decide_eq_false_2 by done. cbn [result_bind].
      unfold Tensor_argmax0. cbn [shape data].
      destruct c as [|c]; [done |]. cbn [rows map concat].
      change (numel [10%nat]) with 10%nat.
      rewrite take_app_length' by (symmetry; by apply length_Sequential_row).
      reflexivity.
Qed.

(** X8: what [predict] does, case by case. It fails with [IndexError] on
    an empty dataset, on a first sample of rank 0 or 1, and on a first sample
    whose first axis is empty; it fails with [RuntimeError] on a first sample
    whose other axes do not multiply to 784, as a 28x28 image without its
    channel axis does, because the model takes the first axis for the batch.
    Otherwise it prints the class of the first 784 values of the sample, a
    number from 0 to 9, against the label, and returns the model in
    evaluation mode. *)
Theorem predict_outcomes (model : NeuralNetwork R) (test_data : Dataset R) (w : World) :
  NeuralNetwork_ok model ->
  match test_data with
  | [] => predict test_data model w = Raise IndexError
  | s :: _ =>
      match shape (image s) with
      | c :: d1 :: rest =>
          if decide (numel (d1 :: rest) = (28 * 28)%nat)
          then
            if decide (c = 0%nat)
            then predict test_data model w = Raise IndexError
            else
              exists predicted,
                argmax (Sequential_row (linear_relu_stack model)
                          (take (28 * 28) (data (image s)))) = Ok predicted
                /\ 0 <= predicted <= 9
                /\ predict test_data model w
                   = Ok (NeuralNetwork_eval model,
                         log_events w [EvEvalMode; EvNoGrad true; EvForward;
                                       EvPrint (MsgPredicted predicted (label s));
                                       EvNoGrad false])
          else predict test_data model w = Raise RuntimeError
      | _ => predict test_data model w = Raise IndexError
      end
  end.
Proof.
  intros Hm. rewrite predict_run.
  destruct test_data as [|s rest0]; [reflexivity |].
  cbn [Dataset_getitem lookup list_lookup].
  pose proof (predicted_class_cases model (image s) Hm) as Hcases.
  destruct (shape (image s)) as [|c [|d1 rest]] eqn:Es.
  - by rewrite Hcases.
  - by rewrite Hcases.
  - destruct (decide (numel (d1 :: rest) = (28 * 28)%nat)) as [Hn | Hn].
    2:{ by rewrite Hcases. }
    destruct (decide (c = 0%nat)) as [Hc | Hc].
    { by rewrite Hcases. }
    rewrite Hcases.
    set (scores := Sequential_row (linear_relu_stack model) (take (28 * 28) (data (image s)))).
    assert (Hl : length scores = 10%nat) by (by apply length_Sequential_row).
    destruct (argmax_nonempty scores) as [p Hp].
    { intros E. rewrite E in Hl. done. }
    exists p. split; [exact Hp |]. split.
    { apply argmax_bound in Hp. lia. }
    rewrite Hp. reflexivity.
Qed.

(** X9: a second [predict] prints the same line as the first and hands
    back the model the first has left, unchanged. *)
Theorem predict_twice_prints_the_same (model : NeuralNetwork R) (test_data : Dataset R)
    (w : World) :
  match predict test_data model w with
  | Ok (model1, w1) =>
      exists line,
        trace w1 = trace w ++ line
        /\ predict test_data model1 w1 = Ok (model1, log_events w1 line)
  | Raise _ => True
  end.
Proof.
  rewrite predict_run.
  destruct (Dataset_getitem test_data 0) as [s|e] eqn:Es; [| done].
  destruct (predicted_class model (image s)) as [p|e] eqn:Ep; [| done].
  eexists. split; [reflexivity |].
  rewrite predict_run, Es.
  change (predicted_class (Module_eval model) (image s))
    with (predicted_class model (image s)).
  rewrite Ep. reflexivity.
Qed.

End PredictExtra.

(** ** The predicted class has the highest score *)

Section ArgmaxOrder.
Context {R : Type} `{Scalar R} `{Framework R}.
Hypothesis Hord : ltb_strict_weak_order (R := R).

Lemma ltb_trans (a b c : R) : s_ltb a b = true -> s_ltb b c = true -> s_ltb a c = true.
Proof.
  destruct Hord as [Hasym Hneg]. intros Hab Hbc.
  destruct (Hneg a c b Hab) as [Hac | Hcb]; [exact Hac |].
  apply Hasym in Hbc. congruence.
Qed.

Lemma ltb_below (a b c : R) : s_ltb a b = false -> s_ltb a c = true -> s_ltb b c = true.
Proof.
  destruct Hord as [Hasym Hneg]. intros Hab Hac.
  destruct (Hneg a b c Hac) as [Hab' | Hbc]; [congruence | exact Hbc].
Qed.

(** The scan of [argmax] keeps the first of the largest values seen. *)
Lemma argmax_from_first_max (l pre : list R) (best_i : nat) (best : R) :
  pre !! best_i = Some best ->
  (forall y, y ∈ pre -> s_ltb best y = false) ->
  (forall j y, (j < best_i)%nat -> pre !! j = Some y -> s_ltb y best = true) ->
  exists top,
    (pre ++ l) !! argmax_from best_i best (length pre) l = Some top
    /\ (forall y, y ∈ pre ++ l -> s_ltb top y = false)
    /\ (forall j y, (j < argmax_from best_i best (length pre) l)%nat ->
                    (pre ++ l) !! j = Some y -> s_ltb y top = true).
Proof.
  revert pre best_i best. induction l as [|a l IH]; intros pre best_i best Hb Hle Hlt.
  - cbn [argmax_from]. rewrite app_nil_r. eauto.
  - cbn [argmax_from].
    replace (pre ++ a :: l) with ((pre ++ [a]) ++ l) by (by rewrite <- app_assoc).
    replace (S (length pre)) with (length (pre ++ [a]))
      by (rewrite length_app; cbn [length]; lia).
    destruct (s_ltb best a) eqn:Ea.
    + replace (length pre) with (length pre + 0)%nat at 1 by lia.
      apply IH.
      * replace (length pre + 0)%nat with (length pre) by lia.
        by rewrite lookup_app_r, Nat.sub_diag.
      * intros y Hy. apply elem_of_app in Hy as [Hy | Hy].
        -- destruct (s_ltb a y) eqn:Eay; [| done].
           pose proof (Hle y Hy) as Hby.
           rewrite (ltb_trans best a y Ea Eay) in Hby. done.
        -- apply list_elem_of_singleton in Hy. subst.
           destruct Hord as [Hasym _]. destruct (s_ltb a a) eqn:Eaa; [| done].
           apply Hasym in Eaa as Eaa'. congruence.
      * intros j y Hj Hy. replace (length pre + 0)%nat with (length pre) in Hj by lia.
        rewrite lookup_app_l in Hy by done.
        apply (ltb_below best y a); [| exact Ea].
        apply Hle. by eapply list_elem_of_lookup_2.
    + apply IH.
      * rewrite lookup_app_l; [done |]. by apply lookup_lt_Some in Hb.
      * intros y Hy. apply elem_of_app in Hy as [Hy | Hy]; [by apply Hle |].
        apply list_elem_of_singleton in Hy. by subst.
      * intros j y Hj Hy. apply (Hlt j y Hj).
        rewrite lookup_app_l in Hy; [done |]. apply lookup_lt_Some in Hb. lia.
Qed.

Lemma argmax_first_max (l : list R) (p : Z) :
  argmax l = Ok p ->
  exists top,
    l !! Z.to_nat p = Some top
    /\ (forall y, y ∈ l -> s_ltb top y = false)
    /\ (forall j y, (j < Z.to_nat p)%nat -> l !! j = Some y -> s_ltb y top = true).
Proof.
  destruct l as [|a l]; [done |]. cbn [argmax]. intros [= <-].
  rewrite Nat2Z.id.
  apply (argmax_from_first_max l [a] 0 a).
  - reflexivity.
  - intros y Hy. apply list_elem_of_singleton in Hy. subst.
    destruct Hord as [Hasym _]. destruct (s_ltb a a) eqn:Eaa; [| done].
    apply Hasym in Eaa as Eaa'. congruence.
  - intros j y Hj. lia.
Qed.

(** X10: for every scalar type whose comparison orders the scores as [<]
    orders numbers, the class [predict] computes for a sample has the
    highest of the ten scores the model gives to the sample, and is the
    first class with that score: no score is above it and every score
    before it is below it. *)
Theorem predicted_class_has_the_highest_score (model : NeuralNetwork R) (x : Tensor R) (p : Z) :
  NeuralNetwork_ok model ->
  predicted_class model x = Ok p ->
  exists top,
    Sequential_row (linear_relu_stack model) (take (28 * 28) (data x)) !! Z.to_nat p
    = Some top
    /\ (forall y, y ∈ Sequential_row (linear_relu_stack model) (take (28 * 28) (data x)) ->
                  s_ltb top y = false)
    /\ (forall j y, (j < Z.to_nat p)%nat ->
                    Sequential_row (linear_relu_stack model) (take (28 * 28) (data x)) !! j
                    = Some y ->
                    s_ltb y top = true).
Proof.
  intros Hm Hp. apply argmax_first_max.
  pose proof (predicted_class_cases model x Hm) as Hcases.
  destruct (shape x) as [|c [|d1 rest]]; [congruence | congruence |].
  destruct (decide _); [| congruence].
  destruct (decide _); congruence.
Qed.

End ArgmaxOrder.

(** ** [run_pytorch]: the whole run *)

Section PipelineExtra.
Context {R : Type} `{Scalar R} `{Framework R}.

Lemma predicted_class_digit (model : NeuralNetwork R) (x : Tensor R) :
  NeuralNetwork_ok model -> shape x = [1; 28; 28]%nat ->
  exists p, predicted_class model x = Ok p /\ 0 <= p <= 9.
Proof.
  intros Hm Hx. pose proof (predicted_class_cases model x Hm) as Hcases.
  rewrite Hx in Hcases.
  destruct (decide _) as [_ | Hn]; [| exfalso; apply Hn; reflexivity].
  destruct (decide _) as [Hc | _]; [discriminate Hc |].
  set (scores := Sequential_row _ _) in Hcases.
  assert (Hl : length scores = 10%nat) by (by apply length_Sequential_row).
  destruct (argmax_nonempty scores) as [p Hp].
  { intros E. rewrite E in Hl. done. }
  exists p. split; [congruence |]. apply argmax_bound in Hp. lia.
Qed.

(** One epoch, with the number of optimizer steps it takes. *)
Lemma run_pytorch_epoch_steps (train_dataloader test_dataloader : DataLoader R)
    (device : Device) (loss_fn : LossFn R) (t : Z) (model : NeuralNetwork R)
    (optimizer : Optimizer R) (w : World) :
  NeuralNetwork_ok model -> step_keeps_ok -> loss_total loss_fn ->
  sampler_ok train_dataloader -> sampler_ok test_dataloader ->
  dataset_ok (dl_dataset train_dataloader) -> dataset_ok (dl_dataset test_dataloader) ->
  dl_dataset test_dataloader <> [] -> (0 < dl_batch_size test_dataloader)%nat ->
  exists model' optimizer' w' evs,
    run_pytorch_epoch train_dataloader test_dataloader device loss_fn t (model, optimizer) w
    = Ok ((model', optimizer'), w')
    /\ trace w' = trace w ++ evs
    /\ count_steps evs = DataLoader_len train_dataloader
    /\ files w' = files w
    /\ NeuralNetwork_ok model'.
Proof.
  intros Hm Hstep Hloss Hstr Hste Hdtr Hdte Hne Hbs.
  destruct (train_ok train_dataloader device model loss_fn optimizer
              (log_events w [EvPrint (MsgEpoch (t + 1))]) Hm Hstep Hloss Hstr Hdtr)
    as (model1 & optimizer1 & w1 & evs1 & Etr & Et1 & _ & _ & En1 & Hm1 & Ef1).
  destruct (test_ok test_dataloader device model1 loss_fn w1 Hm1 Hloss Hste Hdte Hne Hbs)
    as (w2 & Ete).
  destruct (test_frame test_dataloader device model1 loss_fn w1 _ _ Ete)
    as (_ & _ & Ef2 & _ & _ & evs2 & report & Et2 & _ & En2).
  exists (NeuralNetwork_eval model1), optimizer1, w2,
    ([EvPrint (MsgEpoch (t + 1)); EvTrainMode] ++ evs1
       ++ [EvEvalMode; EvNoGrad true] ++ evs2 ++ [EvNoGrad false; EvPrint report]).
  split; [| split; [| split; [| split]]].
  - unfold run_pytorch_epoch, print.
    rewrite (bind_run _ _ _ _ _ (emit_run _ w)).
    rewrite (bind_run _ _ _ _ _ Etr). cbv beta iota.
    rewrite (bind_run _ _ _ _ _ Ete). reflexivity.
  - rewrite Et2, Et1. cbn [log_events trace]. rewrite <- !app_assoc. reflexivity.
  - rewrite !count_steps_app, En1, En2.
    change (count_steps [EvPrint (MsgEpoch (t + 1)); EvTrainMode]) with 0%nat.
    change (count_steps [EvEvalMode; EvNoGrad true]) with 0%nat.
    change (count_steps [EvNoGrad false; EvPrint report]) with 0%nat. lia.
  - rewrite Ef2, Ef1. reflexivity.
  - by apply (NeuralNetwork_ok_stack model1).
Qed.

Lemma run_pytorch_epochs_steps (train_dataloader test_dataloader : DataLoader R)
    (device : Device) (loss_fn : LossFn R) :
  step_keeps_ok -> loss_total loss_fn ->
  sampler_ok train_dataloader -> sampler_ok test_dataloader ->
  dataset_ok (dl_dataset train_dataloader) -> dataset_ok (dl_dataset test_dataloader) ->
  dl_dataset test_dataloader <> [] -> (0 < dl_batch_size test_dataloader)%nat ->
  forall (ts : list Z) (i : nat) (model : NeuralNetwork R) (optimizer : Optimizer R)
         (w : World),
    NeuralNetwork_ok model ->
    exists model' optimizer' w' evs,
      for_enumerate
        (fun _ => run_pytorch_epoch train_dataloader test_dataloader device loss_fn)
        i (Ok <$> ts) (model, optimizer) w
      = Ok ((model', optimizer'), w')
      /\ trace w' = trace w ++ evs
      /\ count_steps evs = (length ts * DataLoader_len train_dataloader)%nat
      /\ files w' = files w
      /\ NeuralNetwork_ok model'.
Proof.
  intros Hstep Hloss Hstr Hste Hdtr Hdte Hne Hbs ts.
  induction ts as [|t ts IH]; intros i model optimizer w Hm.
  - exists model, optimizer, w, []. simpl. by rewrite app_nil_r.
  - destruct (run_pytorch_epoch_steps train_dataloader test_dataloader device loss_fn t
                model optimizer w Hm Hstep Hloss Hstr Hste Hdtr Hdte Hne Hbs)
      as (model1 & optimizer1 & w1 & evs1 & E1 & Et1 & En1 & Ef1 & Hm1).
    destruct (IH (S i) model1 optimizer1 w1 Hm1)
      as (model' & optimizer' & w' & evs & E & Et & En & Ef & Hm').
    exists model', optimizer', w', (evs1 ++ evs).
    split; [| split; [| split; [| split]]].
    + rewrite fmap_cons. cbn [for_enumerate].
      unfold mbind at 1, M_bind at 1. cbn [lift].
      rewrite (bind_run _ _ _ _ _ E1). exact E.
    + rewrite Et, Et1. by rewrite <- app_assoc.
    + rewrite count_steps_app, En1, En. cbn [length]. lia.
    + by rewrite Ef, Ef1.
    + exact Hm'.
Qed.

(** What [run_pytorch] does once the loop over the epochs has returned. *)
Lemma run_pytorch_after_loop (batch_size epochs : Z) (w : World) (s : Sample R)
    (rest : Dataset R) (trained : NeuralNetwork R) (optimizer : Optimizer R) (w1 : World) :
  0 < batch_size ->
  datasets_MNIST false = s :: rest -> sample_ok s -> NeuralNetwork_ok trained ->
  for_each (run_pytorch_epoch
              (mkDataLoader (datasets_MNIST true) (Z.to_nat batch_size) None 16)
              (mkDataLoader (datasets_MNIST false) (Z.to_nat batch_size) None 8)
              (if cuda_is_available then cuda else cpu) CrossEntropyLoss)
    (Ok <$> py_range epochs)
    (NeuralNetwork_init (torch_init (rng w)).1,
     optim_SGD (NeuralNetwork_parameters "" (NeuralNetwork_init (torch_init (rng w)).1))
       (1 # 100) (9 # 10))
    (mkWorld (trace w ++ [EvModuleTo (if cuda_is_available then cuda else cpu)]) (files w)
       (torch_init (rng w)).2 (grads w))
  = Ok ((trained, optimizer), w1) ->
  exists p,
    predicted_class trained (image s) = Ok p /\ 0 <= p <= 9
    /\ run_pytorch batch_size epochs w
       = Ok (tt, mkWorld (trace w1 ++ [EvPrint (MsgText "Done!"); EvSave "model.pth";
                            EvPrint (MsgText "Saved PyTorch Model State to model.pth");
                            EvLoad "model.pth";
                            EvEvalMode; EvNoGrad true; EvForward;
                            EvPrint (MsgPredicted p (label s)); EvNoGrad false])
                   (<["model.pth" := NeuralNetwork_state_dict trained]> (files w1))
                   (torch_init (rng w1)).2 (grads w1)).
Proof.
  intros Hbs Etest [Hs0 Hl0] Hm1 Eloop.
  destruct (predicted_class_digit trained (image s) Hm1 Hs0) as (p & Ep & Hp).
  exists p. split; [exact Ep |]. split; [exact Hp |].
  unfold run_pytorch.
  rewrite !DataLoader_new_pos by done.
  unfold mbind at 1, M_bind at 1. cbn [lift].
  unfold mbind at 1, M_bind at 1. cbn [lift].
  unfold mbind at 1, M_bind at 1. rewrite NeuralNetwork_new_run.
  unfold mbind at 1, M_bind at 1. rewrite Module_to_run.
  unfold log_events at 1. cbn [trace files rng grads].
  rewrite (bind_run _ _ _ _ _ Eloop).
  unfold print.
  rewrite (bind_run _ _ _ _ _ (emit_run _ w1)).
  rewrite (bind_run _ _ _ _ _ (torch_save_run _ _ _)).
  unfold mbind at 1, M_bind at 1. rewrite emit_run.
  unfold mbind at 1, M_bind at 1. rewrite NeuralNetwork_new_run.
  unfold mbind at 1, M_bind at 1.
  rewrite (torch_load_run "model.pth" (NeuralNetwork_state_dict trained))
    by (cbn [files log_events]; apply lookup_insert_eq).
  unfold mbind at 1, M_bind at 1.
  unfold NeuralNetwork_load_state_dict at 1. unfold NeuralNetwork_state_dict at 1.
  rewrite (Sequential_round_trip "linear_relu_stack." (linear_relu_stack trained)).
  - cbn [mbind result_mbind result_bind mret result_ret lift training NeuralNetwork_init].
    unfold mbind at 1, M_bind at 1.
    rewrite predict_run, Etest. cbn [Dataset_getitem lookup list_lookup].
    change (predicted_class (mkNeuralNetwork true (linear_relu_stack trained)) (image s))
      with (predicted_class trained (image s)).
    rewrite Ep. unfold log_events. cbn [trace files rng grads mret M_ret].
    rewrite <- !app_assoc. reflexivity.
  - apply NeuralNetwork_ok_arch. by apply (NeuralNetwork_ok_stack trained).
  - apply (NeuralNetwork_init_arch (torch_init (rng w1)).1).
Qed.

(** The whole of [run_pytorch], run. *)
Lemma run_pytorch_run (batch_size epochs : Z) (w : World) (s : Sample R) (rest : Dataset R) :
  0 < batch_size ->
  init_ok -> step_keeps_ok -> loss_total CrossEntropyLoss ->
  dataset_ok (datasets_MNIST true) -> dataset_ok (datasets_MNIST false) ->
  datasets_MNIST false = s :: rest ->
  exists trained optimizer w1 evs p,
    for_each (run_pytorch_epoch
                (mkDataLoader (datasets_MNIST true) (Z.to_nat batch_size) None 16)
                (mkDataLoader (datasets_MNIST false) (Z.to_nat batch_size) None 8)
                (if cuda_is_available then cuda else cpu) CrossEntropyLoss)
      (Ok <$> py_range epochs)
      (NeuralNetwork_init (torch_init (rng w)).1,
       optim_SGD (NeuralNetwork_parameters "" (NeuralNetwork_init (torch_init (rng w)).1))
         (1 # 100) (9 # 10))
      (mkWorld (trace w ++ [EvModuleTo (if cuda_is_available then cuda else cpu)]) (files w)
         (torch_init (rng w)).2 (grads w))
    = Ok ((trained, optimizer), w1)
    /\ trace w1 = trace w ++ EvModuleTo (if cuda_is_available then cuda else cpu) :: evs
    /\ count_steps evs
       = (length (py_range epochs)
          * DataLoader_len (mkDataLoader (datasets_MNIST true) (Z.to_nat batch_size) None 16))%nat
    /\ files w1 = files w
    /\ NeuralNetwork_ok trained
    /\ predicted_class trained (image s) = Ok p /\ 0 <= p <= 9
    /\ run_pytorch batch_size epochs w
       = Ok (tt, mkWorld (trace w1 ++ [EvPrint (MsgText "Done!"); EvSave "model.pth";
                            EvPrint (MsgText "Saved PyTorch Model State to model.pth");
                            EvLoad "model.pth";
                            EvEvalMode; EvNoGrad true; EvForward;
                            EvPrint (MsgPredicted p (label s)); EvNoGrad false])
                   (<["model.pth" := NeuralNetwork_state_dict trained]> (files w1))
                   (torch_init (rng w1)).2 (grads w1)).
Proof.
  intros Hbs Hinit Hstep Hloss Hdtr Hdte Etest.
  destruct (run_pytorch_epochs_steps
              (mkDataLoader (datasets_MNIST true) (Z.to_nat batch_size) None 16)
              (mkDataLoader (datasets_MNIST false) (Z.to_nat batch_size) None 8)
              (if cuda_is_available then cuda else cpu) CrossEntropyLoss
              Hstep Hloss (unshuffled_sampler_ok _ _ _) (unshuffled_sampler_ok _ _ _)
              Hdtr Hdte ltac:(cbn [dl_dataset]; by rewrite Etest) ltac:(simpl; lia)
              (py_range epochs) 0
              (NeuralNetwork_init (torch_init (rng w)).1)
              (optim_SGD (NeuralNetwork_parameters "" (NeuralNetwork_init (torch_init (rng w)).1))
                 (1 # 100) (9 # 10))
              (mkWorld (trace w ++ [EvModuleTo (if cuda_is_available then cuda else cpu)])
                 (files w) (torch_init (rng w)).2 (grads w))
              (Hinit (rng w)))
    as (trained & optimizer & w1 & evs & Eloop & Et1 & En1 & Ef1 & Hm1).
  assert (Hs0 : sample_ok s).
  { rewrite Etest in Hdte. by apply Forall_cons in Hdte as [Hs0 _]. }
  destruct (run_pytorch_after_loop batch_size epochs w s rest trained optimizer w1
              Hbs Etest Hs0 Hm1 Eloop) as (p & Ep & Hp & Erun).
  exists trained, optimizer, w1, evs, p.
  split; [exact Eloop |].
  split; [| split; [| split; [| split; [| split; [| split]]]]]; try done.
  cbn [trace] in Et1. rewrite Et1, <- app_assoc. reflexivity.
Qed.

Lemma length_py_range_nat (n : Z) : length (py_range n) = Z.to_nat n.
Proof. unfold py_range. by rewrite length_fmap, length_seq. Qed.

(** X11: the line [run_pytorch] prints last compares the label of the first
    test digit with the class the trained model gives to that digit: the
    model reloaded from [model.pth] predicts as the model the last epoch has
    left. The class is a number from 0 to 9. *)
Theorem run_pytorch_reports_the_prediction_of_the_trained_model
    (batch_size epochs : Z) (w : World) (s : Sample R) (rest : Dataset R) :
  0 < batch_size ->
  init_ok -> step_keeps_ok -> loss_total CrossEntropyLoss ->
  dataset_ok (datasets_MNIST true) -> dataset_ok (datasets_MNIST false) ->
  datasets_MNIST false = s :: rest ->
  exists trained optimizer w1 w' p before,
    for_each (run_pytorch_epoch
                (mkDataLoader (datasets_MNIST true) (Z.to_nat batch_size) None 16)
                (mkDataLoader (datasets_MNIST false) (Z.to_nat batch_size) None 8)
                (if cuda_is_available then cuda else cpu) CrossEntropyLoss)
      (Ok <$> py_range epochs)
      (NeuralNetwork_init (torch_init (rng w)).1,
       optim_SGD (NeuralNetwork_parameters "" (NeuralNetwork_init (torch_init (rng w)).1))
         (1 # 100) (9 # 10))
      (mkWorld (trace w ++ [EvModuleTo (if cuda_is_available then cuda else cpu)]) (files w)
         (torch_init (rng w)).2 (grads w))
    = Ok ((trained, optimizer), w1)
    /\ run_pytorch batch_size epochs w = Ok (tt, w')
    /\ trace w' = before ++ [EvPrint (MsgPredicted p (label s)); EvNoGrad false]
    /\ predicted_class trained (image s) = Ok p
    /\ 0 <= p <= 9.
Proof.
  intros Hbs Hinit Hstep Hloss Hdtr Hdte Etest.
  destruct (run_pytorch_run batch_size epochs w s rest Hbs Hinit Hstep Hloss Hdtr Hdte Etest)
    as (trained & optimizer & w1 & evs & p & Eloop & Et1 & En & Ef & Hm & Ep & Hp & Erun).
  exists trained, optimizer, w1. eexists. exists p.
  exists (trace w1 ++ ([EvPrint (MsgText "Done!"); EvSave "model.pth";
                        EvPrint (MsgText "Saved PyTorch Model State to model.pth");
                        EvLoad "model.pth"; EvEvalMode; EvNoGrad true; EvForward]
                       : list (Event R))).
  split; [exact Eloop |]. split; [exact Erun |]. split; [| done].
  cbn [trace]. rewrite <- app_assoc. reflexivity.
Qed.

(** X12: a run of [run_pytorch] takes as many optimizer steps as there are
    epochs times batches in the training set, the last batch of an epoch
    possibly short. *)
Theorem run_pytorch_takes_a_step_per_batch_and_epoch (batch_size epochs : Z) (w : World) :
  0 < batch_size ->
  init_ok -> step_keeps_ok -> loss_total CrossEntropyLoss ->
  dataset_ok (datasets_MNIST true) -> dataset_ok (datasets_MNIST false) ->
  datasets_MNIST false <> [] ->
  exists w',
    run_pytorch batch_size epochs w = Ok (tt, w')
    /\ count_steps (drop (length (trace w)) (trace w'))
       = (Z.to_nat epochs
          * ((length (datasets_MNIST true) + Z.to_nat batch_size - 1)
             / Z.to_nat batch_size))%nat.
Proof.
  intros Hbs Hinit Hstep Hloss Hdtr Hdte Hne.
  destruct (datasets_MNIST false) as [|s rest] eqn:Etest; [done |].
  rewrite <- Etest in Hdte.
  destruct (run_pytorch_run batch_size epochs w s rest Hbs Hinit Hstep Hloss Hdtr Hdte Etest)
    as (trained & optimizer & w1 & evs & p & _ & Et1 & En & Ef & _ & _ & _ & Erun).
  eexists. split; [exact Erun |].
  cbn [trace]. rewrite Et1, <- app_assoc, drop_app_length.
  change (EvModuleTo (if cuda_is_available then cuda else cpu) :: evs)
    with ([EvModuleTo (R := R) (if cuda_is_available then cuda else cpu)] ++ evs).
  rewrite !count_steps_app, En, length_py_range_nat.
  unfold DataLoader_len. cbn [dl_dataset dl_batch_size].
  change (count_steps [EvModuleTo (R := R) (if cuda_is_available then cuda else cpu)])
    with 0%nat.
  match goal with |- context [count_steps ?l] =>
    change (count_steps l) with 0%nat end.
  lia.
Qed.

(** X13: with no epoch to run, [run_pytorch] trains nothing and tests
    nothing: it moves the freshly built model to the device, writes its
    initial parameters to [model.pth], reloads them and prints the class
    the initial model gives to the first test digit. *)
Theorem run_pytorch_without_epochs_persists_the_initial_model
    (batch_size epochs : Z) (w : World) (s : Sample R) (rest : Dataset R) :
  0 < batch_size -> epochs <= 0 ->
  init_ok -> datasets_MNIST false = s :: rest -> sample_ok s ->
  exists w' p,
    run_pytorch batch_size epochs w = Ok (tt, w')
    /\ predicted_class (NeuralNetwork_init (torch_init (rng w)).1) (image s) = Ok p
    /\ 0 <= p <= 9
    /\ drop (length (trace w)) (trace w')
       = [EvModuleTo (if cuda_is_available then cuda else cpu);
          EvPrint (MsgText "Done!"); EvSave "model.pth";
          EvPrint (MsgText "Saved PyTorch Model State to model.pth");
          EvLoad "model.pth"; EvEvalMode; EvNoGrad true; EvForward;
          EvPrint (MsgPredicted p (label s)); EvNoGrad false]
    /\ files w' !! "model.pth"
       = Some (NeuralNetwork_state_dict (NeuralNetwork_init (torch_init (rng w)).1)).
Proof.
  intros Hbs Hep Hinit Etest Hs0.
  destruct (run_pytorch_after_loop batch_size epochs w s rest
              (NeuralNetwork_init (torch_init (rng w)).1)
              (optim_SGD (NeuralNetwork_parameters "" (NeuralNetwork_init (torch_init (rng w)).1))
                 (1 # 100) (9 # 10))
              (mkWorld (trace w ++ [EvModuleTo (if cuda_is_available then cuda else cpu)])
                 (files w) (torch_init (rng w)).2 (grads w))
              Hbs Etest Hs0 (Hinit (rng w)))
    as (p & Ep & Hp & Erun).
  { unfold py_range. replace (Z.to_nat epochs) with 0%nat by lia. reflexivity. }
  eexists. exists p. split; [exact Erun |]. split; [exact Ep |]. split; [exact Hp |]. split.
  - cbn [trace]. rewrite <- app_assoc, drop_app_length. reflexivity.
  - cbn [files]. apply lookup_insert_eq.
Qed.

End PipelineExtra.

(** ** Batch sizes below one *)

Section BatchSize.
Context {R : Type} `{Scalar R} `{Framework R}.
Variable Trainer_fit :
  Trainer -> NeuralNetworkModule R -> DataLoader R -> DataLoader R -> M (NeuralNetworkModule R).

(** X14: both pipelines refuse a batch size below one: each raises
    [ValueError], whatever the number of epochs and whatever the trainer. *)
Theorem pipelines_reject_a_batch_size_below_one (batch_size epochs : Z) (w : World) :
  batch_size <= 0 ->
  run_pytorch batch_size epochs w = Raise ValueError
  /\ run_pytorch_lightning Trainer_fit batch_size epochs w = Raise ValueError.
Proof.
  intros Hbs. split.
  - unfold run_pytorch. apply bind_raise.
    unfold DataLoader_new. by rewrite bool_decide_eq_true_2.
  - unfold run_pytorch_lightning. apply bind_raise.
    unfold DataLoader_new. by rewrite bool_decide_eq_true_2.
Qed.

End BatchSize.

(** ** State dicts *)

Section StateDictExtra.
Context {R : Type} `{Scalar R} `{Framework R}.

(** X15: the parameters of the two pipelines are not interchangeable. The
    Lightning module holds the network in its attribute [model], so every
    key of its state dict starts with [model.]; the plain network refuses
    that state dict with [RuntimeError], and the Lightning module refuses
    the state dict of the plain network. *)
Theorem state_dicts_of_the_two_pipelines_do_not_mix (m : NeuralNetwork R)
    (pm : NeuralNetworkModule R) :
  NeuralNetwork_arch m -> NeuralNetwork_arch (model pm) ->
  NeuralNetwork_load_state_dict m (NeuralNetworkModule_state_dict pm) = Raise RuntimeError
  /\ NeuralNetworkModule_load_state_dict pm (NeuralNetwork_state_dict m) = Raise RuntimeError.
Proof.
  intros (l0 & l2 & l4 & Hs & _) (k0 & k2 & k4 & Hs0 & _).
  unfold NeuralNetwork_load_state_dict, NeuralNetworkModule_load_state_dict,
    NeuralNetworkModule_state_dict, NeuralNetwork_state_dict,
    Sequential_load_state_dict, Sequential_state_dict.
  rewrite Hs, Hs0.
  cbn [Sequential_named_parameters Sequential_load list_to_map foldr uncurry fst snd].
  split.
  - unfold load_param at 1.
    do 6 (rewrite lookup_insert_ne by (vm_compute; discriminate)).
    rewrite lookup_empty. reflexivity.
  - unfold load_param at 1.
    do 6 (rewrite lookup_insert_ne by (vm_compute; discriminate)).
    rewrite lookup_empty. reflexivity.
Qed.

(** X16: what [model.pth] holds. The state dict of a network has six
    entries, the weight and the bias of the layers 0, 2 and 4 of the stack
    under the names PyTorch gives them, with the shapes the constructor
    fixes; together they hold 669706 numbers. The two [ReLU] layers and the
    training flag are not part of it. *)
Theorem state_dict_holds_six_named_tensors (m : NeuralNetwork R) :
  NeuralNetwork_ok m ->
  shape <$> NeuralNetwork_state_dict m
  = list_to_map
      [("linear_relu_stack.0.weight", [512; 28 * 28]%nat);
       ("linear_relu_stack.0.bias", [512%nat]);
       ("linear_relu_stack.2.weight", [512; 512]%nat);
       ("linear_relu_stack.2.bias", [512%nat]);
       ("linear_relu_stack.4.weight", [10; 512]%nat);
       ("linear_relu_stack.4.bias", [10%nat])]
  /\ size (NeuralNetwork_state_dict m) = 6%nat
  /\ Z.of_nat (sum_list ((fun kt => length (data kt.2))
                           <$> Sequential_named_parameters "linear_relu_stack." 0
                                 (linear_relu_stack m)))
     = 669706.
Proof.
  intros (l0 & l2 & l4 & Hs & L0 & L2 & L4).
  destruct L0 as [(_ & _ & W0 & B0) [TW0 TB0]].
  destruct L2 as [(_ & _ & W2 & B2) [TW2 TB2]].
  destruct L4 as [(_ & _ & W4 & B4) [TW4 TB4]].
  unfold NeuralNetwork_state_dict, Sequential_state_dict. rewrite Hs.
  cbn [Sequential_named_parameters list_to_map foldr uncurry fst snd].
  split; [| split].
  - rewrite !fmap_insert, fmap_empty, W0, B0, W2, B2, W4, B4. reflexivity.
  - rewrite !map_size_insert_None, map_size_empty; [reflexivity | ..].
    all: repeat (rewrite lookup_insert_ne by (vm_compute; discriminate)).
    all: apply lookup_empty.
  - rewrite !fmap_cons, fmap_nil, !sum_list_cons. cbn [snd sum_list].
    unfold tensor_ok in *.
    rewrite TW0, TB0, TW2, TB2, TW4, TB4, W0, B0, W2, B2, W4, B4.
    rewrite !numel_2. unfold numel. cbn [foldr]. lia.
Qed.

End StateDictExtra.

(** ** The Lightning pipeline and its validation callbacks *)

Section LightningExtra.
Context {R : Type} `{Scalar R} `{Framework R}.
Variable Trainer_fit :
  Trainer -> NeuralNetworkModule R -> DataLoader R -> DataLoader R -> M (NeuralNetworkModule R).

(** The part of [run_pytorch_lightning] that follows the loaders. *)
Lemma run_pytorch_lightning_unfold (batch_size epochs : Z) (w : World) :
  0 < batch_size ->
  run_pytorch_lightning Trainer_fit batch_size epochs w
  = (trainer ← lift (Trainer_new epochs 1);
     model ← Trainer_fit trainer
       (mkNeuralNetworkModule true (NeuralNetwork_init (torch_init (rng w)).1)
          (Accuracy_new 10))
       (mkDataLoader (datasets_MNIST true) (Z.to_nat batch_size) None 16)
       (mkDataLoader (datasets_MNIST false) (Z.to_nat batch_size) None 8);
     Trainer_save_checkpoint model "model.ckpt";;
     print (MsgText "Saved PyTorch Lightning Model State to model.ckpt");;
     model ← load_from_checkpoint "model.ckpt";
     predict (datasets_MNIST false) model;;
     mret tt)
      (mkWorld (trace w) (files w) (torch_init (rng w)).2 (grads w)).
Proof.
  intros Hbs. unfold run_pytorch_lightning.
  rewrite !DataLoader_new_pos by done.
  unfold mbind at 1, M_bind at 1. cbn [lift].
  unfold mbind at 1, M_bind at 1. cbn [lift].
  unfold mbind at 1, M_bind at 1. unfold NeuralNetworkModule_new.
  rewrite (bind_run _ _ _ _ _ (NeuralNetwork_new_run w)). reflexivity.
Qed.

(** X17: on a machine without a GPU [run_pytorch_lightning] fails with
    [MisconfigurationException] when it builds the trainer, before any fit.
    With a GPU it calls the trainer once, for [epochs] epochs on one GPU,
    with a freshly built module and the two loaders built in dataset order
    with the given batch size. When the trainer raises, so does the
    program. When the trainer hands back a fitted module, the program
    writes its parameters to [model.ckpt], prints, reloads them into a new
    module and predicts the first test digit: the class it prints is the
    class of the fitted model, a number from 0 to 9. *)
Theorem run_pytorch_lightning_fits_once_then_persists_and_predicts
    (batch_size epochs : Z) (w : World) (s : Sample R) (rest : Dataset R) :
  0 < batch_size -> datasets_MNIST false = s :: rest -> sample_ok s ->
  if cuda_is_available
  then
    match Trainer_fit (mkTrainer epochs 1)
            (mkNeuralNetworkModule true (NeuralNetwork_init (torch_init (rng w)).1)
               (Accuracy_new 10))
            (mkDataLoader (datasets_MNIST true) (Z.to_nat batch_size) None 16)
            (mkDataLoader (datasets_MNIST false) (Z.to_nat batch_size) None 8)
            (mkWorld (trace w) (files w) (torch_init (rng w)).2 (grads w))
    with
    | Ok (fitted, w1) =>
        NeuralNetwork_ok (model fitted) ->
        exists p,
          predicted_class (model fitted) (image s) = Ok p /\ 0 <= p <= 9
          /\ run_pytorch_lightning Trainer_fit batch_size epochs w
             = Ok (tt, mkWorld
                         (trace w1
                          ++ [EvSave "model.ckpt";
                              EvPrint (MsgText "Saved PyTorch Lightning Model State to model.ckpt");
                              EvLoad "model.ckpt";
                              EvEvalMode; EvNoGrad true; EvForward;
                              EvPrint (MsgPredicted p (label s)); EvNoGrad false])
                         (<["model.ckpt" := NeuralNetworkModule_state_dict fitted]> (files w1))
                         (torch_init (rng w1)).2 (grads w1))
    | Raise e => run_pytorch_lightning Trainer_fit batch_size epochs w = Raise e
    end
  else run_pytorch_lightning Trainer_fit batch_size epochs w = Raise MisconfigurationException.
Proof.
  intros Hbs Etest [Hs0 Hl0].
  destruct cuda_is_available eqn:Ecuda.
  2:{ rewrite (run_pytorch_lightning_unfold batch_size epochs w Hbs).
      unfold Trainer_new. rewrite Ecuda. reflexivity. }
  assert (Erun : run_pytorch_lightning Trainer_fit batch_size epochs w
    = (model ← Trainer_fit (mkTrainer epochs 1)
          (mkNeuralNetworkModule true (NeuralNetwork_init (torch_init (rng w)).1)
             (Accuracy_new 10))
          (mkDataLoader (datasets_MNIST true) (Z.to_nat batch_size) None 16)
          (mkDataLoader (datasets_MNIST false) (Z.to_nat batch_size) None 8);
       Trainer_save_checkpoint model "model.ckpt";;
       print (MsgText "Saved PyTorch Lightning Model State to model.ckpt");;
       model ← load_from_checkpoint "model.ckpt";
       predict (datasets_MNIST false) model;;
       mret tt)
        (mkWorld (trace w) (files w) (torch_init (rng w)).2 (grads w))).
  { rewrite (run_pytorch_lightning_unfold batch_size epochs w Hbs).
    unfold Trainer_new. rewrite Ecuda. reflexivity. }
  rewrite Erun. clear Erun.
  destruct (Trainer_fit _ _ _ _ _) as [[fitted w1]|e] eqn:Efit.
  2:{ by apply bind_raise. }
  intros Hm.
  destruct (predicted_class_digit (model fitted) (image s) Hm Hs0) as (p & Ep & Hp).
  exists p. split; [exact Ep |]. split; [exact Hp |].
  rewrite (bind_run _ _ _ _ _ Efit).
  pose proof (checkpoint_reload_run fitted w1 (NeuralNetwork_ok_arch _ Hm)) as Eck.
  unfold mbind at 1, M_bind at 1 in Eck.
  unfold mbind at 1, M_bind at 1.
  destruct (Trainer_save_checkpoint fitted "model.ckpt" w1) as [[[] w2]|e]; [| done].
  unfold mbind at 1, M_bind at 1 in Eck.
  unfold mbind at 1, M_bind at 1.
  destruct (print _ w2) as [[[] w3]|e]; [| done].
  rewrite (bind_run _ _ _ _ _ Eck).
  unfold mbind at 1, M_bind at 1.
  rewrite predict_run, Etest. cbn [Dataset_getitem lookup list_lookup].
  change (predicted_class (mkNeuralNetworkModule true
            (mkNeuralNetwork true (linear_relu_stack (model fitted))) (Accuracy_new 10))
            (image s))
    with (predicted_class (model fitted) (image s)).
  rewrite Ep. cbn [trace files rng grads mret M_ret].
  rewrite <- !app_assoc. reflexivity.
Qed.

(** X18: [validation_step] only measures. Whenever it returns, the
    network of the module is the one it was given, no gradient and no file
    has changed, the metric has seen the labels of the batch, and it still
    counts no more correct predictions than samples. *)
Theorem validation_step_only_measures (self : NeuralNetworkModule R) (batch : Batch R)
    (batch_idx : nat) (w : World) :
  Accuracy_ok (metric self) ->
  match validation_step self batch batch_idx w with
  | Ok ((self', out), w') =>
      model self' = model self
      /\ pl_training self' = pl_training self
      /\ acc_total (metric self') = (acc_total (metric self) + length (batch_y batch))%nat
      /\ (acc_correct (metric self) <= acc_correct (metric self'))%nat
      /\ Accuracy_ok (metric self')
      /\ (exists loss, out = {[ "val_loss" := loss ]}
                       /\ trace w' = trace w ++ [EvForward; EvLoss; EvMetricUpdate;
                                                 EvLog "val_loss" (LogTensor loss)])
      /\ files w' = files w /\ grads w' = grads w /\ rng w' = rng w
  | Raise _ => True
  end.
Proof.
  intros Hok. rewrite validation_step_run.
  destruct (NeuralNetworkModule_forward self (batch_X batch)) as [pred|e]; [| done].
  destruct (CrossEntropyLoss pred (batch_y batch)) as [loss|e]; [| done].
  unfold Accuracy_update.
  destruct (Tensor_argmax1 pred) as [am|e]; [| done].
  cbn [mbind result_mbind result_bind mret result_ret model pl_training metric
       trace files grads rng].
  pose proof (count_equal_le am (batch_y batch)) as Hle.
  unfold Accuracy_ok in *.
  set (c := acc_correct (metric self)) in *. set (t := acc_total (metric self)) in *.
  unfold acc_total, acc_correct. cbn [acc_state].
  repeat split; try done; try lia.
  by exists loss.
Qed.

(** X19: the accuracy [validation_epoch_end] logs, once the metric has
    seen a sample, is the share of correct predictions among the samples
    seen, a number from 0 to 1; the metric it leaves behind has seen
    nothing. *)
Theorem validation_epoch_end_logs_a_share (self : NeuralNetworkModule R)
    (outputs : list (gmap string R)) (w : World) :
  Accuracy_ok (metric self) -> (0 < acc_total (metric self))%nat ->
  exists v self' w',
    validation_epoch_end self outputs w = Ok (self', w')
    /\ trace w' = trace w ++ [EvMetricCompute; EvLog "val_acc" (LogNumber v); EvMetricReset]
    /\ (v == inject_Z (Z.of_nat (acc_correct (metric self)))
             / inject_Z (Z.of_nat (acc_total (metric self))))%Q
    /\ (0 <= v)%Q /\ (v <= 1)%Q
    /\ acc_total (metric self') = 0%nat /\ acc_correct (metric self') = 0%nat
    /\ model self' = model self.
Proof.
  intros Hok Hpos. rewrite validation_epoch_end_run.
  unfold Accuracy_ok, Accuracy_compute, Accuracy_reset, acc_total, acc_correct in *.
  destruct (acc_state (metric self)) as [[correct total]|]; [| lia].
  rewrite bool_decide_eq_false_2 by lia.
  do 3 eexists. split; [reflexivity |]. cbn [trace metric model acc_state].
  split; [reflexivity |]. split; [reflexivity |].
  split; [| split; [| done]].
  - apply Qdiv_nat_nonneg; [done |].
    change 0%Q with (inject_Z 0). rewrite <- Zle_Qle. lia.
  - by apply (Qdiv_nat_le_1 _ correct).
Qed.

End LightningExtra.

(** ** Order of the batches (C5) *)

Section BatchOrder.
Context {R : Type} `{Scalar R} `{Framework R}.

(** C5, as the code has it: in both pipelines the training loader and the
    evaluation loader are built without the [shuffle] argument, so neither
    shuffles. Whatever the state of the random source, iterating either
    yields the consecutive chunks of its dataset, in dataset order, and
    takes from the random source the base seed of the iterator and no
    permutation: every epoch sees the same batches. [run_pytorch] trains and
    tests on these two loaders, so the parameters it writes to [model.pth]
    are those of the epochs run over them; [run_pytorch_lightning] hands
    these two loaders to the trainer, so its run depends on the trainer only
    through what the trainer does with them. *)
Theorem loaders_iterate_in_dataset_order
    (Trainer_fit Trainer_fit' :
       Trainer -> NeuralNetworkModule R -> DataLoader R -> DataLoader R ->
       M (NeuralNetworkModule R))
    (batch_size epochs : Z) (w : World) :
  0 < batch_size ->
  let train_dataloader := mkDataLoader (datasets_MNIST true) (Z.to_nat batch_size) None 16 in
  let test_dataloader := mkDataLoader (datasets_MNIST false) (Z.to_nat batch_size) None 8 in
  let device := if cuda_is_available then cuda else cpu in
  let model0 := NeuralNetwork_init (torch_init (rng w)).1 in
  let optimizer0 := optim_SGD (NeuralNetwork_parameters "" model0) (1 # 100) (9 # 10) in
  let w0 := mkWorld (trace w ++ [EvModuleTo device]) (files w)
                    (torch_init (rng w)).2 (grads w) in
  (forall dl : DataLoader R,
     dl = train_dataloader \/ dl = test_dataloader ->
     DataLoader_shuffles dl = false
     /\ forall w1 : World,
          DataLoader_iter dl w1
          = Ok (default_collate
                  <$> rows (dl_batch_size dl) (DataLoader_len dl) (dl_dataset dl),
                mkWorld (trace w1) (files w1) (torch_seed (rng w1)).2 (grads w1)))
  /\ (init_ok -> step_keeps_ok -> loss_total CrossEntropyLoss ->
      dataset_ok (datasets_MNIST true) -> dataset_ok (datasets_MNIST false) ->
      datasets_MNIST false <> [] ->
      exists trained optimizer w1 w',
        for_each (run_pytorch_epoch train_dataloader test_dataloader device CrossEntropyLoss)
          (Ok <$> py_range epochs) (model0, optimizer0) w0
        = Ok ((trained, optimizer), w1)
        /\ run_pytorch batch_size epochs w = Ok (tt, w')
        /\ files w' !! "model.pth" = Some (NeuralNetwork_state_dict trained))
  /\ ((forall (trainer : Trainer) (m : NeuralNetworkModule R) (w1 : World),
         Trainer_fit trainer m train_dataloader test_dataloader w1
         = Trainer_fit' trainer m train_dataloader test_dataloader w1) ->
      run_pytorch_lightning Trainer_fit batch_size epochs w
      = run_pytorch_lightning Trainer_fit' batch_size epochs w).
Proof.
  intros Hbs train_dataloader test_dataloader device model0 optimizer0 w0.
  split; [| split].
  - intros dl Hdl.
    assert (Hs : DataLoader_shuffles dl = false) by (by destruct Hdl as [-> | ->]).
    split; [exact Hs |]. intros w1.
    rewrite (DataLoader_iter_sequential dl w1 Hs), DataLoader_batches_sequential.
    reflexivity.
  - intros Hinit Hstep Hloss Hdtr Hdte Hne.
    assert (Etest : exists s rest, datasets_MNIST false = s :: rest).
    { destruct (datasets_MNIST false) as [|s rest]; [done | by exists s, rest]. }
    destruct Etest as (s & rest & Etest).
    destruct (run_pytorch_run batch_size epochs w s rest Hbs Hinit Hstep Hloss Hdtr Hdte Etest)
      as (trained & optimizer & w1 & evs & p & Eloop & _ & _ & _ & _ & _ & _ & Erun).
    exists trained, optimizer, w1. eexists.
    split; [exact Eloop |]. split; [exact Erun |].
    cbn [files]. apply lookup_insert_eq.
  - intros Hagree.
    rewrite !run_pytorch_lightning_unfold by done.
    destruct (Trainer_new epochs 1) as [trainer|e]; [| reflexivity].
    unfold mbind at 1, M_bind at 1. cbn [lift]. symmetry.
    unfold mbind at 1, M_bind at 1. cbn [lift]. symmetry.
    unfold mbind at 1, M_bind at 1. symmetry.
    unfold mbind at 1, M_bind at 1. symmetry.
    fold train_dataloader test_dataloader. rewrite Hagree. reflexivity.
Qed.

End BatchOrder.

(** C5 as stated fails: the training loader of the pipelines does not
    shuffle. With three digits labelled 0, 1, 2 and batches of two, the random
    source would offer the order 2, 1, 0, yet the loader yields the labels
    [0; 1] then [2], and does so again from any other state of the source. *)
Lemma training_loader_does_not_shuffle :
  (torch_randperm (rng demo_world) 3).1 = [2; 1; 0]%nat
  /\ exists dl,
       DataLoader_new demo_train_data 2 None 16 = Ok dl
       /\ DataLoader_shuffles dl <> true
       /\ forall r : nat,
            (fmap (M := list) (fmap (M := result) batch_y)) <$>
              (fst <$> DataLoader_iter dl (mkWorld [] ∅ r 0%nat))
            = Ok [Ok [0; 1]; Ok [2]].
Proof.
  split; [reflexivity |].
  eexists. split; [reflexivity |]. split; [discriminate |].
  intros r. vm_compute. reflexivity.
Qed.

Lemma validation_epoch_end_reads_logs_then_resets_witness :
  acc_state (metric demo_module) <> None
  /\ exists v self' w',
       Accuracy_compute (metric demo_module) = Ok v
       /\ validation_epoch_end demo_module [] demo_world = Ok (self', w')
       /\ trace w' = trace demo_world
                       ++ [EvMetricCompute; EvLog "val_acc" (LogNumber v); EvMetricReset]
       /\ acc_state (metric self') = Some (0%nat, 0%nat)
       /\ acc_num_classes (metric self') = acc_num_classes (metric demo_module)
       /\ Accuracy_compute (metric self') = Ok 0%Q
       /\ model self' = model demo_module.
Proof.
  split; [discriminate |].
  apply (proj2 (validation_epoch_end_reads_logs_then_resets demo_module [] demo_world)).
  discriminate.
Defined.

(** ** The further properties on the concrete instance *)

Lemma demo_test_data_wf : dataset_wf demo_test_data.
Proof.
  repeat constructor; try (simpl; lia).
  all: unfold tensor_ok, demo_sample, demo_image, zeros; cbn [image data shape];
    rewrite length_replicate; reflexivity.
Qed.

Lemma demo_images_wf :
  Forall (fun img : Tensor Q => shape img = [1; 28; 28]%nat /\ tensor_ok img)
    [demo_image; demo_image].
Proof.
  repeat constructor.
  all: unfold tensor_ok, demo_image, zeros; cbn [data shape];
    rewrite length_replicate; reflexivity.
Qed.

Lemma demo_predicted_class : predicted_class demo_model demo_image = Ok 3.
Proof. vm_compute. reflexivity. Qed.

Lemma forward_accepts_exactly_rows_of_784_witness :
  NeuralNetwork_ok demo_model
  /\ match shape (mkTensor [28; 28]%nat (zeros (28 * 28))) with
     | B :: d1 :: rest =>
         if decide (numel (d1 :: rest) = (28 * 28)%nat)
         then exists logits,
                NeuralNetwork_forward demo_model (mkTensor [28; 28]%nat (zeros (28 * 28)))
                = Ok logits
                /\ shape logits = [B; 10%nat]
                /\ length (data logits) = (B * 10)%nat
         else NeuralNetwork_forward demo_model (mkTensor [28; 28]%nat (zeros (28 * 28)))
              = Raise RuntimeError
     | _ => NeuralNetwork_forward demo_model (mkTensor [28; 28]%nat (zeros (28 * 28)))
            = Raise IndexError
     end.
Proof.
  split; [exact demo_model_ok |].
  apply (forward_accepts_exactly_rows_of_784 demo_model
           (mkTensor [28; 28]%nat (zeros (28 * 28)))).
  exact demo_model_ok.
Defined.

Lemma batch_scores_are_the_scores_of_each_image_witness :
  NeuralNetwork_ok demo_model /\ [demo_image; demo_image] <> []
  /\ Forall (fun img : Tensor Q => shape img = [1; 28; 28]%nat /\ tensor_ok img)
       [demo_image; demo_image]
  /\ exists X logits,
       Tensor_stack [demo_image; demo_image] = Ok X
       /\ NeuralNetwork_forward demo_model X = Ok logits
       /\ shape logits = [length [demo_image; demo_image]; 10%nat]
       /\ forall (i : nat) (img : Tensor Q),
            [demo_image; demo_image] !! i = Some img ->
            exists alone,
              NeuralNetwork_forward demo_model img = Ok alone
              /\ shape alone = [1; 10]%nat
              /\ rows 10 (length [demo_image; demo_image]) (data logits) !! i
                 = Some (data alone).
Proof.
  split; [exact demo_model_ok |]. split; [discriminate |]. split; [exact demo_images_wf |].
  apply (batch_scores_are_the_scores_of_each_image demo_model [demo_image; demo_image]).
  - exact demo_model_ok.
  - discriminate.
  - exact demo_images_wf.
Defined.

Lemma test_accuracy_is_the_share_of_correct_samples_witness :
  NeuralNetwork_ok demo_model /\ loss_total (R := Q) CrossEntropyLoss
  /\ sampler_ok (mkDataLoader demo_test_data 2 None 8)
  /\ dataset_wf (dl_dataset (mkDataLoader demo_test_data 2 None 8))
  /\ dl_dataset (mkDataLoader demo_test_data 2 None 8) <> []
  /\ (0 < dl_batch_size (mkDataLoader demo_test_data 2 None 8))%nat
  /\ exists (w' : World) (accuracy avg_loss : Q),
       test (mkDataLoader demo_test_data 2 None 8) cpu demo_model CrossEntropyLoss demo_world
       = Ok (NeuralNetwork_eval demo_model, w')
       /\ last (trace w') = Some (EvPrint (MsgTestError (100 * accuracy) avg_loss))
       /\ (accuracy
           == inject_Z (Z.of_nat (count_correct demo_model
                                     (dl_dataset (mkDataLoader demo_test_data 2 None 8))))
              / inject_Z (Z.of_nat (length (dl_dataset (mkDataLoader demo_test_data 2 None 8)))))%Q.
Proof.
  split; [exact demo_model_ok |]. split; [exact demo_loss_total |].
  split; [apply unshuffled_sampler_ok |]. split; [exact demo_test_data_wf |].
  split; [discriminate |]. split; [simpl; lia |].
  apply (test_accuracy_is_the_share_of_correct_samples
           (mkDataLoader demo_test_data 2 None 8) cpu demo_model CrossEntropyLoss demo_world).
  - exact demo_model_ok.
  - exact demo_loss_total.
  - apply unshuffled_sampler_ok.
  - exact demo_test_data_wf.
  - discriminate.
  - simpl; lia.
Defined.

Lemma train_on_the_empty_dataset_takes_no_step_witness :
  dl_dataset (mkDataLoader (R := Q) [] 64 None 16) = []
  /\ DataLoader_shuffles (mkDataLoader (R := Q) [] 64 None 16) = false
  /\ train (mkDataLoader [] 64 None 16) cpu demo_model CrossEntropyLoss
       (optim_SGD (NeuralNetwork_parameters "" demo_model) (1 # 100) (9 # 10)) demo_world
     = Ok ((NeuralNetwork_train demo_model,
            optim_SGD (NeuralNetwork_parameters "" demo_model) (1 # 100) (9 # 10)),
           mkWorld (trace demo_world ++ [EvTrainMode]) (files demo_world)
             (torch_seed (rng demo_world)).2 (grads demo_world)).
Proof.
  split; [reflexivity |]. split; [reflexivity |].
  apply (train_on_the_empty_dataset_takes_no_step
           (mkDataLoader [] 64 None 16) cpu demo_model CrossEntropyLoss
           (optim_SGD (NeuralNetwork_parameters "" demo_model) (1 # 100) (9 # 10)) demo_world).
  - reflexivity.
  - reflexivity.
Defined.

Lemma predict_outcomes_witness :
  NeuralNetwork_ok demo_model
  /\ predict (R := Q) [] demo_model demo_world = Raise IndexError.
Proof.
  split; [exact demo_model_ok |].
  apply (predict_outcomes demo_model [] demo_world). exact demo_model_ok.
Defined.

Lemma Q_ltb_strict_weak_order : ltb_strict_weak_order (R := Q).
Proof.
  split.
  - intros a b Hab. cbn [s_ltb Q_Scalar] in *.
    apply negb_true_iff in Hab. apply negb_false_iff. apply Qle_bool_iff.
    destruct (Qlt_le_dec b a) as [Hlt | Hle]; [| exact Hle].
    apply Qlt_le_weak, Qle_bool_iff in Hlt. congruence.
  - intros a b c Hac. cbn [s_ltb Q_Scalar] in *.
    apply negb_true_iff in Hac.
    destruct (Qle_bool b a) eqn:Eba; [| by left].
    right. apply negb_true_iff.
    destruct (Qle_bool c b) eqn:Ecb; [| done].
    apply Qle_bool_iff in Eba, Ecb.
    assert (Hca : (c <= a)%Q) by (by eapply Qle_trans).
    apply Qle_bool_iff in Hca. congruence.
Qed.

Lemma predicted_class_has_the_highest_score_witness :
  ltb_strict_weak_order (R := Q)
  /\ NeuralNetwork_ok demo_model /\ predicted_class demo_model demo_image = Ok 3
  /\ exists top,
       Sequential_row (linear_relu_stack demo_model) (take (28 * 28) (data demo_image))
         !! Z.to_nat 3 = Some top
       /\ (forall y,
             y ∈ Sequential_row (linear_relu_stack demo_model)
                   (take (28 * 28) (data demo_image)) ->
             s_ltb top y = false)
       /\ (forall j y, (j < Z.to_nat 3)%nat ->
                       Sequential_row (linear_relu_stack demo_model)
                         (take (28 * 28) (data demo_image)) !! j = Some y ->
                       s_ltb y top = true).
Proof.
  split; [exact Q_ltb_strict_weak_order |].
  split; [exact demo_model_ok |]. split; [exact demo_predicted_class |].
  apply (predicted_class_has_the_highest_score Q_ltb_strict_weak_order
           demo_model demo_image 3).
  - exact demo_model_ok.
  - exact demo_predicted_class.
Defined.

Lemma run_pytorch_reports_the_prediction_of_the_trained_model_witness :
  0 < 2 /\ init_ok (R := Q) /\ step_keeps_ok (R := Q)
  /\ loss_total (R := Q) CrossEntropyLoss
  /\ dataset_ok (datasets_MNIST true) /\ dataset_ok (datasets_MNIST false)
  /\ datasets_MNIST false = demo_sample 7 :: [demo_sample 3]
  /\ exists trained optimizer w1 w' p before,
       for_each (run_pytorch_epoch
                   (mkDataLoader (datasets_MNIST true) (Z.to_nat 2) None 16)
                   (mkDataLoader (datasets_MNIST false) (Z.to_nat 2) None 8)
                   (if cuda_is_available then cuda else cpu) CrossEntropyLoss)
         (Ok <$> py_range 2)
         (NeuralNetwork_init (torch_init (rng demo_world)).1,
          optim_SGD (NeuralNetwork_parameters ""
                       (NeuralNetwork_init (torch_init (rng demo_world)).1))
            (1 # 100) (9 # 10))
         (mkWorld (trace demo_world ++ [EvModuleTo (if cuda_is_available then cuda else cpu)])
            (files demo_world) (torch_init (rng demo_world)).2 (grads demo_world))
       = Ok ((trained, optimizer), w1)
       /\ run_pytorch 2 2 demo_world = Ok (tt, w')
       /\ trace w' = before ++ [EvPrint (MsgPredicted p (label (demo_sample 7)));
                                EvNoGrad false]
       /\ predicted_class trained (image (demo_sample 7)) = Ok p
       /\ 0 <= p <= 9.
Proof.
  split; [lia |]. split; [exact demo_init_ok |]. split; [exact demo_step_keeps_ok |].
  split; [exact demo_loss_total |]. split; [exact demo_train_data_ok |].
  split; [exact demo_test_data_ok |]. split; [reflexivity |].
  apply (run_pytorch_reports_the_prediction_of_the_trained_model 2 2 demo_world
           (demo_sample 7) [demo_sample 3]).
  - lia.
  - exact demo_init_ok.
  - exact demo_step_keeps_ok.
  - exact demo_loss_total.
  - exact demo_train_data_ok.
  - exact demo_test_data_ok.
  - reflexivity.
Defined.

Lemma run_pytorch_takes_a_step_per_batch_and_epoch_witness :
  0 < 2 /\ init_ok (R := Q) /\ step_keeps_ok (R := Q)
  /\ loss_total (R := Q) CrossEntropyLoss
  /\ dataset_ok (datasets_MNIST true) /\ dataset_ok (datasets_MNIST false)
  /\ datasets_MNIST false <> []
  /\ exists w',
       run_pytorch 2 2 demo_world = Ok (tt, w')
       /\ count_steps (drop (length (trace demo_world)) (trace w'))
          = (Z.to_nat 2
             * ((length (datasets_MNIST true) + Z.to_nat 2 - 1) / Z.to_nat 2))%nat.
Proof.
  split; [lia |]. split; [exact demo_init_ok |]. split; [exact demo_step_keeps_ok |].
  split; [exact demo_loss_total |]. split; [exact demo_train_data_ok |].
  split; [exact demo_test_data_ok |]. split; [discriminate |].
  apply (run_pytorch_takes_a_step_per_batch_and_epoch 2 2 demo_world).
  - lia.
  - exact demo_init_ok.
  - exact demo_step_keeps_ok.
  - exact demo_loss_total.
  - exact demo_train_data_ok.
  - exact demo_test_data_ok.
  - discriminate.
Defined.

Lemma run_pytorch_without_epochs_persists_the_initial_model_witness :
  0 < 2 /\ 0 <= 0 /\ init_ok (R := Q)
  /\ datasets_MNIST false = demo_sample 7 :: [demo_sample 3]
  /\ sample_ok (demo_sample 7)
  /\ exists w' p,
       run_pytorch 2 0 demo_world = Ok (tt, w')
       /\ predicted_class (NeuralNetwork_init (torch_init (rng demo_world)).1)
            (image (demo_sample 7)) = Ok p
       /\ 0 <= p <= 9
       /\ drop (length (trace demo_world)) (trace w')
          = [EvModuleTo (if cuda_is_available then cuda else cpu);
             EvPrint (MsgText "Done!"); EvSave "model.pth";
             EvPrint (MsgText "Saved PyTorch Model State to model.pth");
             EvLoad "model.pth"; EvEvalMode; EvNoGrad true; EvForward;
             EvPrint (MsgPredicted p (label (demo_sample 7))); EvNoGrad false]
       /\ files w' !! "model.pth"
          = Some (NeuralNetwork_state_dict
                    (NeuralNetwork_init (torch_init (rng demo_world)).1)).
Proof.
  split; [lia |]. split; [lia |]. split; [exact demo_init_ok |].
  split; [reflexivity |]. split; [apply demo_sample_ok; lia |].
  apply (run_pytorch_without_epochs_persists_the_initial_model 2 0 demo_world
           (demo_sample 7) [demo_sample 3]).
  - lia.
  - lia.
  - exact demo_init_ok.
  - reflexivity.
  - apply demo_sample_ok; lia.
Defined.

Lemma pipelines_reject_a_batch_size_below_one_witness :
  0 <= 0
  /\ run_pytorch 0 5 demo_world = Raise ValueError
  /\ run_pytorch_lightning demo_Trainer_fit 0 5 demo_world = Raise ValueError.
Proof.
  split; [lia |].
  apply (pipelines_reject_a_batch_size_below_one demo_Trainer_fit 0 5 demo_world). lia.
Defined.

Lemma state_dicts_of_the_two_pipelines_do_not_mix_witness :
  NeuralNetwork_arch demo_model /\ NeuralNetwork_arch (model demo_module)
  /\ NeuralNetwork_load_state_dict demo_model (NeuralNetworkModule_state_dict demo_module)
     = Raise RuntimeError
  /\ NeuralNetworkModule_load_state_dict demo_module (NeuralNetwork_state_dict demo_model)
     = Raise RuntimeError.
Proof.
  split; [exact (NeuralNetwork_ok_arch _ demo_model_ok) |].
  split; [exact (NeuralNetwork_ok_arch _ demo_model_ok) |].
  apply (state_dicts_of_the_two_pipelines_do_not_mix demo_model demo_module).
  - exact (NeuralNetwork_ok_arch _ demo_model_ok).
  - exact (NeuralNetwork_ok_arch _ demo_model_ok).
Defined.

Lemma state_dict_holds_six_named_tensors_witness :
  NeuralNetwork_ok demo_model
  /\ shape <$> NeuralNetwork_state_dict demo_model
     = list_to_map
         [("linear_relu_stack.0.weight", [512; 28 * 28]%nat);
          ("linear_relu_stack.0.bias", [512%nat]);
          ("linear_relu_stack.2.weight", [512; 512]%nat);
          ("linear_relu_stack.2.bias", [512%nat]);
          ("linear_relu_stack.4.weight", [10; 512]%nat);
          ("linear_relu_stack.4.bias", [10%nat])]
  /\ size (NeuralNetwork_state_dict demo_model) = 6%nat
  /\ Z.of_nat (sum_list ((fun kt : string * Tensor Q => length (data kt.2))
                           <$> Sequential_named_parameters "linear_relu_stack." 0
                                 (linear_relu_stack demo_model)))
     = 669706.
Proof.
  split; [exact demo_model_ok |].
  apply (state_dict_holds_six_named_tensors demo_model). exact demo_model_ok.
Defined.

Section OnAGpu.
#[local] Existing Instance demo_cuda_Framework | 0.

Lemma demo_cuda_init_ok : init_ok (R := Q) (H0 := demo_cuda_Framework).
Proof. intros r. exact demo_model_ok. Qed.

Lemma demo_cuda_step_keeps_ok : step_keeps_ok (R := Q) (H0 := demo_cuda_Framework).
Proof. intros opt g m Hm. exact Hm. Qed.

Lemma demo_cuda_loss_total :
  loss_total (R := Q) (CrossEntropyLoss (Framework := demo_cuda_Framework)).
Proof. intros pred y _ _. by eexists. Qed.

Lemma loaders_iterate_in_dataset_order_witness :
  0 < 2
  /\ init_ok (R := Q) (H0 := demo_cuda_Framework)
  /\ step_keeps_ok (R := Q) (H0 := demo_cuda_Framework)
  /\ loss_total (R := Q) (CrossEntropyLoss (Framework := demo_cuda_Framework))
  /\ dataset_ok (datasets_MNIST (Framework := demo_cuda_Framework) true)
  /\ dataset_ok (datasets_MNIST (Framework := demo_cuda_Framework) false)
  /\ datasets_MNIST (Framework := demo_cuda_Framework) false <> []
  /\ (forall (trainer : Trainer) (m : NeuralNetworkModule Q)
             (w1 : World (H0 := demo_cuda_Framework)),
        demo_cuda_Trainer_fit trainer m
          (mkDataLoader demo_train_data (Z.to_nat 2) None 16)
          (mkDataLoader demo_test_data (Z.to_nat 2) None 8) w1
        = demo_cuda_strict_Trainer_fit trainer m
            (mkDataLoader demo_train_data (Z.to_nat 2) None 16)
            (mkDataLoader demo_test_data (Z.to_nat 2) None 8) w1)
  /\ (forall dl : DataLoader Q,
        dl = mkDataLoader demo_train_data (Z.to_nat 2) None 16
        \/ dl = mkDataLoader demo_test_data (Z.to_nat 2) None 8 ->
        DataLoader_shuffles dl = false
        /\ forall w1 : World (H0 := demo_cuda_Framework),
             DataLoader_iter dl w1
             = Ok (default_collate
                     <$> rows (dl_batch_size dl) (DataLoader_len dl) (dl_dataset dl),
                   mkWorld (H0 := demo_cuda_Framework) (trace w1) (files w1)
                     (torch_seed (rng w1)).2 (grads w1)))
  /\ (exists trained optimizer w1 w',
        for_each (run_pytorch_epoch (H0 := demo_cuda_Framework)
                    (mkDataLoader demo_train_data (Z.to_nat 2) None 16)
                    (mkDataLoader demo_test_data (Z.to_nat 2) None 8)
                    cuda CrossEntropyLoss)
          (Ok <$> py_range 2)
          (demo_model,
           optim_SGD (NeuralNetwork_parameters "" demo_model) (1 # 100) (9 # 10))
          (mkWorld (H0 := demo_cuda_Framework) [EvModuleTo cuda] ∅ 1%nat 0%nat)
        = Ok ((trained, optimizer), w1)
        /\ run_pytorch (H0 := demo_cuda_Framework) 2 2 demo_cuda_world = Ok (tt, w')
        /\ files w' !! "model.pth" = Some (NeuralNetwork_state_dict trained))
  /\ run_pytorch_lightning (H0 := demo_cuda_Framework) demo_cuda_Trainer_fit 2 2
       demo_cuda_world
     = run_pytorch_lightning (H0 := demo_cuda_Framework) demo_cuda_strict_Trainer_fit 2 2
         demo_cuda_world.
Proof.
  destruct (loaders_iterate_in_dataset_order (H0 := demo_cuda_Framework)
              demo_cuda_Trainer_fit demo_cuda_strict_Trainer_fit 2 2 demo_cuda_world
              ltac:(lia)) as (Horder & Hrun & Hfit).
  split; [lia |]. split; [exact demo_cuda_init_ok |].
  split; [exact demo_cuda_step_keeps_ok |]. split; [exact demo_cuda_loss_total |].
  split; [exact demo_train_data_ok |]. split; [exact demo_test_data_ok |].
  split; [discriminate |]. split; [reflexivity |].
  split; [exact Horder |]. split.
  - apply Hrun.
    + exact demo_cuda_init_ok.
    + exact demo_cuda_step_keeps_ok.
    + exact demo_cuda_loss_total.
    + exact demo_train_data_ok.
    + exact demo_test_data_ok.
    + discriminate.
  - apply Hfit. reflexivity.
Defined.

Lemma run_pytorch_lightning_fits_once_then_persists_and_predicts_witness :
  0 < 2 /\ datasets_MNIST (Framework := demo_cuda_Framework) false
           = demo_sample 7 :: [demo_sample 3]
  /\ sample_ok (demo_sample 7)
  /\ cuda_is_available (Framework := demo_cuda_Framework) = true
  /\ demo_cuda_Trainer_fit (mkTrainer 5 1)
       (mkNeuralNetworkModule true demo_model (Accuracy_new 10))
       (mkDataLoader demo_train_data 2 None 16) (mkDataLoader demo_test_data 2 None 8)
       (mkWorld (H0 := demo_cuda_Framework) [] ∅ 1%nat 0%nat)
     = Ok (mkNeuralNetworkModule true demo_model (Accuracy_new 10),
           mkWorld (H0 := demo_cuda_Framework) [] ∅ 1%nat 0%nat)
  /\ NeuralNetwork_ok demo_model
  /\ exists p,
       predicted_class demo_model (image (demo_sample 7)) = Ok p /\ 0 <= p <= 9
       /\ run_pytorch_lightning (H0 := demo_cuda_Framework) demo_cuda_Trainer_fit 2 5
            demo_cuda_world
          = Ok (tt, mkWorld (H0 := demo_cuda_Framework)
                      [EvSave "model.ckpt";
                       EvPrint (MsgText "Saved PyTorch Lightning Model State to model.ckpt");
                       EvLoad "model.ckpt";
                       EvEvalMode; EvNoGrad true; EvForward;
                       EvPrint (MsgPredicted p (label (demo_sample 7))); EvNoGrad false]
                      (<["model.ckpt" := NeuralNetworkModule_state_dict
                                           (mkNeuralNetworkModule true demo_model
                                              (Accuracy_new 10))]> ∅)
                      2%nat 0%nat).
Proof.
  split; [lia |]. split; [reflexivity |]. split; [apply demo_sample_ok; lia |].
  split; [reflexivity |]. split; [reflexivity |]. split; [exact demo_model_ok |].
  apply (run_pytorch_lightning_fits_once_then_persists_and_predicts
           (H0 := demo_cuda_Framework) demo_cuda_Trainer_fit
           2 5 demo_cuda_world (demo_sample 7) [demo_sample 3]).
  - lia.
  - reflexivity.
  - apply demo_sample_ok; lia.
  - exact demo_model_ok.
Defined.

End OnAGpu.

Lemma validation_step_only_measures_witness :
  Accuracy_ok (metric demo_module)
  /\ match validation_step demo_module (mkBatch demo_batch_X [3; 7]) 0 demo_world with
     | Ok ((self', out), w') =>
         model self' = model demo_module
         /\ pl_training self' = pl_training demo_module
         /\ acc_total (metric self')
            = (acc_total (metric demo_module)
               + length (batch_y (mkBatch demo_batch_X [3; 7]%Z)))%nat
         /\ (acc_correct (metric demo_module) <= acc_correct (metric self'))%nat
         /\ Accuracy_ok (metric self')
         /\ (exists loss, out = {[ "val_loss" := loss ]}
                          /\ trace w' = trace demo_world
                                          ++ [EvForward; EvLoss; EvMetricUpdate;
                                              EvLog "val_loss" (LogTensor loss)])
         /\ files w' = files demo_world /\ grads w' = grads demo_world
         /\ rng w' = rng demo_world
     | Raise _ => True
     end.
Proof.
  split; [unfold Accuracy_ok, acc_correct, acc_total; simpl; lia |].
  apply (validation_step_only_measures demo_module (mkBatch demo_batch_X [3; 7]) 0
           demo_world).
  unfold Accuracy_ok, acc_correct, acc_total; simpl; lia.
Defined.

Lemma validation_epoch_end_logs_a_share_witness :
  Accuracy_ok (metric demo_module) /\ (0 < acc_total (metric demo_module))%nat
  /\ exists v self' w',
       validation_epoch_end demo_module [] demo_world = Ok (self', w')
       /\ trace w' = trace demo_world
                       ++ [EvMetricCompute; EvLog "val_acc" (LogNumber v); EvMetricReset]
       /\ (v == inject_Z (Z.of_nat (acc_correct (metric demo_module)))
                / inject_Z (Z.of_nat (acc_total (metric demo_module))))%Q
       /\ (0 <= v)%Q /\ (v <= 1)%Q
       /\ acc_total (metric self') = 0%nat /\ acc_correct (metric self') = 0%nat
       /\ model self' = model demo_module.
Proof.
  split; [unfold Accuracy_ok, acc_correct, acc_total; simpl; lia |].
  split; [unfold acc_total; simpl; lia |].
  apply (validation_epoch_end_logs_a_share demo_module [] demo_world).
  - unfold Accuracy_ok, acc_correct, acc_total; simpl; lia.
  - unfold acc_total; simpl; lia.
Defined.
